(** * CloverAI web client: selection store, query orchestration, result
      rendering and paginated report layout

    A shallow embedding of the client script [src/txtai/script.js] (and of
    the variant of the same script kept in [src/unnamed/part_001], where the
    two differ), together with the properties of the selection sets, of the
    submit state machine, of the rendered result blocks and of the
    cursor-based PDF layout.

    Conventions of the embedding.
    - The module-level objects [state] and [elements] of the script are
      threaded explicitly as a record [World]; every handler is a function
      [World -> World].
    - A JavaScript [Set] is an insertion-ordered sequence without
      duplicates, as [Array.from] observes it.
    - An [async] function is split at its first [await]: [f_begin] is the
      synchronous prefix that runs when the handler is invoked (it issues
      the [fetch]), [f_resume] is what runs when the response arrives.
    - Strings are [string]; a character stands for one code unit.
    - Page coordinates are rationals.
    - A report build is the sequence of calls it makes on the jsPDF
      document, in order; each call is taken to return.
    - Values the browser or jsPDF supplies (the page size, the line
      wrapping of [splitTextToSize], the text serialisation behind
      [innerHTML], the checkboxes the browser finds in a markup assigned to
      [innerHTML], the user's answer to [confirm], the server's response)
      are parameters. *)

From Stdlib Require Import Ascii String QArith Lqa.
From stdpp Require Import base list strings pretty.

Open Scope string_scope.

(** ** Strings *)

(** The double-quote character, written by its code. *)
Definition dquote : string := String "034"%char EmptyString.

(** [Array.prototype.join]. *)
Fixpoint join (sep : string) (l : list string) : string :=
  match l with
  | [] => EmptyString
  | [x] => x
  | x :: rest => x +:+ sep +:+ join sep rest
  end.

(** White space and line terminators that [String.prototype.trim] strips
    (those below code 256). *)
Definition isWhiteSpace (c : ascii) : bool :=
  let n := nat_of_ascii c in
  bool_decide (n = 9 ∨ n = 10 ∨ n = 11 ∨ n = 12 ∨ n = 13 ∨ n = 32 ∨ n = 160)%nat.

Fixpoint trimStart (s : string) : string :=
  match s with
  | EmptyString => EmptyString
  | String c rest => if isWhiteSpace c then trimStart rest else s
  end.

Fixpoint trimEnd (s : string) : string :=
  match s with
  | EmptyString => EmptyString
  | String c rest =>
      match trimEnd rest with
      | EmptyString => if isWhiteSpace c then EmptyString else String c EmptyString
      | r => String c r
      end
  end.

Definition trim (s : string) : string := trimEnd (trimStart s).

(** Truthiness of a string ([''] is falsy). *)
Definition truthy (s : string) : bool :=
  match s with EmptyString => false | String _ _ => true end.

(** Truthiness of an optional string field ([undefined], [null] and ['']
    are falsy). *)
Definition truthyOpt (o : option string) : bool :=
  match o with Some s => truthy s | None => false end.

(** [o || d] for an optional string. *)
Definition orStr (o : option string) (d : string) : string :=
  match o with Some s => if truthy s then s else d | None => d end.

(** [o || 0] for an optional count. *)
Definition orZero (o : option nat) : nat := default 0%nat o.

(** [o || []] for an optional array. *)
Definition orNil {A} (o : option (list A)) : list A := default [] o.

(** ** JavaScript sets of filenames *)

Module JsSet.

Abbreviation t := (list string) (only parsing).

Definition empty : t := [].

Definition has (s : t) (x : string) : bool := bool_decide (x ∈ s).

Definition add (s : t) (x : string) : t := if has s x then s else (s ++ [x])%list.

Definition delete (s : t) (x : string) : t := filter (λ y, y ≠ x) s.

Definition clear (s : t) : t := [].

Definition size (s : t) : nat := List.length s.

(** [Array.from(s)]: the members in insertion order. *)
Definition toArray (s : t) : list string := s.

End JsSet.

(** ** Data model *)

(** An entry of [/api/documents]. *)
Record Document := {
  doc_filename : string;
  doc_char_count : option nat;
  doc_chunks : option nat
}.

(** An entry of [/api/maharera]. *)
Record MahareraDocument := {
  mdoc_filename : string;
  mdoc_title : option string;
  mdoc_doc_type : string;
  mdoc_date : option string;
  mdoc_char_count : option nat
}.

Record Settings := {
  language : string;
  topK : nat;
  showSources : bool
}.

(** [flag.clause_source]. *)
Record ClauseSource := {
  cs_filename : option string;
  cs_section : option string;
  cs_excerpt : option string
}.

(** An element of [flag.authority_support]. *)
Record AuthoritySupport := {
  as_filename : string;
  as_excerpt : string
}.

(** An element of [red_flags]. *)
Record RedFlag := {
  severity : string;
  rule_id : string;
  domain : string;
  reason : string;
  clause_source : option ClauseSource;
  authority_support : option (list AuthoritySupport);
  has_authority_support : option bool
}.

(** The [decision] object of a query response. *)
Record Decision := {
  compliance_check : option bool;
  is_red_flag : option bool
}.

(** An element of a missing-clause list. *)
Record MissingClause := {
  mc_domain : string;
  mc_description : string
}.

(** The [compliance_summary] object. *)
Record ComplianceSummary := {
  is_compliant : bool;
  compliant_count : option nat;
  total_checks : option nat;
  critical_missing : option (list MissingClause);
  high_missing : option (list MissingClause);
  medium_missing : option (list MissingClause)
}.

(** An element of [sources]; [src_score] is the score as [toFixed(4)]
    prints it. *)
Record Source := {
  src_filename : string;
  src_section : option string;
  src_chunk_idx : nat;
  src_score : string;
  src_text : string
}.

(** The body of a successful [/api/query] response. *)
Record QueryData := {
  qd_answer : string;
  qd_sources : option (list Source);
  qd_red_flags : option (list RedFlag);
  qd_decision : option Decision;
  qd_compliance_summary : option ComplianceSummary
}.

(** The JSON body posted to [/api/query]. [None] in
    [rq_compliance_check] is an absent key; [None] in the two selections is
    [null]. *)
Record QueryRequest := {
  rq_question : string;
  rq_top_k : nat;
  rq_language : string;
  rq_selected_documents : option (list string);
  rq_selected_maharera : option (list string);
  rq_compliance_check : option bool
}.

(** A [fetch] call. *)
Inductive NetworkCall :=
| PostQuery (body : QueryRequest)
| PostDelete (filename : string)
| GetDocuments.

(** How an awaited [fetch] settles. *)
Inductive FetchOutcome (A : Type) :=
| ResponseOk (data : A)
| ResponseError (error : option string)
| FetchFailed.
Arguments ResponseOk {A} data.
Arguments ResponseError {A} error.
Arguments FetchFailed {A}.

(** ** What the browser supplies *)

(** [serializeText text] is the markup the DOM gives back from
    [innerHTML] for an element whose [textContent] was set to [text]. *)
Class Browser := {
  serializeText : string → string
}.

(** ** The view of a chat message

    [addMessage] assembles a message from template literals. A fragment
    that the script leaves as the empty string [''] is [None] (or the
    constructor standing for it); a fragment that is built is represented
    by the values interpolated into its template, in template order. Static
    markup (icons, class names that never vary) is not repeated. *)

Inductive Role := User | Assistant.

(** One [missing-item] row: [r.domain] and [escapeHtml(r.description)]. *)
Record MissingItemView := {
  miv_border_color : string;
  miv_domain : string;
  miv_description : string
}.

(** One [missing-group]: the icon, the count in the title and the rows. *)
Record MissingGroupView := {
  mgv_icon : string;
  mgv_count : nat;
  mgv_items : list MissingItemView
}.

(** The part of [compliance-container] below the header. *)
Inductive ComplianceBody :=
| ComplianceMissing (critical high medium : option MissingGroupView)
| ComplianceAllFound.

(** [complianceHTML] when it is built. *)
Record ComplianceBlock := {
  cbk_fully_compliant : bool;
  cbk_compliant_count : nat;
  cbk_total_checks : nat;
  cbk_body : ComplianceBody
}.

(** ** Lookups in object literals *)

(** The result of [table[key] || fallback] for an object literal [table]
    whose own values are all truthy: a value of the table or the fallback,
    or, for a key that names a member every object inherits from
    [Object.prototype], that member (a function, or the prototype itself
    for [__proto__]: truthy, so the fallback is not taken). *)
Inductive Looked (A : Type) :=
| Own (a : A)
| Inherited (key : string).
Arguments Own {A} a.
Arguments Inherited {A} key.

(** The names of the members of [Object.prototype]. *)
Definition objectPrototypeKeys : list string :=
  [ "constructor"; "hasOwnProperty"; "isPrototypeOf"; "propertyIsEnumerable";
    "toLocaleString"; "toString"; "valueOf"; "__proto__";
    "__defineGetter__"; "__defineSetter__"; "__lookupGetter__";
    "__lookupSetter__" ].

Definition inheritedKey (key : string) : bool :=
  existsb (String.eqb key) objectPrototypeKeys.

(** The fallback of a lookup whose key is not one of the table's own. *)
Definition orFallback {A} (fallback : A) (key : string) : Looked A :=
  if inheritedKey key then Inherited key else Own fallback.

(** The [clause-source] division of a red-flag item; [csv_excerpt] is the
    text inside the [clause-excerpt] division. *)
Record ClauseSourceView := {
  csv_filename : string;
  csv_section : string;
  csv_excerpt : option string
}.

(** One [red-flag-item]; [rfi_authority] holds the [auth-item] lines. *)
Record RedFlagItem := {
  rfi_color : Looked string;
  rfi_icon : Looked string;
  rfi_severity : string;
  rfi_rule_id : string;
  rfi_domain : string;
  rfi_reason : string;
  rfi_clause_source : option ClauseSourceView;
  rfi_authority : option (list string)
}.

(** [redFlagsHTML]: empty, the [red-flags-container], or the
    [no-red-flags-container] banner. *)
Inductive RedFlagsHTML :=
| RedFlagsNone
| RedFlagsContainer (headerClass headerText : string) (items : list RedFlagItem)
| NoRedFlagsContainer.

(** One [source-item]. *)
Record SourceView := {
  sv_index : nat;
  sv_filename : string;
  sv_section : string;
  sv_score : string;
  sv_text : string
}.

(** [messageDiv._reportData]. The [complianceResults] argument of
    [addMessage] is stored there too and never read; it is left out. *)
Record ReportData := {
  rd_content : string;
  rd_redFlags : option (list RedFlag);
  rd_decision : option Decision;
  rd_complianceSummary : option ComplianceSummary;
  rd_sources : option (list Source)
}.

(** A message element appended to the chat (the clock time is left out). *)
Record MessageView := {
  mv_role : Role;
  mv_compliance : option ComplianceBlock;
  mv_redFlags : RedFlagsHTML;
  mv_content : string;
  mv_download_btn : bool;
  mv_sources : option (list SourceView);
  mv_reportData : ReportData
}.

(** A child of [elements.chatMessages]. *)
Inductive ChatNode :=
| MessageNode (m : MessageView)
| TypingMessage.

(** An entry of [state.chatHistory]. *)
Record HistoryEntry := {
  he_role : Role;
  he_content : string;
  he_sources : option (list Source)
}.

(** ** The module-level objects [state] and [elements] *)

Record State := {
  documents : list Document;
  mahareraDocuments : list MahareraDocument;
  selectedUserDocIds : JsSet.t;
  selectedMahareraIds : JsSet.t;
  (** [state.selectedDocument]: not declared in the object literal, hence
      [undefined] until [toggleDocumentSelection] assigns it. *)
  selectedDocument : option string;
  chatHistory : list HistoryEntry;
  isLoading : bool;
  settings : Settings
}.

Record Checkbox := {
  checked : bool;
  indeterminate : bool;
  disabled : bool
}.

(** The two texts [updateComplianceButtonState] writes into
    [checkComplianceBtn.innerHTML]. *)
Inductive CheckLabel :=
| CheckCount (count : nat)
| CheckComplianceLabel.

(** The elements the modelled handlers read or write. [selectAllUserDocs]
    and [batchProcessBtn] may be missing from the page (the script tests
    them); [welcomeMessage] tells whether a [.welcome-message] element is
    present. *)
Record Elements := {
  messageInput : string;
  sendBtn_disabled : bool;
  selectAllUserDocs : option Checkbox;
  selectAllMaharera : Checkbox;
  checkComplianceBtn_disabled : bool;
  checkComplianceBtn_label : CheckLabel;
  batchProcessBtn_disabled : option bool;
  chatMessages : list ChatNode;
  welcomeMessage : bool
}.

(** The script's mutable world, with the calls it has made to [alert] and
    [fetch], oldest first. *)
Record World := {
  state : State;
  elements : Elements;
  alerts : list string;
  network : list NetworkCall
}.

Definition with_state (f : State → State) (w : World) : World :=
  {| state := f (state w); elements := elements w;
     alerts := alerts w; network := network w |}.

Definition with_elements (f : Elements → Elements) (w : World) : World :=
  {| state := state w; elements := f (elements w);
     alerts := alerts w; network := network w |}.

(** [alert(msg)]. *)
Definition alert (msg : string) (w : World) : World :=
  {| state := state w; elements := elements w;
     alerts := (alerts w ++ [msg])%list; network := network w |}.

(** [fetch(...)]: the call is recorded when it is made. *)
Definition fetch (c : NetworkCall) (w : World) : World :=
  {| state := state w; elements := elements w;
     alerts := alerts w; network := (network w ++ [c])%list |}.

Definition set_documents (v : list Document) (s : State) : State :=
  {| documents := v; mahareraDocuments := mahareraDocuments s;
     selectedUserDocIds := selectedUserDocIds s;
     selectedMahareraIds := selectedMahareraIds s;
     selectedDocument := selectedDocument s; chatHistory := chatHistory s;
     isLoading := isLoading s; settings := settings s |}.

Definition set_selectedUserDocIds (v : JsSet.t) (s : State) : State :=
  {| documents := documents s; mahareraDocuments := mahareraDocuments s;
     selectedUserDocIds := v;
     selectedMahareraIds := selectedMahareraIds s;
     selectedDocument := selectedDocument s; chatHistory := chatHistory s;
     isLoading := isLoading s; settings := settings s |}.

Definition set_selectedMahareraIds (v : JsSet.t) (s : State) : State :=
  {| documents := documents s; mahareraDocuments := mahareraDocuments s;
     selectedUserDocIds := selectedUserDocIds s;
     selectedMahareraIds := v;
     selectedDocument := selectedDocument s; chatHistory := chatHistory s;
     isLoading := isLoading s; settings := settings s |}.

Definition set_selectedDocument (v : option string) (s : State) : State :=
  {| documents := documents s; mahareraDocuments := mahareraDocuments s;
     selectedUserDocIds := selectedUserDocIds s;
     selectedMahareraIds := selectedMahareraIds s;
     selectedDocument := v; chatHistory := chatHistory s;
     isLoading := isLoading s; settings := settings s |}.

Definition set_chatHistory (v : list HistoryEntry) (s : State) : State :=
  {| documents := documents s; mahareraDocuments := mahareraDocuments s;
     selectedUserDocIds := selectedUserDocIds s;
     selectedMahareraIds := selectedMahareraIds s;
     selectedDocument := selectedDocument s; chatHistory := v;
     isLoading := isLoading s; settings := settings s |}.

Definition set_isLoading (v : bool) (s : State) : State :=
  {| documents := documents s; mahareraDocuments := mahareraDocuments s;
     selectedUserDocIds := selectedUserDocIds s;
     selectedMahareraIds := selectedMahareraIds s;
     selectedDocument := selectedDocument s; chatHistory := chatHistory s;
     isLoading := v; settings := settings s |}.

Definition set_messageInput (v : string) (e : Elements) : Elements :=
  {| messageInput := v; sendBtn_disabled := sendBtn_disabled e;
     selectAllUserDocs := selectAllUserDocs e;
     selectAllMaharera := selectAllMaharera e;
     checkComplianceBtn_disabled := checkComplianceBtn_disabled e;
     checkComplianceBtn_label := checkComplianceBtn_label e;
     batchProcessBtn_disabled := batchProcessBtn_disabled e;
     chatMessages := chatMessages e; welcomeMessage := welcomeMessage e |}.

Definition set_sendBtn_disabled (v : bool) (e : Elements) : Elements :=
  {| messageInput := messageInput e; sendBtn_disabled := v;
     selectAllUserDocs := selectAllUserDocs e;
     selectAllMaharera := selectAllMaharera e;
     checkComplianceBtn_disabled := checkComplianceBtn_disabled e;
     checkComplianceBtn_label := checkComplianceBtn_label e;
     batchProcessBtn_disabled := batchProcessBtn_disabled e;
     chatMessages := chatMessages e; welcomeMessage := welcomeMessage e |}.

Definition set_selectAllUserDocs (v : option Checkbox) (e : Elements) : Elements :=
  {| messageInput := messageInput e; sendBtn_disabled := sendBtn_disabled e;
     selectAllUserDocs := v;
     selectAllMaharera := selectAllMaharera e;
     checkComplianceBtn_disabled := checkComplianceBtn_disabled e;
     checkComplianceBtn_label := checkComplianceBtn_label e;
     batchProcessBtn_disabled := batchProcessBtn_disabled e;
     chatMessages := chatMessages e; welcomeMessage := welcomeMessage e |}.

Definition set_selectAllMaharera (v : Checkbox) (e : Elements) : Elements :=
  {| messageInput := messageInput e; sendBtn_disabled := sendBtn_disabled e;
     selectAllUserDocs := selectAllUserDocs e;
     selectAllMaharera := v;
     checkComplianceBtn_disabled := checkComplianceBtn_disabled e;
     checkComplianceBtn_label := checkComplianceBtn_label e;
     batchProcessBtn_disabled := batchProcessBtn_disabled e;
     chatMessages := chatMessages e; welcomeMessage := welcomeMessage e |}.

Definition set_checkComplianceBtn_disabled (v : bool) (e : Elements) : Elements :=
  {| messageInput := messageInput e; sendBtn_disabled := sendBtn_disabled e;
     selectAllUserDocs := selectAllUserDocs e;
     selectAllMaharera := selectAllMaharera e;
     checkComplianceBtn_disabled := v;
     checkComplianceBtn_label := checkComplianceBtn_label e;
     batchProcessBtn_disabled := batchProcessBtn_disabled e;
     chatMessages := chatMessages e; welcomeMessage := welcomeMessage e |}.

Definition set_checkComplianceBtn_label (v : CheckLabel) (e : Elements) : Elements :=
  {| messageInput := messageInput e; sendBtn_disabled := sendBtn_disabled e;
     selectAllUserDocs := selectAllUserDocs e;
     selectAllMaharera := selectAllMaharera e;
     checkComplianceBtn_disabled := checkComplianceBtn_disabled e;
     checkComplianceBtn_label := v;
     batchProcessBtn_disabled := batchProcessBtn_disabled e;
     chatMessages := chatMessages e; welcomeMessage := welcomeMessage e |}.

Definition set_batchProcessBtn_disabled (v : option bool) (e : Elements) : Elements :=
  {| messageInput := messageInput e; sendBtn_disabled := sendBtn_disabled e;
     selectAllUserDocs := selectAllUserDocs e;
     selectAllMaharera := selectAllMaharera e;
     checkComplianceBtn_disabled := checkComplianceBtn_disabled e;
     checkComplianceBtn_label := checkComplianceBtn_label e;
     batchProcessBtn_disabled := v;
     chatMessages := chatMessages e; welcomeMessage := welcomeMessage e |}.

Definition set_chatMessages (v : list ChatNode) (e : Elements) : Elements :=
  {| messageInput := messageInput e; sendBtn_disabled := sendBtn_disabled e;
     selectAllUserDocs := selectAllUserDocs e;
     selectAllMaharera := selectAllMaharera e;
     checkComplianceBtn_disabled := checkComplianceBtn_disabled e;
     checkComplianceBtn_label := checkComplianceBtn_label e;
     batchProcessBtn_disabled := batchProcessBtn_disabled e;
     chatMessages := v; welcomeMessage := welcomeMessage e |}.

Definition set_welcomeMessage (v : bool) (e : Elements) : Elements :=
  {| messageInput := messageInput e; sendBtn_disabled := sendBtn_disabled e;
     selectAllUserDocs := selectAllUserDocs e;
     selectAllMaharera := selectAllMaharera e;
     checkComplianceBtn_disabled := checkComplianceBtn_disabled e;
     checkComplianceBtn_label := checkComplianceBtn_label e;
     batchProcessBtn_disabled := batchProcessBtn_disabled e;
     chatMessages := chatMessages e; welcomeMessage := v |}.

(** ** Selection store ([src/txtai/script.js]) *)

(** [updateSelectAllUserDocsState]. *)
Definition updateSelectAllUserDocsState (w : World) : World :=
  match selectAllUserDocs (elements w) with
  | None => w
  | Some cb =>
      let totalDocs := List.length (documents (state w)) in
      let selectedCount := JsSet.size (selectedUserDocIds (state w)) in
      with_elements (set_selectAllUserDocs (Some
        {| checked := (selectedCount =? totalDocs)%nat && (0 <? totalDocs)%nat;
           indeterminate := (0 <? selectedCount)%nat && (selectedCount <? totalDocs)%nat;
           disabled := disabled cb |})) w
  end.

(** [updateSelectAllState]. *)
Definition updateSelectAllState (w : World) : World :=
  let totalDocs := List.length (mahareraDocuments (state w)) in
  let selectedCount := JsSet.size (selectedMahareraIds (state w)) in
  with_elements (set_selectAllMaharera
    {| checked := (selectedCount =? totalDocs)%nat && (0 <? totalDocs)%nat;
       indeterminate := (0 <? selectedCount)%nat && (selectedCount <? totalDocs)%nat;
       disabled := disabled (selectAllMaharera (elements w)) |}) w.

(** [updateComplianceButtonState]. *)
Definition updateComplianceButtonState (w : World) : World :=
  let hasUserDocs := (0 <? List.length (documents (state w)))%nat in
  let hasSelectedMaharera := (0 <? JsSet.size (selectedMahareraIds (state w)))%nat in
  let w1 := with_elements
    (set_checkComplianceBtn_disabled (negb (hasUserDocs && hasSelectedMaharera))) w in
  let w2 :=
    match batchProcessBtn_disabled (elements w1) with
    | Some _ =>
        with_elements (set_batchProcessBtn_disabled
          (Some (JsSet.size (selectedUserDocIds (state w1)) =? 0)%nat)) w1
    | None => w1
    end in
  let count := JsSet.size (selectedMahareraIds (state w2)) in
  if (0 <? count)%nat
  then with_elements (set_checkComplianceBtn_label (CheckCount count)) w2
  else with_elements (set_checkComplianceBtn_label CheckComplianceLabel) w2.

(** [toggleUserDocSelection]. *)
Definition toggleUserDocSelection (filename : string) (w : World) : World :=
  let w1 :=
    if JsSet.has (selectedUserDocIds (state w)) filename
    then with_state (set_selectedUserDocIds
           (JsSet.delete (selectedUserDocIds (state w)) filename)) w
    else with_state (set_selectedUserDocIds
           (JsSet.add (selectedUserDocIds (state w)) filename)) w in
  updateComplianceButtonState (updateSelectAllUserDocsState w1).

(** [toggleSelectAllUserDocs]; it runs as the [change] handler of the
    select-all box, which is registered only when the box exists. *)
Definition toggleSelectAllUserDocs (w : World) : World :=
  match selectAllUserDocs (elements w) with
  | None => w
  | Some cb =>
      let isChecked := checked cb in
      let w1 := with_state (set_selectedUserDocIds
                  (JsSet.clear (selectedUserDocIds (state w)))) w in
      let w2 :=
        if isChecked
        then with_state (set_selectedUserDocIds
               (foldl (λ s doc, JsSet.add s (doc_filename doc))
                  (selectedUserDocIds (state w1)) (documents (state w1)))) w1
        else w1 in
      updateComplianceButtonState w2
  end.

(** [toggleMahareraSelection]. *)
Definition toggleMahareraSelection (filename : string) (w : World) : World :=
  let w1 :=
    if JsSet.has (selectedMahareraIds (state w)) filename
    then with_state (set_selectedMahareraIds
           (JsSet.delete (selectedMahareraIds (state w)) filename)) w
    else with_state (set_selectedMahareraIds
           (JsSet.add (selectedMahareraIds (state w)) filename)) w in
  updateComplianceButtonState (updateSelectAllState w1).

(** [toggleSelectAllMaharera]. *)
Definition toggleSelectAllMaharera (w : World) : World :=
  let isChecked := checked (selectAllMaharera (elements w)) in
  let w1 := with_state (set_selectedMahareraIds
              (JsSet.clear (selectedMahareraIds (state w)))) w in
  let w2 :=
    if isChecked
    then with_state (set_selectedMahareraIds
           (foldl (λ s doc, JsSet.add s (mdoc_filename doc))
              (selectedMahareraIds (state w1)) (mahareraDocuments (state w1)))) w1
    else w1 in
  updateComplianceButtonState w2.

(** The filenames of the two listings. *)
Definition listedUserDocs (w : World) : list string :=
  doc_filename <$> documents (state w).

Definition listedMaharera (w : World) : list string :=
  mdoc_filename <$> mahareraDocuments (state w).

(** ** Listing refresh and document deletion *)

(** [renderDocumentList], as far as it writes to elements that handlers
    read back: the select-all box. The list markup it also writes is a
    function of [state] alone. *)
Definition renderDocumentList (w : World) : World :=
  match documents (state w) with
  | [] =>
      match selectAllUserDocs (elements w) with
      | Some cb =>
          with_elements (set_selectAllUserDocs (Some
            {| checked := false; indeterminate := indeterminate cb;
               disabled := true |})) w
      | None => w
      end
  | _ :: _ =>
      match selectAllUserDocs (elements w) with
      | Some cb =>
          with_elements (set_selectAllUserDocs (Some
            {| checked := checked cb; indeterminate := indeterminate cb;
               disabled := false |})) w
      | None => w
      end
  end.

(** [loadDocuments] up to [await fetch]. *)
Definition loadDocuments_begin (w : World) : World := fetch GetDocuments w.

(** [loadDocuments] once the listing has arrived; [data] is
    [data.documents]. *)
Definition loadDocuments_resume
    (outcome : FetchOutcome (option (list Document))) (w : World) : World :=
  match outcome with
  | ResponseOk data =>
      renderDocumentList (with_state (set_documents (orNil data)) w)
  | ResponseError _ => w
  | FetchFailed => w
  end.

(** [deleteDocument] of [src/txtai/script.js] up to [await fetch];
    [confirmed] is the user's answer to [confirm]. *)
Definition deleteDocument_begin (filename : string) (confirmed : bool)
    (w : World) : World :=
  if negb confirmed then w else fetch (PostDelete filename) w.

(** [deleteDocument] of [src/txtai/script.js] once the response to
    [/api/delete] has arrived. *)
Definition deleteDocument_resume (filename : string)
    (outcome : FetchOutcome unit) (w : World) : World :=
  match outcome with
  | ResponseOk _ =>
      let w1 := loadDocuments_begin w in
      if bool_decide (selectedDocument (state w1) = Some filename)
      then with_state (set_selectedDocument None) w1
      else w1
  | ResponseError error =>
      alert ("Error deleting document: " +:+ orStr error "Unknown error") w
  | FetchFailed =>
      alert "Error deleting document. See console for details." w
  end.

(** The variant of the script in [src/unnamed/part_001]. *)
Module Part001.

(** [deleteDocument] up to [await fetch]. *)
Definition deleteDocument_begin (filename : string) (confirmed : bool)
    (w : World) : World :=
  if negb confirmed then w else fetch (PostDelete filename) w.

(** [deleteDocument] once the response has arrived. *)
Definition deleteDocument_resume (filename : string)
    (outcome : FetchOutcome unit) (w : World) : World :=
  match outcome with
  | ResponseOk _ =>
      let w1 := loadDocuments_begin w in
      if JsSet.has (selectedUserDocIds (state w1)) filename
      then with_state (set_selectedUserDocIds
             (JsSet.delete (selectedUserDocIds (state w1)) filename)) w1
      else w1
  | ResponseError _ => w
  | FetchFailed => w
  end.

End Part001.

(** ** Rendering a result: [addMessage] *)

Section Client.
Context {browser : Browser}.

(** [s.replace(/\n/g, '<br>')]. *)
Fixpoint replaceNewlines (s : string) : string :=
  match s with
  | EmptyString => EmptyString
  | String c rest =>
      if Ascii.eqb c "010"%char
      then "<br>" +:+ replaceNewlines rest
      else String c (replaceNewlines rest)
  end.

(** [escapeHtml]. *)
Definition escapeHtml (text : string) : string :=
  replaceNewlines (serializeText text).

(** [decision && decision.compliance_check === true]. *)
Definition isComplianceCheck (decision : option Decision) : bool :=
  match decision with
  | Some d => bool_decide (compliance_check d = Some true)
  | None => false
  end.

(** One [missing-group] of [complianceHTML], built when the list is not
    empty. *)
Definition missingGroup (icon color : string) (missing : list MissingClause)
    : option MissingGroupView :=
  if (0 <? List.length missing)%nat
  then Some {| mgv_icon := icon;
               mgv_count := List.length missing;
               mgv_items := (λ r, {| miv_border_color := color;
                                     miv_domain := mc_domain r;
                                     miv_description := escapeHtml (mc_description r) |})
                            <$> missing |}
  else None.

(** [complianceHTML]. *)
Definition complianceHTML (decision : option Decision)
    (complianceSummary : option ComplianceSummary) : option ComplianceBlock :=
  match complianceSummary with
  | Some summary =>
      if isComplianceCheck decision then
        let isFullyCompliant := is_compliant summary in
        let compliantCount := orZero (compliant_count summary) in
        let totalChecks := orZero (total_checks summary) in
        let missingCritical := orNil (critical_missing summary) in
        let missingHigh := orNil (high_missing summary) in
        let missingMedium := orNil (medium_missing summary) in
        Some {| cbk_fully_compliant := isFullyCompliant;
                cbk_compliant_count := compliantCount;
                cbk_total_checks := totalChecks;
                cbk_body :=
                  if negb isFullyCompliant
                  then ComplianceMissing
                         (missingGroup "[!]" "#dc2626" missingCritical)
                         (missingGroup "[!]" "#ea580c" missingHigh)
                         (missingGroup "[i]" "#ca8a04" missingMedium)
                  else ComplianceAllFound |}
      else None
  | None => None
  end.

(** [severityColors[sev] || '#666'] of [addMessage]; the severities are
    the backend's four tier names. *)
Definition severityColor (sev : string) : Looked string :=
  if String.eqb sev "CRITICAL" then Own "#dc2626"
  else if String.eqb sev "HIGH" then Own "#ea580c"
  else if String.eqb sev "MEDIUM" then Own "#ca8a04"
  else if String.eqb sev "LOW" then Own "#65a30d"
  else orFallback "#666" sev.

(** [severityIcons[sev] || '[?]']. *)
Definition severityIcon (sev : string) : Looked string :=
  if String.eqb sev "CRITICAL" then Own "[!!]"
  else if String.eqb sev "HIGH" then Own "[!]"
  else if String.eqb sev "MEDIUM" then Own "[~]"
  else if String.eqb sev "LOW" then Own "[i]"
  else orFallback "[?]" sev.

(** The text inside the [clause-excerpt] division. *)
Definition clauseExcerptText (excerpt : string) : string :=
  dquote +:+ escapeHtml (String.substring 0 150 excerpt) +:+ "..." +:+ dquote.

(** The [clause-source] division of one flag. *)
Definition clauseSourceView (flag : RedFlag) : option ClauseSourceView :=
  let clauseSrc := default {| cs_filename := None; cs_section := None;
                              cs_excerpt := None |} (clause_source flag) in
  if truthyOpt (cs_filename clauseSrc)
  then Some {| csv_filename := escapeHtml (default EmptyString (cs_filename clauseSrc));
               csv_section := orStr (cs_section clauseSrc) EmptyString;
               csv_excerpt :=
                 if truthyOpt (cs_excerpt clauseSrc)
                 then Some (clauseExcerptText
                              (default EmptyString (cs_excerpt clauseSrc)))
                 else None |}
  else None.

(** The [authority-support] division of one flag. *)
Definition authorityView (flag : RedFlag) : option (list string) :=
  let authSupport := take 2 (orNil (authority_support flag)) in
  let hasAuthSupport :=
    negb (bool_decide (has_authority_support flag = Some false))
    && (0 <? List.length authSupport)%nat in
  if hasAuthSupport
  then Some ((λ auth, "- " +:+ escapeHtml (as_filename auth) +:+ ": " +:+ dquote
                      +:+ escapeHtml (String.substring 0 100 (as_excerpt auth))
                      +:+ "..." +:+ dquote) <$> authSupport)
  else None.

(** One [red-flag-item]. *)
Definition redFlagItem (flag : RedFlag) : RedFlagItem :=
  {| rfi_color := severityColor (severity flag);
     rfi_icon := severityIcon (severity flag);
     rfi_severity := severity flag;
     rfi_rule_id := rule_id flag;
     rfi_domain := domain flag;
     rfi_reason := escapeHtml (reason flag);
     rfi_clause_source := clauseSourceView flag;
     rfi_authority := authorityView flag |}.

(** [redFlagsHTML]. *)
Definition redFlagsHTML (decision : option Decision)
    (redFlags : option (list RedFlag)) : RedFlagsHTML :=
  if isComplianceCheck decision
     && match redFlags with
        | Some flags => (0 <? List.length flags)%nat
        | None => false
        end
  then
    let isRedFlag :=
      match decision with
      | Some d => bool_decide (is_red_flag d = Some true)
      | None => false
      end in
    let headerClass :=
      if isRedFlag then "red-flag-header critical" else "red-flag-header" in
    let headerText :=
      if isRedFlag then "RED FLAGS DETECTED - Non-Compliant Clauses Found"
      else "Potential Issues Found" in
    RedFlagsContainer headerClass headerText (redFlagItem <$> orNil redFlags)
  else if isComplianceCheck decision
          && match decision with
             | Some d => bool_decide (is_red_flag d = Some false)
             | None => false
             end
  then NoRedFlagsContainer
  else RedFlagsNone.

(** One [source-item]. *)
Definition sourceView (idx : nat) (src : Source) : SourceView :=
  {| sv_index := idx + 1;
     sv_filename := src_filename src;
     sv_section := orStr (src_section src)
                     ("Section " +:+ pretty (src_chunk_idx src + 1)%nat);
     sv_score := src_score src;
     sv_text := escapeHtml (String.substring 0 200 (src_text src)) +:+ "..." |}.

(** [sourcesHTML]. *)
Definition sourcesHTML (showSources : bool) (sources : option (list Source))
    : option (list SourceView) :=
  match sources with
  | Some srcs =>
      if (0 <? List.length srcs)%nat && showSources
      then Some (imap sourceView srcs)
      else None
  | None => None
  end.

(** The element [addMessage] builds. *)
Definition messageView (showSources : bool) (role : Role) (content : string)
    (sources : option (list Source)) (redFlags : option (list RedFlag))
    (decision : option Decision) (complianceSummary : option ComplianceSummary)
    : MessageView :=
  {| mv_role := role;
     mv_compliance := complianceHTML decision complianceSummary;
     mv_redFlags := redFlagsHTML decision redFlags;
     mv_content := escapeHtml content;
     mv_download_btn :=
       isComplianceCheck decision
       && match role with Assistant => true | User => false end;
     mv_sources := sourcesHTML showSources sources;
     mv_reportData := {| rd_content := content;
                         rd_redFlags := redFlags;
                         rd_decision := decision;
                         rd_complianceSummary := complianceSummary;
                         rd_sources := sources |} |}.

(** [addMessage]: build the element, append it to the chat and push the
    history entry. *)
Definition addMessage (role : Role) (content : string)
    (sources : option (list Source)) (redFlags : option (list RedFlag))
    (decision : option Decision) (complianceSummary : option ComplianceSummary)
    (w : World) : World :=
  let messageDiv :=
    messageView (showSources (settings (state w))) role content sources
      redFlags decision complianceSummary in
  let w1 := with_elements (set_chatMessages
              (chatMessages (elements w) ++ [MessageNode messageDiv])%list) w in
  with_state (set_chatHistory
    (chatHistory (state w1) ++ [{| he_role := role; he_content := content;
                                  he_sources := sources |}])%list) w1.

(** [showTypingIndicator]. *)
Definition showTypingIndicator (w : World) : World :=
  with_elements (set_chatMessages
    (chatMessages (elements w) ++ [TypingMessage])%list) w.

(** Remove the first [.typing-message] child, if any. *)
Fixpoint removeFirstTyping (nodes : list ChatNode) : list ChatNode :=
  match nodes with
  | [] => []
  | TypingMessage :: rest => rest
  | n :: rest => n :: removeFirstTyping rest
  end.

(** [removeTypingIndicator]. *)
Definition removeTypingIndicator (w : World) : World :=
  with_elements (set_chatMessages (removeFirstTyping (chatMessages (elements w)))) w.

(** Remove the [.welcome-message] element if it is there. *)
Definition removeWelcomeMessage (w : World) : World :=
  with_elements (set_welcomeMessage false) w.

(** ** Query orchestration: [checkCompliance] and [sendMessage] *)

(** The title shown for a selected regulation:
    [doc ? (doc.title || doc.filename) : f]. *)
Definition mahareraDocName (docs : list MahareraDocument) (f : string) : string :=
  match List.find (λ d, bool_decide (mdoc_filename d = f)) docs with
  | Some doc => orStr (mdoc_title doc) (mdoc_filename doc)
  | None => f
  end.

(** The request body [checkCompliance] posts. *)
Definition complianceRequest (w : World) : QueryRequest :=
  let selectedUserDocs := JsSet.toArray (selectedUserDocIds (state w)) in
  let userDocName :=
    if (0 <? List.length selectedUserDocs)%nat
    then join ", " selectedUserDocs
    else "all user documents" in
  let selectedDocs := JsSet.toArray (selectedMahareraIds (state w)) in
  let docNames :=
    join ", " (mahareraDocName (mahareraDocuments (state w)) <$> selectedDocs) in
  let complianceQuestion :=
    "Analyze " +:+ userDocName
    +:+ " for compliance with the following MahaRERA regulations: " +:+ docNames
    +:+ ". Check if my real estate agreement follows all the guidelines, rules, and requirements specified in these regulatory documents. Highlight any compliance issues, missing clauses, or areas of concern." in
  {| rq_question := complianceQuestion;
     rq_top_k := 10;
     rq_language := language (settings (state w));
     rq_selected_documents :=
       if (0 <? List.length selectedUserDocs)%nat then Some selectedUserDocs else None;
     rq_selected_maharera := Some selectedDocs;
     rq_compliance_check := Some true |}.

(** [checkCompliance] up to [await fetch]. *)
Definition checkCompliance_begin (w : World) : World :=
  if (JsSet.size (selectedMahareraIds (state w)) =? 0)%nat then
    alert "Please select at least one MahaRERA document to check compliance against." w
  else if (List.length (documents (state w)) =? 0)%nat then
    alert "No user documents loaded. Please add documents to check compliance." w
  else
    let selectedUserDocs := JsSet.toArray (selectedUserDocIds (state w)) in
    let userDocName :=
      if (0 <? List.length selectedUserDocs)%nat
      then join ", " selectedUserDocs
      else "all user documents" in
    let selectedDocs := JsSet.toArray (selectedMahareraIds (state w)) in
    let body := complianceRequest w in
    let w1 := removeWelcomeMessage w in
    let w2 := addMessage User
                ("Compliance Check: " +:+ dquote +:+ userDocName +:+ dquote
                 +:+ " against " +:+ pretty (List.length selectedDocs)
                 +:+ " MahaRERA document(s)")
                None None None None w1 in
    let w3 := showTypingIndicator w2 in
    let w4 := with_state (set_isLoading true) w3 in
    let w5 := with_elements (set_sendBtn_disabled true) w4 in
    let w6 := with_elements (set_checkComplianceBtn_disabled true) w5 in
    fetch (PostQuery body) w6.

(** [checkCompliance] once the response has arrived (or the request has
    failed), including the [finally] block. *)
Definition checkCompliance_resume (outcome : FetchOutcome QueryData)
    (w : World) : World :=
  let w1 := removeTypingIndicator w in
  let w2 :=
    match outcome with
    | ResponseOk data =>
        addMessage Assistant (qd_answer data) (qd_sources data)
          (qd_red_flags data) (qd_decision data) (qd_compliance_summary data) w1
    | ResponseError error =>
        addMessage Assistant
          ("Error checking compliance: " +:+ orStr error "Unknown error")
          None None None None w1
    | FetchFailed =>
        addMessage Assistant
          "Failed to connect to server. Please ensure the backend is running."
          None None None None w1
    end in
  let w3 := with_state (set_isLoading false) w2 in
  let w4 := with_elements (set_sendBtn_disabled false) w3 in
  updateComplianceButtonState w4.

(** The request body [sendMessage] posts. *)
Definition messageRequest (message : string) (w : World) : QueryRequest :=
  let selectedMaharera := JsSet.toArray (selectedMahareraIds (state w)) in
  let selectedUserDocs := JsSet.toArray (selectedUserDocIds (state w)) in
  {| rq_question := message;
     rq_top_k := topK (settings (state w));
     rq_language := language (settings (state w));
     rq_selected_documents :=
       if (0 <? List.length selectedUserDocs)%nat then Some selectedUserDocs else None;
     rq_selected_maharera :=
       if (0 <? List.length selectedMaharera)%nat then Some selectedMaharera else None;
     rq_compliance_check := None |}.

(** [sendMessage] up to [await fetch]. *)
Definition sendMessage_begin (w : World) : World :=
  let message := trim (messageInput (elements w)) in
  if negb (truthy message) || isLoading (state w) then w
  else
    let w1 := with_elements (set_messageInput EmptyString) w in
    let w2 := removeWelcomeMessage w1 in
    let w3 := addMessage User message None None None None w2 in
    let w4 := showTypingIndicator w3 in
    let w5 := with_state (set_isLoading true) w4 in
    let w6 := with_elements (set_sendBtn_disabled true) w5 in
    fetch (PostQuery (messageRequest message w6)) w6.

(** [sendMessage] once the response has arrived (or the request has
    failed), including the [finally] block. *)
Definition sendMessage_resume (outcome : FetchOutcome QueryData)
    (w : World) : World :=
  let w1 := removeTypingIndicator w in
  let w2 :=
    match outcome with
    | ResponseOk data =>
        addMessage Assistant (qd_answer data) (qd_sources data)
          (qd_red_flags data) (qd_decision data) (qd_compliance_summary data) w1
    | ResponseError _ =>
        addMessage Assistant
          "Sorry, I encountered an error processing your question. Please try again."
          None None None None w1
    | FetchFailed =>
        addMessage Assistant
          "Unable to connect to server. Please ensure the backend is running."
          None None None None w1
    end in
  let w3 := with_state (set_isLoading false) w2 in
  with_elements (set_sendBtn_disabled false) w3.

(** What can happen to the page, one event-loop turn each. A click on a
    disabled button dispatches no event; the Enter key and the sample
    questions call [sendMessage] whatever the state of the send button. *)
Inductive Event :=
| TypeMessage (text : string)
| ClickSendBtn
| PressEnter
| ClickCheckComplianceBtn
| ToggleUserDoc (filename : string)
| ToggleMaharera (filename : string)
| SendMessageSettles (outcome : FetchOutcome QueryData)
| CheckComplianceSettles (outcome : FetchOutcome QueryData).

Definition step (w : World) (ev : Event) : World :=
  match ev with
  | TypeMessage text => with_elements (set_messageInput text) w
  | ClickSendBtn =>
      if sendBtn_disabled (elements w) then w else sendMessage_begin w
  | PressEnter => sendMessage_begin w
  | ClickCheckComplianceBtn =>
      if checkComplianceBtn_disabled (elements w) then w
      else checkCompliance_begin w
  | ToggleUserDoc filename => toggleUserDocSelection filename w
  | ToggleMaharera filename => toggleMahareraSelection filename w
  | SendMessageSettles outcome => sendMessage_resume outcome w
  | CheckComplianceSettles outcome => checkCompliance_resume outcome w
  end.

Definition run (events : list Event) (w : World) : World :=
  foldl step w events.

(** The [/api/query] requests issued so far. *)
Definition queryCalls (w : World) : list QueryRequest :=
  omap (λ c, match c with PostQuery body => Some body | _ => None end) (network w).

End Client.

(** ** The paged canvas *)

(** An RGB colour as the script writes it, [[r, g, b]]. *)
Definition Color : Type := nat * nat * nat.

(** The jsPDF calls the builders make, in the order they make them.
    [SetTextColorUndefined] is [doc.setTextColor(c[0], c[1], c[2])] for a
    [c] that is no array: the three arguments are [undefined]. *)
Inductive DrawOp :=
| SetFontSize (size : Q)
| SetFont (bold : bool)
| SetTextColor (c : Color)
| SetTextColorUndefined
| SetDrawColor (c : Color)
| SetFillColor (c : Color)
| SetLineWidth (width : Q)
| Rect (x y w h : Q)
| Line (x1 y1 x2 y2 : Q)
| Text (text : string) (x y : Q) (centered : bool)
| AddPage
| SetPage (i : nat)
| Save (filename : string).

(** What jsPDF supplies: the page size of a fresh document and the line
    wrapping of [doc.splitTextToSize]. *)
Class Canvas := {
  pageWidth : Q;
  pageHeight : Q;
  splitTextToSize : string → Q → list string
}.

(** The state of one report build: the local variable [yPos], the calls
    made on [doc] so far, and [doc.internal.getNumberOfPages()]. *)
Record Builder := {
  yPos : Q;
  doc : list DrawOp;
  numberOfPages : nat
}.

(** [new jsPDF()] with [let yPos = 20]. *)
Definition newBuilder : Builder :=
  {| yPos := 20; doc := []; numberOfPages := 1 |}.

Definition set_yPos (y : Q) (b : Builder) : Builder :=
  {| yPos := y; doc := doc b; numberOfPages := numberOfPages b |}.

(** A call on [doc] other than [addPage]. *)
Definition emit (op : DrawOp) (b : Builder) : Builder :=
  {| yPos := yPos b; doc := (doc b ++ [op])%list;
     numberOfPages := numberOfPages b |}.

(** [doc.addPage()]. *)
Definition addPage (b : Builder) : Builder :=
  {| yPos := yPos b; doc := (doc b ++ [AddPage])%list;
     numberOfPages := S (numberOfPages b) |}.

(** [x > y] on numbers. *)
Definition Qgtb (x y : Q) : bool := negb (Qle_bool x y).

(** [const margin = 20]. *)
Definition margin : Q := 20.

Definition black : Color := (0, 0, 0)%nat.

(** [${n}] for a count that may be [undefined]. *)
Definition showCount (o : option nat) : string :=
  match o with Some n => pretty n | None => "undefined" end.

(** [${s}] for a string that may be [undefined]. *)
Definition showStr (o : option string) : string :=
  match o with Some s => s | None => "undefined" end.

Section Report.
Context {canvas : Canvas}.

(** [const maxWidth = pageWidth - (margin * 2)]. *)
Definition maxWidth : Q := pageWidth - margin * 2.

(** The page-break guard the helpers share:
    [if (yPos > pageHeight - k) { doc.addPage(); yPos = 20; }]. *)
Definition breakIfBelow (k : Q) (b : Builder) : Builder :=
  if Qgtb (yPos b) (pageHeight - k) then set_yPos 20 (addPage b) else b.

(** One turn of the loop of [addText]. *)
Definition addTextLine (fontSize : Q) (b : Builder) (line : string) : Builder :=
  let b1 := breakIfBelow 30 b in
  let b2 := emit (Text line margin (yPos b1) false) b1 in
  set_yPos (yPos b2 + fontSize * 0.5) b2.

(** The body of [addText]; [colorCall] is its call
    [doc.setTextColor(color[0], color[1], color[2])]. *)
Definition addTextWith (colorCall : DrawOp) (text : string) (fontSize : Q)
    (isBold : bool) (b : Builder) : Builder :=
  let b1 := emit (SetFontSize fontSize) b in
  let b2 := emit (SetFont isBold) b1 in
  let b3 := emit colorCall b2 in
  let lines := splitTextToSize text maxWidth in
  let b4 := foldl (addTextLine fontSize) b3 lines in
  set_yPos (yPos b4 + 2) b4.

(** [addText], the text-layout helper of [generateComplianceReport], for a
    colour that is an array of three numbers. *)
Definition addText (text : string) (fontSize : Q) (isBold : bool)
    (color : Color) (b : Builder) : Builder :=
  addTextWith (SetTextColor color) text fontSize isBold b.

(** [addText] for a colour found through the prototype chain. *)
Definition addTextInherited (text : string) (fontSize : Q) (isBold : bool)
    (b : Builder) : Builder :=
  addTextWith SetTextColorUndefined text fontSize isBold b.

(** [addLine]. *)
Definition addLine (b : Builder) : Builder :=
  let b1 := breakIfBelow 30 b in
  let b2 := emit (SetDrawColor (200, 200, 200)%nat) b1 in
  let b3 := emit (Line margin (yPos b2) (pageWidth - margin) (yPos b2)) b2 in
  set_yPos (yPos b3 + 8) b3.

(** [addSection]. *)
Definition addSection (title : string) (b : Builder) : Builder :=
  let b1 := set_yPos (yPos b + 5) b in
  let b2 := breakIfBelow 40 b1 in
  let b3 := emit (SetFillColor (59, 130, 246)%nat) b2 in
  let b4 := emit (Rect margin (yPos b3 - 5) maxWidth 10) b3 in
  let b5 := emit (SetFontSize 12) b4 in
  let b6 := emit (SetFont true) b5 in
  let b7 := emit (SetTextColor (255, 255, 255)%nat) b6 in
  let b8 := emit (Text title (margin + 3) (yPos b7 + 2) false) b7 in
  set_yPos (yPos b8 + 15) b8.

(** The statements of the body of [generateComplianceReport] between the
    title and the disclaimer text. Which statements run depends on the
    report data only, never on the cursor, so the body is a sequence of
    them. *)
Inductive Call :=
| AddText (text : string) (fontSize : Q) (isBold : bool) (color : Color)
| AddTextInherited (text : string) (fontSize : Q) (isBold : bool)
| AddSection (title : string)
| Advance (dy : Q)
| StatusText (status : string) (color : Color).

(** Running one statement. [Advance dy] is [yPos += dy] (or [yPos -= 7]);
    [StatusText] is the coloured status word drawn beside its label. *)
Definition exec (b : Builder) (c : Call) : Builder :=
  match c with
  | AddText text fontSize isBold color => addText text fontSize isBold color b
  | AddTextInherited text fontSize isBold => addTextInherited text fontSize isBold b
  | AddSection title => addSection title b
  | Advance dy => set_yPos (yPos b + dy) b
  | StatusText status color =>
      let b1 := emit (SetTextColor color) b in
      emit (Text status (margin + 32) (yPos b1) false) b1
  end.

(** The rows of one missing-clause list. *)
Definition missingCalls (color : Color) (missing : list MissingClause) : list Call :=
  (λ r, AddText ("  - " +:+ mc_domain r +:+ ": " +:+ mc_description r) 9 false color)
  <$> missing.

(** [x?.length > 0] for an optional array. *)
Definition nonEmptyOpt {A} (o : option (list A)) : bool :=
  match o with Some l => (0 <? List.length l)%nat | None => false end.

(** The executive summary, after its section header. *)
Definition summaryCalls (complianceSummary : option ComplianceSummary) : list Call :=
  match complianceSummary with
  | None => []
  | Some summary =>
      let status := if is_compliant summary then "COMPLIANT" else "NON-COMPLIANT" in
      let statusColor : Color :=
        if is_compliant summary then (22, 163, 74)%nat else (220, 38, 38)%nat in
      [ AddText "Overall Status: " 11 true black;
        Advance (-7);
        StatusText status statusColor;
        Advance 7;
        AddText ("Required Clauses Found: " +:+ showCount (compliant_count summary)
                 +:+ "/" +:+ showCount (total_checks summary)) 10 false black;
        Advance 3 ]
      ++ (if negb (is_compliant summary) then
            (if nonEmptyOpt (critical_missing summary) then
               [AddText "CRITICAL MISSING CLAUSES:" 10 true (220, 38, 38)%nat]
               ++ missingCalls (127, 29, 29)%nat (orNil (critical_missing summary))
               ++ [Advance 3]
             else [])
            ++ (if nonEmptyOpt (high_missing summary) then
                  [AddText "HIGH PRIORITY MISSING:" 10 true (234, 88, 12)%nat]
                  ++ missingCalls (154, 52, 18)%nat (orNil (high_missing summary))
                  ++ [Advance 3]
                else [])
            ++ (if nonEmptyOpt (medium_missing summary) then
                  [AddText "MEDIUM PRIORITY MISSING:" 10 true (202, 138, 4)%nat]
                  ++ missingCalls (133, 77, 14)%nat (orNil (medium_missing summary))
                else [])
          else
            [AddText "All required clauses have been verified as present in the document."
               10 false (22, 163, 74)%nat])
  end%list.

(** [severityColors[sev] || [0, 0, 0]] of [generateComplianceReport]. *)
Definition severityRgb (sev : string) : Looked Color :=
  if String.eqb sev "CRITICAL" then Own (220, 38, 38)%nat
  else if String.eqb sev "HIGH" then Own (234, 88, 12)%nat
  else if String.eqb sev "MEDIUM" then Own (202, 138, 4)%nat
  else if String.eqb sev "LOW" then Own (101, 163, 13)%nat
  else orFallback black sev.

(** The text of the excerpt line of a flag in the report. *)
Definition excerptLine (excerpt : string) : string :=
  "Excerpt: " +:+ dquote +:+ String.substring 0 150 excerpt +:+ "..." +:+ dquote.

(** The statements of one turn of [redFlags.forEach]. *)
Definition flagCalls (idx : nat) (flag : RedFlag) : list Call :=
  let title := "Red Flag #" +:+ pretty (idx + 1)%nat +:+ ": [" +:+ severity flag
               +:+ "] " +:+ rule_id flag in
  ([ match severityRgb (severity flag) with
     | Own color => AddText title 10 true color
     | Inherited _ => AddTextInherited title 10 true
     end;
     AddText ("Domain: " +:+ domain flag) 9 false black;
     AddText ("Issue: " +:+ reason flag) 9 false black ]
   ++ match clause_source flag with
      | Some clauseSrc =>
          if truthyOpt (cs_filename clauseSrc) then
            [AddText ("Found in: " +:+ default EmptyString (cs_filename clauseSrc))
               9 false (59, 130, 246)%nat]
            ++ (if truthyOpt (cs_excerpt clauseSrc)
                then [AddText (excerptLine (default EmptyString (cs_excerpt clauseSrc)))
                        8 false (100, 100, 100)%nat]
                else [])
          else []
      | None => []
      end
   ++ [Advance 3])%list.

(** How many flags carry the severity [sev]. *)
Definition countSeverity (sev : string) (flags : list RedFlag) : nat :=
  List.length (List.filter (λ f, String.eqb (severity f) sev) flags).

(** The red-flag analysis, after its section header. *)
Definition redFlagCalls (redFlags : option (list RedFlag)) : list Call :=
  if nonEmptyOpt redFlags then
    let flags := orNil redFlags in
    ([ AddText ("Total Red Flags Detected: " +:+ pretty (List.length flags))
         11 true (220, 38, 38)%nat;
       AddText ("  Critical: " +:+ pretty (countSeverity "CRITICAL" flags)
                +:+ "  |  High: " +:+ pretty (countSeverity "HIGH" flags)
                +:+ "  |  Medium: " +:+ pretty (countSeverity "MEDIUM" flags)
                +:+ "  |  Low: " +:+ pretty (countSeverity "LOW" flags)) 9 false black;
       Advance 5 ]
     ++ concat (imap flagCalls flags))%list
  else
    [AddText "No red flags detected in the analyzed document sections."
       10 false (22, 163, 74)%nat].

(** The statements of one turn of [sources.forEach]. *)
Definition sourceCalls (idx : nat) (src : Source) : list Call :=
  [ AddText ("[" +:+ pretty (idx + 1)%nat +:+ "] " +:+ src_filename src)
      10 true (59, 130, 246)%nat;
    AddText ("    Section: "
             +:+ orStr (src_section src) ("Chunk " +:+ pretty (src_chunk_idx src + 1)%nat)
             +:+ " | Score: " +:+ src_score src) 9 false (100, 100, 100)%nat ].

(** The referenced-sources section. *)
Definition sourcesCalls (sources : option (list Source)) : list Call :=
  if nonEmptyOpt sources
  then (AddSection "DOCUMENT SOURCES REFERENCED"
        :: concat (imap sourceCalls (orNil sources)))%list
  else [].

(** The body of the report from the first section header to the
    disclaimer header. *)
Definition reportCalls (data : ReportData) : list Call :=
  ([AddSection "EXECUTIVE SUMMARY"]
   ++ summaryCalls (rd_complianceSummary data)
   ++ [AddSection "RED FLAG ANALYSIS"]
   ++ redFlagCalls (rd_redFlags data)
   ++ [AddSection "AI ANALYSIS & RECOMMENDATIONS";
       AddText (rd_content data) 10 false black]
   ++ sourcesCalls (rd_sources data)
   ++ [AddSection "DISCLAIMER"])%list.

(** Several calls on [doc] in a row. *)
Definition emits (ops : list DrawOp) (b : Builder) : Builder :=
  foldl (λ b op, emit op b) b ops.

(** The title banner, ending with [yPos = 50]. *)
Definition drawTitle (dateStr timeStr : string) (b : Builder) : Builder :=
  set_yPos 50
    (emits [ SetFillColor (30, 58, 138)%nat;
             Rect 0 0 pageWidth 35;
             SetFontSize 20;
             SetFont true;
             SetTextColor (255, 255, 255)%nat;
             Text "REAL ESTATE COMPLIANCE REPORT" (pageWidth / 2) 15 true;
             SetFontSize 10;
             SetFont false;
             Text ("Generated: " +:+ dateStr +:+ " at " +:+ timeStr)
               (pageWidth / 2) 25 true ] b).

Definition disclaimer : string :=
  "This report is generated by an AI-powered compliance analysis system for informational purposes only. It does not constitute legal advice. Manual review by a qualified legal professional is strongly recommended. The system analyzes only the sections retrieved; some clauses may be missed. For official compliance verification, please consult with a registered legal professional or contact MahaRERA directly.".

(** One turn of [disclaimerLines.forEach]. *)
Definition disclaimerLine (b : Builder) (line : string) : Builder :=
  let b1 := breakIfBelow 20 b in
  let b2 := emit (Text line margin (yPos b1) false) b1 in
  set_yPos (yPos b2 + 4) b2.

(** The disclaimer text, after its section header. *)
Definition drawDisclaimer (b : Builder) : Builder :=
  let b1 := emits [SetFontSize 8; SetTextColor (100, 100, 100)%nat] b in
  foldl disclaimerLine b1 (splitTextToSize disclaimer maxWidth).

(** The footer of page [i] out of [pageCount]. *)
Definition footerOps (label : string) (pageCount i : nat) : list DrawOp :=
  [ SetPage i;
    SetFontSize 8;
    SetTextColor (150, 150, 150)%nat;
    Text ("Page " +:+ pretty i +:+ " of " +:+ pretty pageCount)
      (pageWidth / 2) (pageHeight - 10) true;
    Text label margin (pageHeight - 10) false ].

(** [for (let i = 1; i <= pageCount; i++) { ... }]. *)
Definition drawFooters (label : string) (b : Builder) : Builder :=
  let pageCount := numberOfPages b in
  emits (concat (footerOps label pageCount <$> seq 1 pageCount)) b.

(** [generateComplianceReport]; [dateStr], [timeStr] and [isoDate] are what
    the clock gives for the three date formats. *)
Definition generateComplianceReport (data : ReportData)
    (dateStr timeStr isoDate : string) : Builder :=
  let b1 := drawTitle dateStr timeStr newBuilder in
  let b2 := foldl exec b1 (reportCalls data) in
  let b3 := drawDisclaimer b2 in
  let b4 := drawFooters "CloverAI - MahaRERA Compliance System" b3 in
  emit (Save ("Compliance_Report_" +:+ isoDate +:+ ".pdf")) b4.

End Report.

(** ** Batch results *)

(** [summary] of a [/api/batch-process] response. *)
Record BatchSummary := {
  total_documents : nat;
  processed : nat;
  documents_with_issues : nat;
  total_red_flags : nat;
  total_critical : nat;
  total_missing_clauses : nat
}.

(** An element of [results] of a [/api/batch-process] response. *)
Record BatchEntry := {
  be_filename : string;
  be_status : string;
  be_error : option string;
  be_red_flags : option (list RedFlag);
  be_compliance_summary : option ComplianceSummary
}.

(** [result.red_flags?.length > 0 ||
     (result.compliance_summary && !result.compliance_summary.is_compliant)]. *)
Definition hasIssues (result : BatchEntry) : bool :=
  nonEmptyOpt (be_red_flags result)
  || match be_compliance_summary result with
     | Some summary => negb (is_compliant summary)
     | None => false
     end.

(** [result.red_flags?.some(f => f.severity === 'CRITICAL')]. *)
Definition isCritical (result : BatchEntry) : bool :=
  match be_red_flags result with
  | Some flags => existsb (λ f, String.eqb (severity f) "CRITICAL") flags
  | None => false
  end.

(** [result.compliance_summary?.compliant_count || 0]. *)
Definition compliantOf (result : BatchEntry) : nat :=
  match be_compliance_summary result with
  | Some summary => orZero (compliant_count summary)
  | None => 0
  end.

(** [result.compliance_summary?.total_checks || 0]. *)
Definition totalOf (result : BatchEntry) : nat :=
  match be_compliance_summary result with
  | Some summary => orZero (total_checks summary)
  | None => 0
  end.

(** [result.red_flags?.length || 0]. *)
Definition redFlagCount (result : BatchEntry) : nat :=
  List.length (orNil (be_red_flags result)).

(** The [doc-stats] division of a batch entry on screen. *)
Inductive DocStats :=
| StatsError (error : string)
| StatsCounts (redFlags clausesFound clausesTotal : nat).

(** One [batch-doc-result] division. *)
Record BatchDocResult := {
  bdr_className : string;
  bdr_filename : string;
  bdr_stats : DocStats
}.

(** The body of [results.map(...)] in [displayBatchResults]. *)
Definition batchDocResult (result : BatchEntry) : BatchDocResult :=
  let className :=
    if isCritical result then "critical"
    else if hasIssues result then "has-issues" else EmptyString in
  {| bdr_className := className;
     bdr_filename := be_filename result;
     bdr_stats :=
       if String.eqb (be_status result) "error"
       then StatsError (showStr (be_error result))
       else StatsCounts (redFlagCount result) (compliantOf result) (totalOf result) |}.

(** The message [displayBatchResults] appends: the four summary cards, one
    division per document, the closing sentence, and whether the download
    button got its handler. *)
Record BatchView := {
  bv_total_documents : nat;
  bv_processed : nat;
  bv_with_issues : nat;
  bv_red_flags : nat;
  bv_missing_clauses : nat;
  bv_doc_results : list BatchDocResult;
  bv_bubble : string;
  bv_download : bool
}.

(** [displayBatchResults]. *)
Definition displayBatchResults (summary : BatchSummary)
    (results : list BatchEntry) (generatePdf : bool) : BatchView :=
  {| bv_total_documents := total_documents summary;
     bv_processed := processed summary;
     bv_with_issues := documents_with_issues summary;
     bv_red_flags := total_red_flags summary;
     bv_missing_clauses := total_missing_clauses summary;
     bv_doc_results := batchDocResult <$> results;
     bv_bubble :=
       "Batch compliance analysis complete. "
       +:+ (if (0 <? documents_with_issues summary)%nat
            then pretty (documents_with_issues summary)
                 +:+ " document(s) have compliance issues that need attention."
            else "All documents passed the compliance check!");
     bv_download := generatePdf |}.

(** [l.forEach((x, idx) => ...)] threading a state, counting from [idx]. *)
Fixpoint forEachFrom {A St : Type} (f : St → nat → A → St) (s : St) (idx : nat)
    (l : list A) : St :=
  match l with
  | [] => s
  | x :: rest => forEachFrom f (f s idx x) (S idx) rest
  end.

Section BatchReport.
Context {canvas : Canvas}.

(** [checkPageBreak] of [generateBatchPdfReport]. *)
Definition checkPageBreak (needed : Q) (b : Builder) : Builder :=
  if Qgtb (yPos b + needed) (pageHeight - 30) then set_yPos 20 (addPage b) else b.

(** The lines for the first three red flags of an entry, from [rfY] down,
    and the [... and N more] marker. *)
Definition batchFlagOps (y : Q) (flags : list RedFlag) : list DrawOp :=
  (SetTextColor (100, 100, 100)%nat
   :: imap (λ i rf,
        Text ("  - [" +:+ severity rf +:+ "] " +:+ rule_id rf +:+ ": "
              +:+ String.substring 0 60 (reason rf) +:+ "...")
          (margin + 5) (y + 18 + inject_Z (Z.of_nat i) * 5) false)
        (take 3 flags)
   ++ (if (3 <? List.length flags)%nat
       then [Text ("  ... and " +:+ pretty (List.length flags - 3)%nat +:+ " more")
               (margin + 5)
               (y + 18 + inject_Z (Z.of_nat (List.length (take 3 flags))) * 5) false]
       else []))%list.

(** The calls one turn of [results.forEach] makes on [doc] when the cursor
    (after the page-break check) is at [y]. *)
Definition batchEntryOps (y : Q) (idx : nat) (result : BatchEntry) : list DrawOp :=
  let borderColor : Color :=
    if hasIssues result then (245, 158, 11)%nat else (34, 197, 94)%nat in
  ([ SetDrawColor borderColor;
     SetLineWidth 0.5;
     Line margin y margin (y + 30);
     SetFontSize 11;
     SetFont true;
     SetTextColor (55, 65, 81)%nat;
     Text (pretty (idx + 1)%nat +:+ ". " +:+ be_filename result) (margin + 5) (y + 5) false ]
   ++ (if String.eqb (be_status result) "error" then
         [ SetFontSize 9;
           SetTextColor (220, 38, 38)%nat;
           Text ("Error: " +:+ showStr (be_error result)) (margin + 5) (y + 12) false ]
       else
         let rfCount := redFlagCount result in
         let rfColor : Color :=
           if (0 <? rfCount)%nat then (220, 38, 38)%nat else (22, 163, 74)%nat in
         let compliant := compliantOf result in
         let total := totalOf result in
         let compColor : Color :=
           if (compliant <? total)%nat then (245, 158, 11)%nat else (22, 163, 74)%nat in
         [ SetFontSize 9;
           SetFont false;
           SetTextColor rfColor;
           Text ("Red Flags: " +:+ pretty rfCount) (margin + 5) (y + 12) false;
           SetTextColor compColor;
           Text ("Required Clauses: " +:+ pretty compliant +:+ "/" +:+ pretty total)
             (margin + 50) (y + 12) false ]
         ++ (if nonEmptyOpt (be_red_flags result)
             then batchFlagOps y (orNil (be_red_flags result))
             else [])))%list.

(** One turn of [results.forEach]. *)
Definition batchEntry (b : Builder) (idx : nat) (result : BatchEntry) : Builder :=
  let b1 := checkPageBreak 50 b in
  let b2 := emits (batchEntryOps (yPos b1) idx result) b1 in
  set_yPos (yPos b2 + 40) b2.






End BatchReport.

(** ** The regulation listing *)

(** [docTypeIcons[doc.doc_type] || '[DOC]']. *)
Definition docTypeIcon (doc_type : string) : Looked string :=
  if String.eqb doc_type "central_law" then Own "[LAW]"
  else if String.eqb doc_type "rules" then Own "[RULE]"
  else if String.eqb doc_type "regulations" then Own "[REG]"
  else if String.eqb doc_type "circulars" then Own "[CIR]"
  else if String.eqb doc_type "orders" then Own "[ORD]"
  else if String.eqb doc_type "regulatory_orders" then Own "[ORD]"
  else if String.eqb doc_type "forms" then Own "[FORM]"
  else orFallback "[DOC]" doc_type.

(** [title.length > 35 ? title.substring(0, 35) + '...' : title]. *)
Definition shortTitle (title : string) : string :=
  if (35 <? String.length title)%nat
  then String.substring 0 35 title +:+ "..."
  else title.

(** One [maharera-item] of [renderMahareraList]: the values interpolated
    into its template (the character count, printed by [toLocaleString], is
    left out). *)
Record MahareraRow := {
  mr_title : string;
  mr_filename : string;
  mr_checked : bool;
  mr_icon : Looked string;
  mr_shortTitle : string;
  mr_doc_type : string;
  mr_date : string
}.

(** The body of [state.mahareraDocuments.map(...)] in
    [renderMahareraList]. *)
Definition mahareraRow (selected : JsSet.t) (doc : MahareraDocument) : MahareraRow :=
  let title := orStr (mdoc_title doc) (mdoc_filename doc) in
  {| mr_title := title;
     mr_filename := mdoc_filename doc;
     mr_checked := JsSet.has selected (mdoc_filename doc);
     mr_icon := docTypeIcon (mdoc_doc_type doc);
     mr_shortTitle := shortTitle title;
     mr_doc_type := mdoc_doc_type doc;
     mr_date := orStr (mdoc_date doc) "Unknown" |}.

(** The rows [renderMahareraList] writes into [elements.mahareraList]
    (none when the listing is empty: the empty-state paragraph). *)
Definition mahareraRows (w : World) : list MahareraRow :=
  mahareraRow (selectedMahareraIds (state w)) <$> mahareraDocuments (state w).

(** [renderMahareraList], as far as it writes to elements that handlers
    read back. *)
Definition renderMahareraList (w : World) : World :=
  match mahareraDocuments (state w) with
  | [] =>
      let w1 := with_elements (set_selectAllMaharera
                  {| checked := false;
                     indeterminate := indeterminate (selectAllMaharera (elements w));
                     disabled := true |}) w in
      with_elements (set_checkComplianceBtn_disabled true) w1
  | _ :: _ =>
      let w1 := with_elements (set_selectAllMaharera
                  {| checked := checked (selectAllMaharera (elements w));
                     indeterminate := indeterminate (selectAllMaharera (elements w));
                     disabled := false |}) w in
      updateComplianceButtonState w1
  end.

Definition set_mahareraDocuments (v : list MahareraDocument) (s : State) : State :=
  {| documents := documents s; mahareraDocuments := v;
     selectedUserDocIds := selectedUserDocIds s;
     selectedMahareraIds := selectedMahareraIds s;
     selectedDocument := selectedDocument s; chatHistory := chatHistory s;
     isLoading := isLoading s; settings := settings s |}.

(** [loadMahareraDocuments] once the listing has arrived; [data] is
    [data.documents]. *)
Definition loadMahareraDocuments_resume
    (outcome : FetchOutcome (option (list MahareraDocument))) (w : World) : World :=
  match outcome with
  | ResponseOk data =>
      renderMahareraList (with_state (set_mahareraDocuments (orNil data)) w)
  | ResponseError _ => w
  | FetchFailed => w
  end.

(** [toggleDocumentSelection], the single-selection handler that
    [state.selectedDocument] belongs to. *)
Definition toggleDocumentSelection (filename : string) (w : World) : World :=
  let w1 :=
    if bool_decide (selectedDocument (state w) = Some filename)
    then with_state (set_selectedDocument None) w
    else with_state (set_selectedDocument (Some filename)) w in
  renderDocumentList w1.

(** ** Batch processing *)

(** A checkbox of the batch modal's document list. *)
Record BatchDocItem := {
  bdi_value : string;
  bdi_checked : bool
}.

(** The elements of the batch modal. They are taken to exist on the page,
    as [startBatchProcessing] takes them; the three option boxes may be
    missing ([?.checked ?? true]). [fill_failed] is the red background
    ['#ef4444'] of the progress bar. *)
Record BatchElements := {
  batchModal_active : bool;
  batchDocList : list BatchDocItem;
  batchProgress_shown : bool;
  batchProgressFill_width : nat;
  batchProgressFill_failed : bool;
  batchProgressText : string;
  startBatchBtn_disabled : bool;
  batchRedFlags : option bool;
  batchCompliance : option bool;
  batchGeneratePdf : option bool
}.

(** The [options] object of a batch request. *)
Record BatchOptions := {
  opt_redFlags : bool;
  opt_compliance : bool;
  opt_generatePdf : bool
}.

(** The JSON body posted to [/api/batch-process]. *)
Record BatchRequest := {
  brq_document_ids : list string;
  brq_maharera_ids : list string;
  brq_options : BatchOptions
}.

(** The body of a successful [/api/batch-process] response. *)
Record BatchData := {
  bd_summary : BatchSummary;
  bd_results : list BatchEntry
}.

(** What the browser supplies to the batch modal: the checkboxes found in
    [batchDocList] once a markup has been assigned to its [innerHTML], in
    document order, each with its [value] and whether it is checked. *)
Class Parser := {
  parseCheckboxes : string → list BatchDocItem
}.

(** The world of the batch handlers: the script's world, the batch modal,
    the batch requests made so far, the batch messages appended to the
    chat, and what is pending: for each call of [startBatchProcessing] that
    awaits its response the [options] it read when it started, and for each
    [setTimeout] not yet fired the response and the [generatePdf] option
    its callback closes over. All are kept oldest first; responses are
    taken to arrive in the order of their requests. *)
Record BatchWorld := {
  bw_world : World;
  bw_batch : BatchElements;
  bw_requests : list BatchRequest;
  bw_messages : list BatchView;
  bw_inflight : list BatchOptions;
  bw_timers : list (BatchData * bool)
}.

Definition with_world (f : World → World) (bw : BatchWorld) : BatchWorld :=
  {| bw_world := f (bw_world bw); bw_batch := bw_batch bw;
     bw_requests := bw_requests bw; bw_messages := bw_messages bw;
     bw_inflight := bw_inflight bw; bw_timers := bw_timers bw |}.

Definition with_batch (f : BatchElements → BatchElements) (bw : BatchWorld)
    : BatchWorld :=
  {| bw_world := bw_world bw; bw_batch := f (bw_batch bw);
     bw_requests := bw_requests bw; bw_messages := bw_messages bw;
     bw_inflight := bw_inflight bw; bw_timers := bw_timers bw |}.

Definition set_inflight (v : list BatchOptions) (bw : BatchWorld) : BatchWorld :=
  {| bw_world := bw_world bw; bw_batch := bw_batch bw;
     bw_requests := bw_requests bw; bw_messages := bw_messages bw;
     bw_inflight := v; bw_timers := bw_timers bw |}.

Definition set_timers (v : list (BatchData * bool)) (bw : BatchWorld) : BatchWorld :=
  {| bw_world := bw_world bw; bw_batch := bw_batch bw;
     bw_requests := bw_requests bw; bw_messages := bw_messages bw;
     bw_inflight := bw_inflight bw; bw_timers := v |}.

Definition set_batchModal_active (v : bool) (e : BatchElements) : BatchElements :=
  {| batchModal_active := v; batchDocList := batchDocList e;
     batchProgress_shown := batchProgress_shown e;
     batchProgressFill_width := batchProgressFill_width e;
     batchProgressFill_failed := batchProgressFill_failed e;
     batchProgressText := batchProgressText e;
     startBatchBtn_disabled := startBatchBtn_disabled e;
     batchRedFlags := batchRedFlags e; batchCompliance := batchCompliance e;
     batchGeneratePdf := batchGeneratePdf e |}.

Definition set_batchDocList (v : list BatchDocItem) (e : BatchElements)
    : BatchElements :=
  {| batchModal_active := batchModal_active e; batchDocList := v;
     batchProgress_shown := batchProgress_shown e;
     batchProgressFill_width := batchProgressFill_width e;
     batchProgressFill_failed := batchProgressFill_failed e;
     batchProgressText := batchProgressText e;
     startBatchBtn_disabled := startBatchBtn_disabled e;
     batchRedFlags := batchRedFlags e; batchCompliance := batchCompliance e;
     batchGeneratePdf := batchGeneratePdf e |}.

Definition set_batchProgress_shown (v : bool) (e : BatchElements) : BatchElements :=
  {| batchModal_active := batchModal_active e; batchDocList := batchDocList e;
     batchProgress_shown := v;
     batchProgressFill_width := batchProgressFill_width e;
     batchProgressFill_failed := batchProgressFill_failed e;
     batchProgressText := batchProgressText e;
     startBatchBtn_disabled := startBatchBtn_disabled e;
     batchRedFlags := batchRedFlags e; batchCompliance := batchCompliance e;
     batchGeneratePdf := batchGeneratePdf e |}.

Definition set_batchProgressFill_width (v : nat) (e : BatchElements) : BatchElements :=
  {| batchModal_active := batchModal_active e; batchDocList := batchDocList e;
     batchProgress_shown := batchProgress_shown e;
     batchProgressFill_width := v;
     batchProgressFill_failed := batchProgressFill_failed e;
     batchProgressText := batchProgressText e;
     startBatchBtn_disabled := startBatchBtn_disabled e;
     batchRedFlags := batchRedFlags e; batchCompliance := batchCompliance e;
     batchGeneratePdf := batchGeneratePdf e |}.

Definition set_batchProgressFill_failed (v : bool) (e : BatchElements) : BatchElements :=
  {| batchModal_active := batchModal_active e; batchDocList := batchDocList e;
     batchProgress_shown := batchProgress_shown e;
     batchProgressFill_width := batchProgressFill_width e;
     batchProgressFill_failed := v;
     batchProgressText := batchProgressText e;
     startBatchBtn_disabled := startBatchBtn_disabled e;
     batchRedFlags := batchRedFlags e; batchCompliance := batchCompliance e;
     batchGeneratePdf := batchGeneratePdf e |}.

Definition set_batchProgressText (v : string) (e : BatchElements) : BatchElements :=
  {| batchModal_active := batchModal_active e; batchDocList := batchDocList e;
     batchProgress_shown := batchProgress_shown e;
     batchProgressFill_width := batchProgressFill_width e;
     batchProgressFill_failed := batchProgressFill_failed e;
     batchProgressText := v;
     startBatchBtn_disabled := startBatchBtn_disabled e;
     batchRedFlags := batchRedFlags e; batchCompliance := batchCompliance e;
     batchGeneratePdf := batchGeneratePdf e |}.

Definition set_startBatchBtn_disabled (v : bool) (e : BatchElements) : BatchElements :=
  {| batchModal_active := batchModal_active e; batchDocList := batchDocList e;
     batchProgress_shown := batchProgress_shown e;
     batchProgressFill_width := batchProgressFill_width e;
     batchProgressFill_failed := batchProgressFill_failed e;
     batchProgressText := batchProgressText e;
     startBatchBtn_disabled := v;
     batchRedFlags := batchRedFlags e; batchCompliance := batchCompliance e;
     batchGeneratePdf := batchGeneratePdf e |}.

(** A line feed. *)
Definition lineFeed : string := String "010"%char EmptyString.

(** The markup of one [batch-doc-item]: the template literal of
    [openBatchModal] with the filename interpolated as it is, four
    times. *)
Definition batchDocItemHTML (filename : string) : string :=
  lineFeed
  +:+ "            <div class=" +:+ dquote +:+ "batch-doc-item" +:+ dquote +:+ ">"
  +:+ lineFeed
  +:+ "                <input type=" +:+ dquote +:+ "checkbox" +:+ dquote
  +:+ " id=" +:+ dquote +:+ "batch-" +:+ filename +:+ dquote
  +:+ " value=" +:+ dquote +:+ filename +:+ dquote +:+ " checked>"
  +:+ lineFeed
  +:+ "                <label for=" +:+ dquote +:+ "batch-" +:+ filename +:+ dquote
  +:+ ">" +:+ filename +:+ "</label>"
  +:+ lineFeed
  +:+ "                <span class=" +:+ dquote +:+ "doc-type" +:+ dquote
  +:+ ">USER</span>"
  +:+ lineFeed
  +:+ "            </div>"
  +:+ lineFeed
  +:+ "        ".

(** [selectedDocs.map(doc => `...`).join('')]. *)
Definition batchDocListHTML (selectedDocs : list Document) : string :=
  join EmptyString ((λ d, batchDocItemHTML (doc_filename d)) <$> selectedDocs).

(** The documents [openBatchModal] offers:
    [state.documents.filter(d => state.selectedUserDocIds.has(d.filename))]. *)
Definition batchSelectedDocs (w : World) : list Document :=
  List.filter (λ d, JsSet.has (selectedUserDocIds (state w)) (doc_filename d))
    (documents (state w)).

Section BatchModal.
Context {parser : Parser}.

(** [openBatchModal]. The boxes of the list are those the browser finds in
    the markup assigned to [innerHTML]. *)
Definition openBatchModal (bw : BatchWorld) : BatchWorld :=
  let w := bw_world bw in
  if (JsSet.size (selectedUserDocIds (state w)) =? 0)%nat then
    with_world (alert "Please select at least one user document to process.") bw
  else
    let bw1 := with_batch (set_batchDocList
                 (parseCheckboxes (batchDocListHTML (batchSelectedDocs w)))) bw in
    let bw2 := with_batch (set_batchProgress_shown false) bw1 in
    let bw3 := with_batch (set_batchProgressFill_width 0) bw2 in
    with_batch (set_batchModal_active true) bw3.

(** [closeBatchModal]. *)
Definition closeBatchModal (bw : BatchWorld) : BatchWorld :=
  with_batch (set_batchModal_active false) bw.

(** The user ticks or unticks the box of [filename] in the modal. *)
Definition setBatchDocChecked (filename : string) (v : bool) (bw : BatchWorld)
    : BatchWorld :=
  with_batch (set_batchDocList
    ((λ item, if bool_decide (bdi_value item = filename)
              then {| bdi_value := bdi_value item; bdi_checked := v |}
              else item) <$> batchDocList (bw_batch bw))) bw.

(** The [options] object [startBatchProcessing] reads off the page. *)
Definition batchOptions (e : BatchElements) : BatchOptions :=
  {| opt_redFlags := default true (batchRedFlags e);
     opt_compliance := default true (batchCompliance e);
     opt_generatePdf := default true (batchGeneratePdf e) |}.

(** The values of the checked boxes of the modal's list. *)
Definition checkedDocumentIds (e : BatchElements) : list string :=
  bdi_value <$> List.filter bdi_checked (batchDocList e).

(** [startBatchProcessing] up to [await fetch]. The call then awaits its
    response, holding the [options] it has read. *)
Definition startBatchProcessing_begin (bw : BatchWorld) : BatchWorld :=
  let documentIds := checkedDocumentIds (bw_batch bw) in
  if (List.length documentIds =? 0)%nat then
    with_world (alert "Please select at least one document to process.") bw
  else
    let options := batchOptions (bw_batch bw) in
    let mahareraIds := JsSet.toArray (selectedMahareraIds (state (bw_world bw))) in
    let bw1 := with_batch (set_batchProgress_shown true) bw in
    let bw2 := with_batch (set_startBatchBtn_disabled true) bw1 in
    let bw3 := with_batch (set_batchProgressText "Starting batch processing...") bw2 in
    let bw4 := with_batch (set_batchProgressFill_width 10) bw3 in
    {| bw_world := bw_world bw4; bw_batch := bw_batch bw4;
       bw_requests := (bw_requests bw4
                       ++ [{| brq_document_ids := documentIds;
                              brq_maharera_ids := mahareraIds;
                              brq_options := options |}])%list;
       bw_messages := bw_messages bw4;
       bw_inflight := (bw_inflight bw4 ++ [options])%list;
       bw_timers := bw_timers bw4 |}.

(** [startBatchProcessing] once the response has arrived (or the request
    has failed), including the [finally] block; [options] is what the call
    read when it started. On success the callback that shows the results
    is handed to [setTimeout], with the response and [options.generatePdf];
    otherwise no callback is made. *)
Definition startBatchProcessing_resume (options : BatchOptions)
    (outcome : FetchOutcome BatchData) (bw : BatchWorld) : BatchWorld :=
  let bw' :=
    match outcome with
    | ResponseOk data =>
        let bw1 := with_batch (set_batchProgressFill_width 70) bw in
        let bw2 := with_batch (set_batchProgressText "Processing documents...") bw1 in
        let bw3 := with_batch (set_batchProgressFill_width 100) bw2 in
        let bw4 := with_batch (set_batchProgressText "Complete!") bw3 in
        set_timers (bw_timers bw4 ++ [(data, opt_generatePdf options)])%list bw4
    | ResponseError error =>
        let bw1 := with_batch (set_batchProgressFill_width 70) bw in
        let bw2 := with_batch (set_batchProgressText "Processing documents...") bw1 in
        let bw3 := with_batch (set_batchProgressText ("Error: " +:+ showStr error)) bw2 in
        with_batch (set_batchProgressFill_failed true) bw3
    | FetchFailed =>
        let bw1 := with_batch (set_batchProgressText "Failed to connect to server") bw in
        with_batch (set_batchProgressFill_failed true) bw1
    end in
  with_batch (set_startBatchBtn_disabled false) bw'.

(** The callback handed to [setTimeout]: close the modal and show the
    results. *)
Definition batchResultsTimeout (data : BatchData) (generatePdf : bool)
    (bw : BatchWorld) : BatchWorld :=
  let bw1 := closeBatchModal bw in
  let bw2 := with_world (with_elements (set_welcomeMessage false)) bw1 in
  {| bw_world := bw_world bw2; bw_batch := bw_batch bw2;
     bw_requests := bw_requests bw2;
     bw_messages := (bw_messages bw2
                     ++ [displayBatchResults (bd_summary data) (bd_results data)
                           generatePdf])%list;
     bw_inflight := bw_inflight bw2; bw_timers := bw_timers bw2 |}.

(** The oldest pending call of [startBatchProcessing] gets its response;
    nothing happens when no call is pending. *)
Definition batchSettles (outcome : FetchOutcome BatchData) (bw : BatchWorld)
    : BatchWorld :=
  match bw_inflight bw with
  | [] => bw
  | options :: rest =>
      startBatchProcessing_resume options outcome (set_inflight rest bw)
  end.

(** The oldest pending timer fires; nothing happens when none is
    pending. *)
Definition batchTimerFires (bw : BatchWorld) : BatchWorld :=
  match bw_timers bw with
  | [] => bw
  | (data, generatePdf) :: rest =>
      batchResultsTimeout data generatePdf (set_timers rest bw)
  end.

End BatchModal.

(** ** Sample data

    Concrete worlds, responses and canvases on which the properties below
    are exercised. *)

(** The settings the script starts with. *)
Definition defaultSettings : Settings :=
  {| language := "auto"; topK := 3; showSources := true |}.

(** [state] as the script initialises it. *)
Definition initialState : State :=
  {| documents := []; mahareraDocuments := [];
     selectedUserDocIds := JsSet.empty; selectedMahareraIds := JsSet.empty;
     selectedDocument := None; chatHistory := []; isLoading := false;
     settings := defaultSettings |}.

(** A freshly loaded page. *)
Definition initialElements : Elements :=
  {| messageInput := EmptyString;
     sendBtn_disabled := false;
     selectAllUserDocs := Some {| checked := false; indeterminate := false;
                                  disabled := true |};
     selectAllMaharera := {| checked := false; indeterminate := false;
                             disabled := true |};
     checkComplianceBtn_disabled := true;
     checkComplianceBtn_label := CheckComplianceLabel;
     batchProcessBtn_disabled := Some true;
     chatMessages := [];
     welcomeMessage := true |}.

Definition initialWorld : World :=
  {| state := initialState; elements := initialElements;
     alerts := []; network := [] |}.

Definition userDoc (name : string) : Document :=
  {| doc_filename := name; doc_char_count := Some 1200%nat; doc_chunks := Some 3%nat |}.

Definition circular (name title : string) : MahareraDocument :=
  {| mdoc_filename := name; mdoc_title := Some title; mdoc_doc_type := "circulars";
     mdoc_date := None; mdoc_char_count := Some 800%nat |}.

(** A page on which two user documents and one regulation are listed. *)
Definition listedWorld : World :=
  {| state :=
       {| documents := [userDoc "agreement.pdf"; userDoc "lease.pdf"];
          mahareraDocuments := [circular "circular-12.pdf" "Circular 12"];
          selectedUserDocIds := JsSet.empty; selectedMahareraIds := JsSet.empty;
          selectedDocument := None; chatHistory := []; isLoading := false;
          settings := defaultSettings |};
     elements :=
       {| messageInput := EmptyString;
          sendBtn_disabled := false;
          selectAllUserDocs := Some {| checked := false; indeterminate := false;
                                       disabled := false |};
          selectAllMaharera := {| checked := false; indeterminate := false;
                                  disabled := false |};
          checkComplianceBtn_disabled := true;
          checkComplianceBtn_label := CheckComplianceLabel;
          batchProcessBtn_disabled := Some true;
          chatMessages := [];
          welcomeMessage := true |};
     alerts := []; network := [] |}.

(** The text serialisation of the DOM: the three characters that are
    significant in markup and the no-break space are written as character
    references. *)
Fixpoint domSerializeText (s : string) : string :=
  match s with
  | EmptyString => EmptyString
  | String c rest =>
      if Ascii.eqb c "&"%char then "&amp;" +:+ domSerializeText rest
      else if Ascii.eqb c "<"%char then "&lt;" +:+ domSerializeText rest
      else if Ascii.eqb c ">"%char then "&gt;" +:+ domSerializeText rest
      else if Ascii.eqb c "160"%char then "&nbsp;" +:+ domSerializeText rest
      else String c (domSerializeText rest)
  end.

Definition domBrowser : Browser := {| serializeText := domSerializeText |}.

(** Break a text at its newline characters. *)
Fixpoint splitLines (s : string) : list string :=
  match s with
  | EmptyString => [EmptyString]
  | String c rest =>
      if Ascii.eqb c "010"%char then EmptyString :: splitLines rest
      else match splitLines rest with
           | [] => [String c EmptyString]
           | l :: ls => String c l :: ls
           end
  end.

(** An A4 portrait page in millimetres, wrapping at newlines only. *)
Definition a4Canvas : Canvas :=
  {| pageWidth := 210; pageHeight := 297;
     splitTextToSize := λ text _, splitLines text |}.

(** A red flag whose clause source names a file and carries an excerpt. *)
Definition sampleClause : ClauseSource :=
  {| cs_filename := Some "agreement.pdf"; cs_section := Some "Clause 7";
     cs_excerpt := Some "The promoter may revise the date of possession at its sole discretion." |}.

Definition sampleFlag : RedFlag :=
  {| severity := "HIGH"; rule_id := "R-7"; domain := "possession";
     reason := "The possession date can be changed unilaterally";
     clause_source := Some sampleClause;
     authority_support := None; has_authority_support := None |}.

(** Batch entries: one processed without findings, one that failed, one
    with a red flag. *)
Definition cleanEntry (name : string) : BatchEntry :=
  {| be_filename := name; be_status := "success"; be_error := None;
     be_red_flags := Some [];
     be_compliance_summary :=
       Some {| is_compliant := true; compliant_count := Some 5%nat;
               total_checks := Some 5%nat; critical_missing := None;
               high_missing := None; medium_missing := None |} |}.

Definition failedEntry (name : string) : BatchEntry :=
  {| be_filename := name; be_status := "error";
     be_error := Some "could not read file";
     be_red_flags := None; be_compliance_summary := None |}.

Definition flaggedEntry (name : string) : BatchEntry :=
  {| be_filename := name; be_status := "success"; be_error := None;
     be_red_flags := Some [sampleFlag];
     be_compliance_summary :=
       Some {| is_compliant := false; compliant_count := Some 4%nat;
               total_checks := Some 5%nat; critical_missing := None;
               high_missing := None; medium_missing := None |} |}.

(** A text of [n + 1] one-character lines. *)
Fixpoint manyLines (n : nat) : string :=
  match n with
  | O => "x"
  | S k => String "x" (String "010"%char (manyLines k))
  end.

(** The report data of an answer of [n + 1] lines with one red flag. *)
Definition sampleReport (n : nat) : ReportData :=
  {| rd_content := manyLines n; rd_redFlags := Some [sampleFlag];
     rd_decision := Some {| compliance_check := Some true; is_red_flag := Some true |};
     rd_complianceSummary := None; rd_sources := None |}.

(** ** Vocabulary of the statements *)

(** A call on [doc] draws no text below [limit]. *)
Definition textWithin (limit : Q) (op : DrawOp) : Prop :=
  match op with
  | Text _ _ y _ => (y <= limit)%Q
  | _ => True
  end.

(** Every character of [s] is white space. *)
Fixpoint allWhiteSpace (s : string) : bool :=
  match s with
  | EmptyString => true
  | String c rest => isWhiteSpace c && allWhiteSpace rest
  end.




(** The count a missing-clause group shows in its title, and the domains
    of its rows; an absent group shows nothing. *)
Definition groupCount (g : option MissingGroupView) : nat :=
  match g with Some g => mgv_count g | None => 0 end.

Definition groupDomains (g : option MissingGroupView) : list string :=
  match g with Some g => miv_domain <$> mgv_items g | None => [] end.

(** The pages added, and the texts drawn, by a sequence of calls on
    [doc]. *)
Definition countAddPage (ops : list DrawOp) : nat :=
  List.length (List.filter (λ op, match op with AddPage => true | _ => false end) ops).

Definition countText (ops : list DrawOp) : nat :=
  List.length (List.filter (λ op, match op with Text _ _ _ _ => true | _ => false end)
                 ops).



(** A batch world around [w] whose modal has not been opened yet. *)
Definition batchWorld (w : World) : BatchWorld :=
  {| bw_world := w;
     bw_batch := {| batchModal_active := false; batchDocList := [];
                    batchProgress_shown := false; batchProgressFill_width := 0;
                    batchProgressFill_failed := false;
                    batchProgressText := EmptyString;
                    startBatchBtn_disabled := false;
                    batchRedFlags := Some true; batchCompliance := Some true;
                    batchGeneratePdf := None |};
     bw_requests := []; bw_messages := []; bw_inflight := []; bw_timers := [] |}.

(** The sample page with its regulation selected and a question typed. *)
Definition typedWorld : World :=
  with_elements (set_messageInput "  Is clause 4 valid?  ")
    (toggleMahareraSelection "circular-12.pdf" listedWorld).

(** A flag with three authority references, and the summary of scenario D
    of the specification: two of five clauses found, three missing. *)
Definition citedFlag : RedFlag :=
  {| severity := "CRITICAL"; rule_id := "R-2"; domain := "refund";
     reason := "No refund clause";
     clause_source := None;
     authority_support :=
       Some [ {| as_filename := "act.pdf"; as_excerpt := "Section 18" |};
              {| as_filename := "rules.pdf"; as_excerpt := "Rule 9" |};
              {| as_filename := "order.pdf"; as_excerpt := "Order 3" |} ];
     has_authority_support := None |}.

Definition partialSummary : ComplianceSummary :=
  {| is_compliant := false; compliant_count := Some 2%nat; total_checks := Some 5%nat;
     critical_missing :=
       Some [{| mc_domain := "refund"; mc_description := "Refund on delay" |}];
     high_missing :=
       Some [ {| mc_domain := "carpet area"; mc_description := "Carpet area stated" |};
              {| mc_domain := "possession"; mc_description := "Possession date" |} ];
     medium_missing := None |}.

(** [b'] is [b] after some further calls on [doc], and its page count has
    grown by the pages those calls added. *)
Definition extends (b b' : Builder) : Prop :=
  ∃ added,
    doc b' = (doc b ++ added)%list
    ∧ numberOfPages b' = (numberOfPages b + countAddPage added)%nat.

(** What can happen around the batch modal: the user opens or closes it,
    ticks or unticks a listed document, presses the start button (which
    does nothing while it is disabled); the oldest pending batch request
    settles; the oldest pending half-second timer fires. *)
Inductive BatchEvent :=
| OpenBatchModal
| CloseBatchModal
| TickBatchDoc (filename : string) (v : bool)
| ClickStartBatchBtn
| BatchSettles (outcome : FetchOutcome BatchData)
| BatchTimerFires.

Definition batchStep `{Parser} (bw : BatchWorld) (ev : BatchEvent) : BatchWorld :=
  match ev with
  | OpenBatchModal => openBatchModal bw
  | CloseBatchModal => closeBatchModal bw
  | TickBatchDoc filename v => setBatchDocChecked filename v bw
  | ClickStartBatchBtn =>
      if startBatchBtn_disabled (bw_batch bw) then bw
      else startBatchProcessing_begin bw
  | BatchSettles outcome => batchSettles outcome bw
  | BatchTimerFires => batchTimerFires bw
  end.

(** A drawing call stays above [limit]: a text, or either end of a line. *)
Definition drawnWithin (limit : Q) (op : DrawOp) : Prop :=
  match op with
  | Text _ _ y _ => (y <= limit)%Q
  | Line _ y1 _ y2 => (y1 <= limit)%Q ∧ (y2 <= limit)%Q
  | _ => True
  end.

(** ** Paginated loops

    Every loop of the two report builders that draws one item per turn has
    the same shape: the turn first checks the cursor with its guard; when
    the guard holds it adds a page and moves the cursor to the top margin;
    it then draws the item at the cursor and advances the cursor by a fixed
    step. *)

(** Where a turn draws when it finds the cursor at [y]. *)
Definition landing (over : Q → bool) (y : Q) : Q := if over y then 20 else y.

(** The page break of a turn that finds the cursor at [y]. *)
Definition pageBreak (over : Q → bool) (y : Q) : list DrawOp :=
  if over y then [AddPage] else [].

(** The cursor that turn [k] finds, in a loop entered with the cursor at
    [y0]. *)
Fixpoint cursorBefore (over : Q → bool) (step y0 : Q) (k : nat) : Q :=
  match k with
  | O => y0
  | S i => landing over (cursorBefore over step y0 i) + step
  end.

(** The calls of a whole loop entered with the cursor at [y0]; [draw k x y]
    are the calls that draw item [x] of index [k] at [y]. *)
Definition column {A} (over : Q → bool) (step y0 : Q)
    (draw : nat → A → Q → list DrawOp) (items : list A) : list DrawOp :=
  concat (imap (λ k x, pageBreak over (cursorBefore over step y0 k)
                       ++ draw k x (landing over (cursorBefore over step y0 k)))%list
            items).

(** The guard of the helpers of the single report, [yPos > pageHeight - k],
    and the guard of the batch report,
    [yPos + needed > pageHeight - 30]. *)
Definition pastLimit `{Canvas} (k : Q) (y : Q) : bool := Qgtb y (pageHeight - k).

Definition needsBreak `{Canvas} (needed : Q) (y : Q) : bool :=
  Qgtb (y + needed) (pageHeight - 30).

(** The texts among a sequence of calls on [doc], in order. *)
Definition textsOf (ops : list DrawOp) : list string :=
  omap (λ op, match op with Text s _ _ _ => Some s | _ => None end) ops.


(** ** A sample browser for the batch modal *)

(** The text up to the first double quote. *)
Fixpoint upToQuote (s : string) : string :=
  match s with
  | EmptyString => EmptyString
  | String c rest =>
      if Ascii.eqb c "034"%char then EmptyString else String c (upToQuote rest)
  end.

(** [s] without its prefix [p], when it begins with [p]. *)
Fixpoint afterPrefix (p s : string) : option string :=
  match p, s with
  | EmptyString, _ => Some s
  | String a p', String b s' => if Ascii.eqb a b then afterPrefix p' s' else None
  | String _ _, EmptyString => None
  end.

(** A reading of the markup of the batch list that serves for filenames
    without markup of their own: every [ value=] followed by a double quote
    opens the value of a checked box, which ends at the next double
    quote. *)
Fixpoint sampleCheckboxes (s : string) : list BatchDocItem :=
  match s with
  | EmptyString => []
  | String c rest =>
      match afterPrefix (" value=" +:+ dquote) s with
      | Some r => {| bdi_value := upToQuote r; bdi_checked := true |}
                  :: sampleCheckboxes rest
      | None => sampleCheckboxes rest
      end
  end.

Definition sampleParser : Parser := {| parseCheckboxes := sampleCheckboxes |}.




(** * Properties *)

(** ** Sets of filenames *)

Lemma JsSet_has_true (s : JsSet.t) (x : string) : JsSet.has s x = true ↔ x ∈ s.
Proof. unfold JsSet.has. apply bool_decide_eq_true. Qed.

Lemma JsSet_has_false (s : JsSet.t) (x : string) : JsSet.has s x = false ↔ x ∉ s.
Proof. unfold JsSet.has. apply bool_decide_eq_false. Qed.

Lemma JsSet_elem_of_add (s : JsSet.t) (x y : string) :
  y ∈ JsSet.add s x ↔ y = x ∨ y ∈ s.
Proof.
  unfold JsSet.add. destruct (JsSet.has s x) eqn:Hx.
  - apply JsSet_has_true in Hx. split; [auto | intros [-> | ?]; done].
  - rewrite elem_of_app, list_elem_of_singleton. tauto.
Qed.

Lemma JsSet_elem_of_delete (s : JsSet.t) (x y : string) :
  y ∈ JsSet.delete s x ↔ y ∈ s ∧ y ≠ x.
Proof. unfold JsSet.delete. rewrite list_elem_of_filter. tauto. Qed.

Lemma JsSet_delete_absent (s : JsSet.t) (x : string) :
  x ∉ s → JsSet.delete s x = s.
Proof.
  unfold JsSet.delete. induction s as [|a s IH]; intros Hx; [done|].
  apply not_elem_of_cons in Hx as [Hne Hx].
  rewrite filter_cons_True by congruence. by rewrite IH.
Qed.

Lemma JsSet_add_NoDup (s : JsSet.t) (x : string) :
  NoDup s → NoDup (JsSet.add s x).
Proof.
  intros Hs. unfold JsSet.add. destruct (JsSet.has s x) eqn:Hx; [done|].
  apply JsSet_has_false in Hx. apply NoDup_app. split_and!; [done| |apply NoDup_singleton].
  intros y Hy Hy'. apply list_elem_of_singleton in Hy'. by subst.
Qed.

Lemma JsSet_delete_NoDup (s : JsSet.t) (x : string) :
  NoDup s → NoDup (JsSet.delete s x).
Proof. apply NoDup_filter. Qed.

(** Membership after the flip that both toggle handlers perform. *)
Lemma JsSet_flip_has (s : JsSet.t) (x y : string) :
  JsSet.has (if JsSet.has s x then JsSet.delete s x else JsSet.add s x) y
  = if bool_decide (y = x) then negb (JsSet.has s x) else JsSet.has s y.
Proof.
  destruct (JsSet.has s x) eqn:Hx; case_bool_decide as Hy; subst; simpl.
  - apply JsSet_has_false. rewrite JsSet_elem_of_delete. tauto.
  - destruct (JsSet.has s y) eqn:Hsy.
    + apply JsSet_has_true. apply JsSet_has_true in Hsy.
      rewrite JsSet_elem_of_delete. done.
    + apply JsSet_has_false. apply JsSet_has_false in Hsy.
      rewrite JsSet_elem_of_delete. tauto.
  - apply JsSet_has_true. rewrite JsSet_elem_of_add. auto.
  - destruct (JsSet.has s y) eqn:Hsy.
    + apply JsSet_has_true. apply JsSet_has_true in Hsy.
      rewrite JsSet_elem_of_add. auto.
    + apply JsSet_has_false. apply JsSet_has_false in Hsy.
      rewrite JsSet_elem_of_add. tauto.
Qed.

(** ** The handlers and the parts of the world they leave alone *)

Lemma updateComplianceButtonState_state (w : World) :
  state (updateComplianceButtonState w) = state w.
Proof.
  unfold updateComplianceButtonState.
  destruct (batchProcessBtn_disabled _); simpl;
    repeat match goal with |- context [if ?c then _ else _] => destruct c end;
    reflexivity.
Qed.

Lemma updateSelectAllUserDocsState_state (w : World) :
  state (updateSelectAllUserDocsState w) = state w.
Proof. unfold updateSelectAllUserDocsState. by destruct (selectAllUserDocs _). Qed.

Lemma updateSelectAllState_state (w : World) :
  state (updateSelectAllState w) = state w.
Proof. reflexivity. Qed.

Lemma toggleUserDocSelection_selected (filename : string) (w : World) :
  selectedUserDocIds (state (toggleUserDocSelection filename w))
  = if JsSet.has (selectedUserDocIds (state w)) filename
    then JsSet.delete (selectedUserDocIds (state w)) filename
    else JsSet.add (selectedUserDocIds (state w)) filename.
Proof.
  unfold toggleUserDocSelection.
  rewrite updateComplianceButtonState_state, updateSelectAllUserDocsState_state.
  by destruct (JsSet.has _ _).
Qed.

Lemma toggleMahareraSelection_selected (filename : string) (w : World) :
  selectedMahareraIds (state (toggleMahareraSelection filename w))
  = if JsSet.has (selectedMahareraIds (state w)) filename
    then JsSet.delete (selectedMahareraIds (state w)) filename
    else JsSet.add (selectedMahareraIds (state w)) filename.
Proof.
  unfold toggleMahareraSelection.
  rewrite updateComplianceButtonState_state, updateSelectAllState_state.
  by destruct (JsSet.has _ _).
Qed.

Lemma toggleUserDocSelection_listing (filename : string) (w : World) :
  documents (state (toggleUserDocSelection filename w)) = documents (state w)
  ∧ mahareraDocuments (state (toggleUserDocSelection filename w))
    = mahareraDocuments (state w)
  ∧ selectedMahareraIds (state (toggleUserDocSelection filename w))
    = selectedMahareraIds (state w).
Proof.
  unfold toggleUserDocSelection.
  rewrite updateComplianceButtonState_state, updateSelectAllUserDocsState_state.
  by destruct (JsSet.has _ _).
Qed.

Lemma toggleMahareraSelection_listing (filename : string) (w : World) :
  documents (state (toggleMahareraSelection filename w)) = documents (state w)
  ∧ mahareraDocuments (state (toggleMahareraSelection filename w))
    = mahareraDocuments (state w)
  ∧ selectedUserDocIds (state (toggleMahareraSelection filename w))
    = selectedUserDocIds (state w).
Proof.
  unfold toggleMahareraSelection.
  rewrite updateComplianceButtonState_state, updateSelectAllState_state.
  by destruct (JsSet.has _ _).
Qed.

(** The toggles keep the selection sets free of duplicates. *)
Lemma toggle_NoDup (filename : string) (w : World) :
  NoDup (selectedUserDocIds (state w)) →
  NoDup (selectedMahareraIds (state w)) →
  NoDup (selectedUserDocIds (state (toggleUserDocSelection filename w)))
  ∧ NoDup (selectedMahareraIds (state (toggleMahareraSelection filename w))).
Proof.
  intros Hu Hm.
  rewrite toggleUserDocSelection_selected, toggleMahareraSelection_selected.
  split; destruct (JsSet.has _ _);
    auto using JsSet_add_NoDup, JsSet_delete_NoDup.
Qed.

(** ** Selection store *)

(** Membership after one toggle, for either category. *)
Lemma toggleUserDocSelection_has (filename other : string) (w : World) :
  JsSet.has (selectedUserDocIds (state (toggleUserDocSelection filename w))) other
  = if bool_decide (other = filename)
    then negb (JsSet.has (selectedUserDocIds (state w)) filename)
    else JsSet.has (selectedUserDocIds (state w)) other.
Proof. rewrite toggleUserDocSelection_selected. apply JsSet_flip_has. Qed.

Lemma toggleMahareraSelection_has (filename other : string) (w : World) :
  JsSet.has (selectedMahareraIds (state (toggleMahareraSelection filename w))) other
  = if bool_decide (other = filename)
    then negb (JsSet.has (selectedMahareraIds (state w)) filename)
    else JsSet.has (selectedMahareraIds (state w)) other.
Proof. rewrite toggleMahareraSelection_selected. apply JsSet_flip_has. Qed.

(** Membership after two toggles of the same filename. *)
Lemma toggleUserDocSelection_twice_has (filename other : string) (w : World) :
  JsSet.has (selectedUserDocIds
    (state (toggleUserDocSelection filename (toggleUserDocSelection filename w))))
    other
  = JsSet.has (selectedUserDocIds (state w)) other.
Proof.
  rewrite !toggleUserDocSelection_has.
  rewrite (bool_decide_eq_true_2 (filename = filename)) by done.
  case_bool_decide; subst; by rewrite ?negb_involutive.
Qed.

Lemma toggleMahareraSelection_twice_has (filename other : string) (w : World) :
  JsSet.has (selectedMahareraIds
    (state (toggleMahareraSelection filename (toggleMahareraSelection filename w))))
    other
  = JsSet.has (selectedMahareraIds (state w)) other.
Proof.
  rewrite !toggleMahareraSelection_has.
  rewrite (bool_decide_eq_true_2 (filename = filename)) by done.
  case_bool_decide; subst; by rewrite ?negb_involutive.
Qed.

(** C2, as stated, fails: on a page that lists no document at all,
    toggling the filename [ghost.pdf] stores it in the user-document
    selection set, and likewise in the regulatory one. *)
Lemma toggle_stores_unlisted_filename :
  ("ghost.pdf" ∉ listedUserDocs initialWorld)
  ∧ selectedUserDocIds (state initialWorld) = []
  ∧ selectedUserDocIds (state (toggleUserDocSelection "ghost.pdf" initialWorld))
    = ["ghost.pdf"]
  ∧ ("ghost.pdf" ∉ listedMaharera initialWorld)
  ∧ selectedMahareraIds (state initialWorld) = []
  ∧ selectedMahareraIds (state (toggleMahareraSelection "ghost.pdf" initialWorld))
    = ["ghost.pdf"].
Proof.
  split_and!; try reflexivity; vm_compute; apply not_elem_of_nil.
Qed.

(** C2, amended: for either category and every filename, listed or not,
    toggling flips the membership of that filename in the category's
    selection set and of no other filename, and changes neither listing
    nor the other category's selection set. *)
Theorem toggle_flips_membership (filename other : string) (w : World) :
  JsSet.has (selectedUserDocIds (state (toggleUserDocSelection filename w))) other
  = (if bool_decide (other = filename)
     then negb (JsSet.has (selectedUserDocIds (state w)) filename)
     else JsSet.has (selectedUserDocIds (state w)) other)
  ∧ JsSet.has (selectedMahareraIds (state (toggleMahareraSelection filename w))) other
    = (if bool_decide (other = filename)
       then negb (JsSet.has (selectedMahareraIds (state w)) filename)
       else JsSet.has (selectedMahareraIds (state w)) other)
  ∧ listedUserDocs (toggleUserDocSelection filename w) = listedUserDocs w
  ∧ listedMaharera (toggleUserDocSelection filename w) = listedMaharera w
  ∧ listedUserDocs (toggleMahareraSelection filename w) = listedUserDocs w
  ∧ listedMaharera (toggleMahareraSelection filename w) = listedMaharera w
  ∧ selectedMahareraIds (state (toggleUserDocSelection filename w))
    = selectedMahareraIds (state w)
  ∧ selectedUserDocIds (state (toggleMahareraSelection filename w))
    = selectedUserDocIds (state w).
Proof.
  destruct (toggleUserDocSelection_listing filename w) as (Hd & Hm & Hs).
  destruct (toggleMahareraSelection_listing filename w) as (Hd' & Hm' & Hs').
  unfold listedUserDocs, listedMaharera.
  rewrite toggleUserDocSelection_has, toggleMahareraSelection_has.
  rewrite Hd, Hm, Hd', Hm'. split_and!; done.
Qed.

(** C9: for either category, every filename and every starting selection
    set, toggling the filename twice in a row gives back a selection set
    with exactly the members it had. *)
Theorem toggle_twice_same_members (filename other : string) (w : World) :
  (other ∈ selectedUserDocIds
             (state (toggleUserDocSelection filename
                       (toggleUserDocSelection filename w)))
   ↔ other ∈ selectedUserDocIds (state w))
  ∧ (other ∈ selectedMahareraIds
               (state (toggleMahareraSelection filename
                         (toggleMahareraSelection filename w)))
     ↔ other ∈ selectedMahareraIds (state w)).
Proof.
  rewrite <- !JsSet_has_true.
  by rewrite toggleUserDocSelection_twice_has, toggleMahareraSelection_twice_has.
Qed.

(** A set that had no duplicates has, after a double toggle, the same
    number of members; only the position of the toggled filename in the
    insertion order may differ. *)
Lemma toggle_twice_permutation (filename : string) (w : World) :
  NoDup (selectedUserDocIds (state w)) →
  selectedUserDocIds
    (state (toggleUserDocSelection filename (toggleUserDocSelection filename w)))
  ≡ₚ selectedUserDocIds (state w).
Proof.
  intros Hnd. apply NoDup_Permutation; [|done|].
  - rewrite !toggleUserDocSelection_selected.
    destruct (JsSet.has (selectedUserDocIds (state w)) filename);
      destruct (JsSet.has _ filename);
      auto using JsSet_add_NoDup, JsSet_delete_NoDup.
  - intros x. rewrite <- !JsSet_has_true.
    by rewrite toggleUserDocSelection_twice_has.
Qed.

(** C7: the status the two updaters derive. After [updateSelectAllState]
    the regulatory select-all box is checked exactly when the number of
    selected filenames equals the size of the listing and the listing is not
    empty, and indeterminate exactly when that number lies strictly between
    zero and the size of the listing. [updateSelectAllUserDocsState] gives
    the user-document box the same two values computed from the
    user-document listing and selection, whenever the page has that box (and
    changes nothing when it has not). *)
Theorem select_all_status (w : World) :
  let total := List.length (mahareraDocuments (state w)) in
  let selectedCount := JsSet.size (selectedMahareraIds (state w)) in
  let box := selectAllMaharera (elements (updateSelectAllState w)) in
  let totalUser := List.length (documents (state w)) in
  let selectedUser := JsSet.size (selectedUserDocIds (state w)) in
  (checked box = true ↔ selectedCount = total ∧ 0 < total)
  ∧ (indeterminate box = true ↔ 0 < selectedCount ∧ selectedCount < total)
  ∧ match selectAllUserDocs (elements w) with
    | Some _ =>
        ∃ userBox,
          selectAllUserDocs (elements (updateSelectAllUserDocsState w)) = Some userBox
          ∧ (checked userBox = true ↔ selectedUser = totalUser ∧ 0 < totalUser)
          ∧ (indeterminate userBox = true
             ↔ 0 < selectedUser ∧ selectedUser < totalUser)
    | None => updateSelectAllUserDocsState w = w
    end.
Proof.
  simpl. split_and!.
  - rewrite andb_true_iff, Nat.eqb_eq, Nat.ltb_lt. done.
  - rewrite andb_true_iff, !Nat.ltb_lt. done.
  - unfold updateSelectAllUserDocsState.
    destruct (selectAllUserDocs (elements w)); [|done].
    eexists. split; [reflexivity|]. simpl.
    rewrite !andb_true_iff, Nat.eqb_eq, !Nat.ltb_lt. done.
Qed.

(** Scenario A of the specification: three listed documents, two of them
    toggled, give an unchecked, indeterminate box; selecting all gives all
    three. *)
Example status_scenario :
  let w0 := with_state (set_documents
              [userDoc "a.pdf"; userDoc "b.pdf"; userDoc "c.pdf"]) listedWorld in
  let w2 := toggleUserDocSelection "b.pdf" (toggleUserDocSelection "a.pdf" w0) in
  let w3 := toggleSelectAllUserDocs
              (with_elements (set_selectAllUserDocs
                 (Some {| checked := true; indeterminate := false;
                          disabled := false |})) w2) in
  selectAllUserDocs (elements w2)
  = Some {| checked := false; indeterminate := true; disabled := false |}
  ∧ selectedUserDocIds (state w3) = ["a.pdf"; "b.pdf"; "c.pdf"].
Proof. vm_compute. done. Qed.

(** ** Deleting a document *)

(** [deleteDocument] of [src/txtai/script.js] never writes to the
    user-document selection set, whatever the response. *)
Lemma deleteDocument_resume_selected (filename : string)
    (outcome : FetchOutcome unit) (w : World) :
  selectedUserDocIds (state (deleteDocument_resume filename outcome w))
  = selectedUserDocIds (state w).
Proof.
  destruct outcome; simpl; [|done..].
  by case_bool_decide.
Qed.

(** Nor does the listing refresh that a successful delete starts. *)
Lemma loadDocuments_resume_selected
    (outcome : FetchOutcome (option (list Document))) (w : World) :
  selectedUserDocIds (state (loadDocuments_resume outcome w))
  = selectedUserDocIds (state w).
Proof.
  destruct outcome as [data| |]; simpl; [|done..].
  unfold renderDocumentList; simpl.
  destruct (orNil data); destruct (selectAllUserDocs (elements w)); done.
Qed.

(** C3 on [src/txtai/script.js]: [agreement.pdf] is listed and selected;
    its deletion is confirmed and the server answers with success; the
    refreshed listing no longer has it. The handler clears the unused
    [state.selectedDocument] instead of the selection set, so the deleted
    filename is still a member of the user-document selection set, both
    right after the handler and after the listing has been refreshed. *)
Theorem deleteDocument_keeps_deleted_filename_selected :
  let w0 := toggleUserDocSelection "agreement.pdf" listedWorld in
  let w1 := deleteDocument_begin "agreement.pdf" true w0 in
  let w2 := deleteDocument_resume "agreement.pdf" (ResponseOk ()) w1 in
  let w3 := loadDocuments_resume (ResponseOk (Some [userDoc "lease.pdf"])) w2 in
  selectedUserDocIds (state w0) = ["agreement.pdf"]
  ∧ network w2 = [PostDelete "agreement.pdf"; GetDocuments]
  ∧ selectedUserDocIds (state w2) = ["agreement.pdf"]
  ∧ listedUserDocs w3 = ["lease.pdf"]
  ∧ selectedUserDocIds (state w3) = ["agreement.pdf"].
Proof. vm_compute. done. Qed.

(** The variant of the handler in [src/unnamed/part_001] does what C3
    says: after a successful delete the filename is not selected, and a
    filename that was not selected leaves the selection set as it was. *)
Lemma part001_deleteDocument_clears_selection (filename : string) (w : World) :
  let w' := Part001.deleteDocument_resume filename (ResponseOk ()) w in
  (filename ∉ selectedUserDocIds (state w'))
  ∧ (filename ∉ selectedUserDocIds (state w) →
     selectedUserDocIds (state w') = selectedUserDocIds (state w)).
Proof.
  simpl. destruct (JsSet.has (selectedUserDocIds (state w)) filename) eqn:E; simpl.
  - split.
    + rewrite JsSet_elem_of_delete. tauto.
    + intros Hn. by apply JsSet_delete_absent.
  - apply JsSet_has_false in E. done.
Qed.

(** ** Submitting queries *)

Section Orchestration.
Context {browser : Browser}.

Lemma addMessage_frame (role : Role) (content : string)
    (sources : option (list Source)) (redFlags : option (list RedFlag))
    (decision : option Decision) (summary : option ComplianceSummary) (w : World) :
  let w' := addMessage role content sources redFlags decision summary w in
  network w' = network w ∧ alerts w' = alerts w
  ∧ isLoading (state w') = isLoading (state w)
  ∧ documents (state w') = documents (state w)
  ∧ selectedUserDocIds (state w') = selectedUserDocIds (state w)
  ∧ selectedMahareraIds (state w') = selectedMahareraIds (state w).
Proof. done. Qed.

(** [sendMessage] invoked while a request is in flight does nothing at
    all: the world, and with it the list of network calls, is unchanged. *)
Lemma sendMessage_while_loading (w : World) :
  isLoading (state w) = true → sendMessage_begin w = w.
Proof.
  intros Hl. unfold sendMessage_begin. rewrite Hl.
  by rewrite orb_true_r.
Qed.

(** [sendMessage] with a blank input does nothing either. *)
Lemma sendMessage_blank (w : World) :
  trim (messageInput (elements w)) = EmptyString → sendMessage_begin w = w.
Proof. intros Hm. unfold sendMessage_begin. by rewrite Hm. Qed.

(** Otherwise [sendMessage] issues exactly one request and raises
    [isLoading]. *)
Lemma sendMessage_idle (w : World) :
  isLoading (state w) = false →
  trim (messageInput (elements w)) ≠ EmptyString →
  ∃ body, network (sendMessage_begin w) = (network w ++ [PostQuery body])%list
          ∧ rq_compliance_check body = None
          ∧ rq_top_k body = topK (settings (state w))
          ∧ isLoading (state (sendMessage_begin w)) = true.
Proof.
  intros Hl Hm. unfold sendMessage_begin. rewrite Hl.
  destruct (trim (messageInput (elements w))) eqn:E; [done|].
  simpl. eexists. split_and!; reflexivity.
Qed.

(** C5: [checkCompliance] validates before it fetches. With no regulation
    selected, or with no user document listed, it raises one alert and
    leaves [state], the page and the list of network calls as they were;
    with at least one regulation selected and one document listed it
    raises no alert and issues exactly one request, whose body has
    [compliance_check] set to [true] and [top_k] equal to 10. This holds
    in every state of the stores. *)
Theorem checkCompliance_validates_then_posts (w : World) :
  let w' := checkCompliance_begin w in
  (JsSet.size (selectedMahareraIds (state w)) = 0
   ∨ List.length (documents (state w)) = 0 →
   network w' = network w
   ∧ (∃ msg, alerts w' = (alerts w ++ [msg])%list)
   ∧ state w' = state w ∧ elements w' = elements w)
  ∧ (0 < JsSet.size (selectedMahareraIds (state w))
     ∧ 0 < List.length (documents (state w)) →
     ∃ body,
       network w' = (network w ++ [PostQuery body])%list
       ∧ rq_compliance_check body = Some true
       ∧ rq_top_k body = 10
       ∧ alerts w' = alerts w).
Proof.
  unfold checkCompliance_begin.
  destruct (Nat.eqb_spec (JsSet.size (selectedMahareraIds (state w))) 0) as [Hm|Hm];
    [|destruct (Nat.eqb_spec (List.length (documents (state w))) 0) as [Hd|Hd]].
  - split; [|lia]. intros _. split_and!; [done|by eexists|done..].
  - split; [|lia]. intros _. split_and!; [done|by eexists|done..].
  - split; [lia|]. intros _. eexists. split_and!; reflexivity.
Qed.

End Orchestration.

(** C5 on concrete stores: scenario B of the specification (no regulation
    selected, two documents listed) is rejected with an alert and no network
    call; with the regulation selected one request goes out. *)
Lemma checkCompliance_validates_then_posts_witness :
  let rejected := @checkCompliance_begin domBrowser listedWorld in
  let accepted := @checkCompliance_begin domBrowser
                    (toggleMahareraSelection "circular-12.pdf" listedWorld) in
  (network rejected = []
   ∧ (∃ msg, alerts rejected = ([] ++ [msg])%list)
   ∧ state rejected = state listedWorld
   ∧ elements rejected = elements listedWorld)
  ∧ (∃ body,
       network accepted = ([] ++ [PostQuery body])%list
       ∧ rq_compliance_check body = Some true
       ∧ rq_top_k body = 10
       ∧ alerts accepted = []).
Proof.
  split.
  - apply (@checkCompliance_validates_then_posts domBrowser listedWorld).
    left. reflexivity.
  - apply (@checkCompliance_validates_then_posts domBrowser
             (toggleMahareraSelection "circular-12.pdf" listedWorld)).
    vm_compute. split; lia.
Defined.

Section AtMostOneRequest.
Context {browser : Browser}.

(** Two [sendMessage] invocations in a row, with no response in between,
    issue exactly one request: the second finds [isLoading] raised. *)
Lemma sendMessage_twice_one_call (w : World) :
  isLoading (state w) = false →
  trim (messageInput (elements w)) ≠ EmptyString →
  ∃ body,
    queryCalls (sendMessage_begin (sendMessage_begin w))
    = (queryCalls w ++ [body])%list.
Proof.
  intros Hl Hm.
  destruct (sendMessage_idle w Hl Hm) as (body & Hn & _ & _ & Hl').
  rewrite (sendMessage_while_loading _ Hl').
  exists body. unfold queryCalls. rewrite Hn, omap_app. done.
Qed.

(** [checkCompliance] never reads [isLoading]: with a regulation selected
    and a document listed it issues a request even while another one is in
    flight. *)
Lemma checkCompliance_ignores_isLoading (w : World) :
  isLoading (state w) = true →
  0 < JsSet.size (selectedMahareraIds (state w)) →
  0 < List.length (documents (state w)) →
  List.length (queryCalls (checkCompliance_begin w))
  = S (List.length (queryCalls w)).
Proof.
  intros _ Hm Hd. unfold checkCompliance_begin.
  destruct (Nat.eqb_spec (JsSet.size (selectedMahareraIds (state w))) 0); [lia|].
  destruct (Nat.eqb_spec (List.length (documents (state w))) 0); [lia|].
  unfold queryCalls. cbn [network fetch]. rewrite omap_app, length_app.
  cbn [omap list_omap List.length]. 
  change (network (with_elements _ (with_elements _ (with_state _
            (showTypingIndicator (addMessage _ _ _ _ _ _ (removeWelcomeMessage w)))))))
    with (network w).
  lia.
Qed.

End AtMostOneRequest.

(** C4 on [src/txtai/script.js]: one regulation is selected and two
    documents are listed. The user types a question and presses Enter:
    [sendMessage] raises [isLoading] and issues one request, and the
    compliance button stays enabled. A click on it while that request is
    still in flight is not rejected: [checkCompliance] issues a second
    request. Two direct invocations of [checkCompliance] in a row issue two
    requests as well, and so do two clicks on its button when a selection is
    toggled in between (the toggle re-enables the button). *)
Theorem checkCompliance_not_rejected_while_submitting :
  let w0 := toggleMahareraSelection "circular-12.pdf" listedWorld in
  let w1 := @run domBrowser
              [TypeMessage "Is the possession clause valid?"; PressEnter] w0 in
  let w2 := @run domBrowser [ClickCheckComplianceBtn] w1 in
  let w3 := @checkCompliance_begin domBrowser (@checkCompliance_begin domBrowser w0) in
  let w4 := @run domBrowser
              [ClickCheckComplianceBtn; ToggleUserDoc "lease.pdf";
               ClickCheckComplianceBtn] w0 in
  isLoading (state w1) = true
  ∧ List.length (queryCalls w1) = 1
  ∧ checkComplianceBtn_disabled (elements w1) = false
  ∧ List.length (queryCalls w2) = 2
  ∧ List.length (queryCalls w3) = 2
  ∧ List.length (queryCalls w4) = 2.
Proof. vm_compute. done. Qed.

(** ** Truncation of strings *)

Lemma substring_0_length (n : nat) (s : string) :
  String.length (String.substring 0 n s) = Nat.min n (String.length s).
Proof.
  revert s. induction n as [|n IH]; intros [|c s]; simpl; try done.
  by rewrite IH.
Qed.

Lemma substring_0_prefix (n : nat) (s : string) :
  String.prefix (String.substring 0 n s) s = true.
Proof.
  revert s. induction n as [|n IH]; intros [|c s]; simpl; try done.
  destruct (ascii_dec c c); [apply IH | done].
Qed.


Lemma truthy_true (s : string) : truthy s = true ↔ s ≠ EmptyString.
Proof. by destruct s. Qed.

(** ** Rendered blocks *)

Section RenderedBlocks.
Context {browser : Browser}.

Lemma isComplianceCheck_true (decision : option Decision) :
  isComplianceCheck decision = true
  ↔ ∃ d, decision = Some d ∧ compliance_check d = Some true.
Proof.
  unfold isComplianceCheck. destruct decision as [d|].
  - rewrite bool_decide_eq_true. split; [eauto|]. by intros (? & [= <-] & ?).
  - split; [done|]. by intros (? & ? & _).
Qed.

(** When the compliance-summary block is built. *)
Lemma complianceHTML_is_Some (decision : option Decision)
    (summary : option ComplianceSummary) :
  is_Some (complianceHTML decision summary)
  ↔ isComplianceCheck decision = true ∧ is_Some summary.
Proof.
  unfold complianceHTML.
  destruct summary, (isComplianceCheck decision); simpl; unfold is_Some;
    (split; [intros [x Hx] | intros [Hc [x Hx]]]); try discriminate; eauto.
Qed.

(** When the red-flag block is built. *)
Lemma redFlagsHTML_container (decision : option Decision)
    (redFlags : option (list RedFlag)) :
  (∃ headerClass headerText items,
     redFlagsHTML decision redFlags = RedFlagsContainer headerClass headerText items)
  ↔ isComplianceCheck decision = true
    ∧ ∃ flags, redFlags = Some flags ∧ flags ≠ [].
Proof.
  unfold redFlagsHTML.
  destruct (isComplianceCheck decision), redFlags as [[|flag flags]|]; simpl;
    repeat match goal with |- context [if ?c then _ else _] => destruct c end;
    (split; [intros (hc & ht & items & Heq) | intros (Hc & fs & Hfs & Hne)]);
    try discriminate; try congruence; eauto 8.
Qed.

Lemma redFlagsHTML_suppressed (decision : option Decision)
    (redFlags : option (list RedFlag)) :
  isComplianceCheck decision = false →
  redFlagsHTML decision redFlags = RedFlagsNone.
Proof. intros Hc. unfold redFlagsHTML. by rewrite Hc. Qed.

(** C6: in the view [addMessage] builds, the compliance-summary block is
    present exactly when the result is a compliance check
    ([decision.compliance_check] is [true]) and a compliance summary was
    given; the red-flag block is present exactly when the result is a
    compliance check and a non-empty list of red flags was given. Hence
    each block is present only if its input field is present and the result
    is a compliance check, and for any other result both are suppressed
    (the whole red-flag fragment is empty, the no-red-flags banner
    included), whatever fields the response carries. *)
Theorem blocks_only_for_compliance_checks (showSrc : bool) (role : Role)
    (content : string) (sources : option (list Source))
    (redFlags : option (list RedFlag)) (decision : option Decision)
    (summary : option ComplianceSummary) :
  let view := messageView showSrc role content sources redFlags decision summary in
  (is_Some (mv_compliance view)
   ↔ isComplianceCheck decision = true ∧ is_Some summary)
  ∧ ((∃ headerClass headerText items,
        mv_redFlags view = RedFlagsContainer headerClass headerText items)
     ↔ isComplianceCheck decision = true
       ∧ ∃ flags, redFlags = Some flags ∧ flags ≠ [])
  ∧ (isComplianceCheck decision = false →
     mv_compliance view = None ∧ mv_redFlags view = RedFlagsNone).
Proof.
  simpl. split_and!.
  - apply complianceHTML_is_Some.
  - apply redFlagsHTML_container.
  - intros Hc. split; [|by apply redFlagsHTML_suppressed].
    destruct (complianceHTML decision summary) eqn:E; [|done].
    assert (is_Some (complianceHTML decision summary)) as Hs by (by rewrite E).
    apply complianceHTML_is_Some in Hs as [Hs _]. congruence.
Qed.

End RenderedBlocks.

(** C6 on a concrete response: a free-text answer whose response carries
    red flags and a compliance summary shows neither block. *)
Lemma blocks_only_for_compliance_checks_witness :
  let flag := {| severity := "HIGH"; rule_id := "R-7"; domain := "possession";
                 reason := "No possession date"; clause_source := None;
                 authority_support := None; has_authority_support := None |} in
  let summary := {| is_compliant := false; compliant_count := Some 2%nat;
                    total_checks := Some 5%nat; critical_missing := None;
                    high_missing := None; medium_missing := None |} in
  let decision := Some {| compliance_check := Some false; is_red_flag := Some true |} in
  let view := @messageView domBrowser true Assistant "answer" None
                (Some [flag]) decision (Some summary) in
  mv_compliance view = None ∧ mv_redFlags view = RedFlagsNone.
Proof.
  apply (@blocks_only_for_compliance_checks domBrowser). reflexivity.
Defined.

(** ** Clause excerpts *)

Section ExcerptDisplay.
Context {browser : Browser}.


End ExcerptDisplay.



(** ** The call log of a build *)

Lemma Qgtb_true (x y : Q) : Qgtb x y = true ↔ (y < x)%Q.
Proof.
  unfold Qgtb. rewrite negb_true_iff. split.
  - intros Hb. apply Qnot_le_lt. intros Hle.
    apply Qle_bool_iff in Hle. congruence.
  - intros Hlt. destruct (Qle_bool x y) eqn:E; [|done].
    apply Qle_bool_iff in E. by apply Qlt_not_le in Hlt.
Qed.

Lemma Qgtb_false (x y : Q) : Qgtb x y = false ↔ (x <= y)%Q.
Proof.
  unfold Qgtb. rewrite negb_false_iff. apply Qle_bool_iff.
Qed.

Lemma forEachFrom_app {A St : Type} (f : St → nat → A → St) (s : St) (k : nat)
    (l1 l2 : list A) :
  forEachFrom f s k (l1 ++ l2)
  = forEachFrom f (forEachFrom f s k l1) (k + List.length l1)%nat l2.
Proof.
  revert s k. induction l1 as [|x l1 IH]; intros s k; simpl.
  - by rewrite Nat.add_0_r.
  - rewrite IH. f_equal. lia.
Qed.

Lemma foldl_forEachFrom {A St : Type} (f : St → A → St) (s : St) (k : nat)
    (l : list A) :
  foldl f s l = forEachFrom (λ s _ x, f s x) s k l.
Proof. revert s k. induction l as [|x l IH]; intros s k; simpl; [done|apply IH]. Qed.

Lemma emits_spec (ops : list DrawOp) (b : Builder) :
  doc (emits ops b) = (doc b ++ ops)%list
  ∧ yPos (emits ops b) = yPos b
  ∧ numberOfPages (emits ops b) = numberOfPages b.
Proof.
  unfold emits. revert b. induction ops as [|op ops IH]; intros b; simpl.
  - by rewrite app_nil_r.
  - destruct (IH (emit op b)) as (-> & -> & ->). simpl.
    by rewrite <- app_assoc.
Qed.

Lemma countAddPage_app (l1 l2 : list DrawOp) :
  countAddPage (l1 ++ l2)%list = (countAddPage l1 + countAddPage l2)%nat.
Proof. unfold countAddPage. by rewrite List.filter_app, length_app. Qed.

Lemma countText_app (l1 l2 : list DrawOp) :
  countText (l1 ++ l2)%list = (countText l1 + countText l2)%nat.
Proof. unfold countText. by rewrite List.filter_app, length_app. Qed.

Lemma textsOf_app (l1 l2 : list DrawOp) :
  textsOf (l1 ++ l2)%list = (textsOf l1 ++ textsOf l2)%list.
Proof. unfold textsOf. apply omap_app. Qed.

Lemma extends_refl (b : Builder) : extends b b.
Proof. exists []. rewrite app_nil_r. split; [done|]. unfold countAddPage. simpl. lia. Qed.

Lemma extends_trans (b1 b2 b3 : Builder) :
  extends b1 b2 → extends b2 b3 → extends b1 b3.
Proof.
  intros (a1 & Hd1 & Hn1) (a2 & Hd2 & Hn2). exists (a1 ++ a2)%list.
  rewrite Hd2, Hd1, Hn2, Hn1, countAddPage_app, <- app_assoc. split; [done|lia].
Qed.

Lemma extends_set_yPos (y : Q) (b : Builder) : extends b (set_yPos y b).
Proof.
  exists []. simpl. rewrite app_nil_r. split; [done|]. unfold countAddPage. simpl. lia.
Qed.

Lemma extends_set_yPos_r (y : Q) (b b' : Builder) :
  extends b b' → extends b (set_yPos y b').
Proof. intros H. eapply extends_trans; [exact H | apply extends_set_yPos]. Qed.

Lemma extends_addPage (b : Builder) : extends b (addPage b).
Proof. exists [AddPage]. split; [done|]. simpl. unfold countAddPage. simpl. lia. Qed.

Lemma extends_emits (ops : list DrawOp) (b : Builder) :
  countAddPage ops = 0%nat → extends b (emits ops b).
Proof.
  intros H0. exists ops. destruct (emits_spec ops b) as (-> & _ & ->).
  split; [done|lia].
Qed.

Lemma extends_emit (op : DrawOp) (b : Builder) :
  countAddPage [op] = 0%nat → extends b (emit op b).
Proof. intros H0. exists [op]. split; [done|]. simpl. lia. Qed.

Lemma extends_foldl {A} (f : Builder → A → Builder) (l : list A) (b : Builder) :
  (∀ b x, extends b (f b x)) → extends b (foldl f b l).
Proof.
  intros Hf. revert b. induction l as [|x l IH]; intros b; simpl.
  - apply extends_refl.
  - eapply extends_trans; [apply Hf | apply IH].
Qed.

Lemma extends_forEachFrom {A} (f : Builder → nat → A → Builder) (l : list A)
    (k : nat) (b : Builder) :
  (∀ b i x, extends b (f b i x)) → extends b (forEachFrom f b k l).
Proof.
  intros Hf. revert b k. induction l as [|x l IH]; intros b k; simpl.
  - apply extends_refl.
  - eapply extends_trans; [apply Hf | apply IH].
Qed.

Lemma extends_pages (b b' : Builder) :
  extends b b' → (numberOfPages b ≤ numberOfPages b')%nat.
Proof. intros (a & _ & ->). lia. Qed.


Section CallLog.
Context {canvas : Canvas}.

(** The shared guard: what it does to the log, to the page count, and
    where it leaves the cursor. *)
Lemma breakIfBelow_spec (k : Q) (b : Builder) :
  ((pageHeight - k < yPos b)%Q
   ∧ doc (breakIfBelow k b) = (doc b ++ [AddPage])%list
   ∧ numberOfPages (breakIfBelow k b) = S (numberOfPages b)
   ∧ yPos (breakIfBelow k b) = 20%Q)
  ∨ ((yPos b <= pageHeight - k)%Q
     ∧ breakIfBelow k b = b).
Proof.
  unfold breakIfBelow. destruct (Qgtb (yPos b) (pageHeight - k)) eqn:E.
  - left. apply Qgtb_true in E. done.
  - right. apply Qgtb_false in E. done.
Qed.

(** One turn of the loop of [addText]: the line is drawn at the cursor
    when the cursor is not past the limit, and otherwise at the top margin
    of a page added just before. *)
Lemma addTextLine_spec (fontSize : Q) (b : Builder) (line : string) :
  let limit := (pageHeight - 30)%Q in
  ((limit < yPos b)%Q
   ∧ doc (addTextLine fontSize b line)
     = (doc b ++ [AddPage; Text line margin 20 false])%list
   ∧ numberOfPages (addTextLine fontSize b line) = S (numberOfPages b)
   ∧ yPos (addTextLine fontSize b line) = (20 + fontSize * 0.5)%Q)
  ∨ ((yPos b <= limit)%Q
     ∧ doc (addTextLine fontSize b line)
       = (doc b ++ [Text line margin (yPos b) false])%list
     ∧ numberOfPages (addTextLine fontSize b line) = numberOfPages b
     ∧ yPos (addTextLine fontSize b line) = (yPos b + fontSize * 0.5)%Q).
Proof.
  simpl. unfold addTextLine.
  destruct (breakIfBelow_spec 30 b) as [(Hlt & Hdoc & Hn & Hy) | (Hle & ->)].
  - left. simpl. rewrite Hdoc, Hn, Hy. rewrite <- app_assoc. done.
  - right. done.
Qed.

Lemma extends_breakIfBelow (k : Q) (b : Builder) : extends b (breakIfBelow k b).
Proof.
  unfold breakIfBelow. destruct (Qgtb _ _).
  - apply extends_set_yPos_r, extends_addPage.
  - apply extends_refl.
Qed.

Lemma extends_checkPageBreak (needed : Q) (b : Builder) :
  extends b (checkPageBreak needed b).
Proof.
  unfold checkPageBreak. destruct (Qgtb _ _).
  - apply extends_set_yPos_r, extends_addPage.
  - apply extends_refl.
Qed.

Lemma extends_addTextLine (fontSize : Q) (b : Builder) (line : string) :
  extends b (addTextLine fontSize b line).
Proof.
  unfold addTextLine. apply extends_set_yPos_r.
  eapply extends_trans; [apply extends_breakIfBelow | by apply extends_emit].
Qed.

Lemma extends_addTextWith (colorCall : DrawOp) (text : string) (fontSize : Q)
    (isBold : bool) (b : Builder) :
  countAddPage [colorCall] = 0%nat →
  extends b (addTextWith colorCall text fontSize isBold b).
Proof.
  intros Hc. unfold addTextWith. apply extends_set_yPos_r.
  eapply extends_trans; [|apply extends_foldl, extends_addTextLine].
  repeat (eapply extends_trans; [|by apply extends_emit]). apply extends_refl.
Qed.

Lemma extends_addText (text : string) (fontSize : Q) (isBold : bool)
    (color : Color) (b : Builder) :
  extends b (addText text fontSize isBold color b).
Proof. by apply extends_addTextWith. Qed.

Lemma extends_addSection (title : string) (b : Builder) :
  extends b (addSection title b).
Proof.
  unfold addSection. apply extends_set_yPos_r.
  repeat (eapply extends_trans; [|by apply extends_emit]).
  eapply extends_trans; [apply extends_set_yPos | apply extends_breakIfBelow].
Qed.

Lemma extends_exec (b : Builder) (c : Call) : extends b (exec b c).
Proof.
  destruct c; simpl.
  - apply extends_addText.
  - by apply extends_addTextWith.
  - apply extends_addSection.
  - apply extends_set_yPos.
  - eapply extends_trans; by apply extends_emit.
Qed.



Lemma countAddPage_imap_text {A} (f : nat → A → DrawOp) (l : list A) :
  (∀ i x, countAddPage [f i x] = 0%nat) → countAddPage (imap f l) = 0%nat.
Proof.
  revert f. induction l as [|x l IH]; intros f Hf; [done|].
  simpl. change (f 0%nat x :: imap (f ∘ S) l) with ([f 0%nat x] ++ imap (f ∘ S) l)%list.
  rewrite countAddPage_app, Hf, IH; [done|]. intros i y. apply Hf.
Qed.

Lemma countAddPage_batchEntryOps (y : Q) (idx : nat) (r : BatchEntry) :
  countAddPage (batchEntryOps y idx r) = 0%nat.
Proof.
  unfold batchEntryOps. rewrite countAddPage_app.
  destruct (String.eqb (be_status r) "error"); [done|].
  rewrite countAddPage_app.
  destruct (nonEmptyOpt (be_red_flags r)); [|done].
  unfold batchFlagOps.
  change (SetTextColor (100, 100, 100)%nat :: ?l)
    with ([SetTextColor (100, 100, 100)%nat] ++ l)%list.
  rewrite !countAddPage_app, countAddPage_imap_text by done.
  by destruct (3 <? _)%nat.
Qed.

Lemma extends_batchEntry (b : Builder) (idx : nat) (r : BatchEntry) :
  extends b (batchEntry b idx r).
Proof.
  unfold batchEntry. apply extends_set_yPos_r.
  eapply extends_trans; [apply extends_checkPageBreak|].
  apply extends_emits, countAddPage_batchEntryOps.
Qed.



End CallLog.

(** ** Paginated loops *)

Lemma cursorBefore_shift (over : Q → bool) (step y0 : Q) (k : nat) :
  cursorBefore over step (landing over y0 + step) k
  = cursorBefore over step y0 (S k).
Proof. induction k as [|k IH]; [done|]. cbn [cursorBefore] in *. by rewrite IH. Qed.

Lemma column_ext {A} (over : Q → bool) (step y0 : Q)
    (d1 d2 : nat → A → Q → list DrawOp) (items : list A) :
  (∀ k x y, d1 k x y = d2 k x y) →
  column over step y0 d1 items = column over step y0 d2 items.
Proof.
  intros Hd. unfold column. f_equal. apply imap_ext. intros k x _. simpl.
  by rewrite Hd.
Qed.

Lemma column_cons {A} (over : Q → bool) (step y0 : Q)
    (draw : nat → A → Q → list DrawOp) (x : A) (items : list A) :
  column over step y0 draw (x :: items)
  = (pageBreak over y0 ++ draw 0%nat x (landing over y0)
     ++ column over step (landing over y0 + step) (λ k, draw (S k)) items)%list.
Proof.
  unfold column. rewrite imap_cons. cbn [concat cursorBefore].
  rewrite <- app_assoc. do 2 f_equal. f_equal.
  apply imap_ext. intros k y _. simpl. by rewrite cursorBefore_shift.
Qed.

(** A loop whose turns check, break, draw and advance adds the calls of
    [column] to the log. *)
Lemma paginated_loop {A} (f : Builder → nat → A → Builder) (over : Q → bool)
    (step : Q) (draw : nat → A → Q → list DrawOp) :
  (∀ b k x,
     doc (f b k x)
     = (doc b ++ pageBreak over (yPos b) ++ draw k x (landing over (yPos b)))%list
     ∧ yPos (f b k x) = (landing over (yPos b) + step)%Q
     ∧ numberOfPages (f b k x)
       = (numberOfPages b + countAddPage (pageBreak over (yPos b)))%nat) →
  (∀ k x y, countAddPage (draw k x y) = 0%nat) →
  ∀ items b k0,
    doc (forEachFrom f b k0 items)
    = (doc b ++ column over step (yPos b) (λ k, draw (k0 + k)%nat) items)%list
    ∧ yPos (forEachFrom f b k0 items)
      = cursorBefore over step (yPos b) (List.length items)
    ∧ numberOfPages (forEachFrom f b k0 items)
      = (numberOfPages b
         + countAddPage (column over step (yPos b) (λ k, draw (k0 + k)%nat) items))%nat.
Proof.
  intros Hturn Hdraw items. induction items as [|x items IH]; intros b k0.
  - cbn [forEachFrom List.length cursorBefore]. unfold column. simpl.
    rewrite app_nil_r. split_and!; [done|done|]. unfold countAddPage. simpl. lia.
  - cbn [forEachFrom List.length].
    destruct (IH (f b k0 x) (S k0)) as (Hd & Hy & Hn).
    destruct (Hturn b k0 x) as (Hd1 & Hy1 & Hn1).
    rewrite Hd, Hy, Hn, Hd1, Hy1, Hn1, column_cons, cursorBefore_shift.
    rewrite Nat.add_0_r.
    rewrite (column_ext over step _ (λ k, draw (S k0 + k)%nat)
               (λ k, draw (k0 + S k)%nat))
      by (intros k y c; f_equal; lia).
    rewrite !countAddPage_app, Hdraw, <- !app_assoc.
    split_and!; [done|done|lia].
Qed.

Lemma textsOf_pageBreak (over : Q → bool) (y : Q) : textsOf (pageBreak over y) = [].
Proof. unfold pageBreak. by destruct (over y). Qed.

(** The texts of a loop are the texts of its items, in order. *)
Lemma textsOf_column {A} (over : Q → bool) (step : Q)
    (draw : nat → A → Q → list DrawOp) (texts : nat → A → list string)
    (items : list A) (y0 : Q) :
  (∀ k x y, textsOf (draw k x y) = texts k x) →
  textsOf (column over step y0 draw items) = concat (imap texts items).
Proof.
  revert draw texts y0. induction items as [|x items IH]; intros draw texts y0 Hd;
    [done|].
  rewrite column_cons, !textsOf_app, textsOf_pageBreak, Hd, imap_cons.
  cbn [concat app]. f_equal. apply IH. intros k y c. apply Hd.
Qed.


(** Every call of a loop satisfies what the page break and the calls of
    each item satisfy. *)
Lemma Forall_column {A} (P : DrawOp → Prop) (over : Q → bool) (step : Q)
    (draw : nat → A → Q → list DrawOp) (items : list A) (y0 : Q) :
  P AddPage →
  (∀ k x c, Forall P (draw k x (landing over c))) →
  Forall P (column over step y0 draw items).
Proof.
  intros Hp. revert draw y0.
  induction items as [|x items IH]; intros draw y0 Hd; [constructor|].
  rewrite column_cons. rewrite !Forall_app. split_and!.
  - unfold pageBreak. destruct (over y0); repeat constructor; done.
  - apply Hd.
  - apply IH. intros k y c. apply Hd.
Qed.

Lemma concat_imap_singleton {A} (l : list A) :
  concat (imap (λ _ x, [x]) l) = l.
Proof.
  induction l as [|x l IH]; [done|].
  rewrite imap_cons. cbn [concat app]. f_equal. exact IH.
Qed.

(** ** Pagination of the report *)

Section Pagination.
Context {canvas : Canvas}.

(** The guard holds exactly when the cursor is past the limit, and a turn
    draws within the limit as soon as the top margin lies within it. *)
Lemma pastLimit_spec (k y : Q) :
  (pastLimit k y = true ↔ (pageHeight - k < y)%Q)
  ∧ ((20 <= pageHeight - k)%Q → (landing (pastLimit k) y <= pageHeight - k)%Q).
Proof.
  unfold pastLimit, landing. split; [apply Qgtb_true|].
  intros Htop. destruct (Qgtb y (pageHeight - k)) eqn:E; [done|].
  by apply Qgtb_false.
Qed.

(** One turn of the loop of [addText], in the shape of a paginated
    loop. *)
Lemma addTextLine_turn (fontSize : Q) (b : Builder) (line : string) :
  doc (addTextLine fontSize b line)
  = (doc b ++ pageBreak (pastLimit 30) (yPos b)
     ++ [Text line margin (landing (pastLimit 30) (yPos b)) false])%list
  ∧ yPos (addTextLine fontSize b line)
    = (landing (pastLimit 30) (yPos b) + fontSize * 0.5)%Q
  ∧ numberOfPages (addTextLine fontSize b line)
    = (numberOfPages b + countAddPage (pageBreak (pastLimit 30) (yPos b)))%nat.
Proof.
  unfold addTextLine, breakIfBelow, pageBreak, landing, pastLimit.
  destruct (Qgtb (yPos b) (pageHeight - 30));
    cbn [doc yPos numberOfPages emit set_yPos addPage].
  - rewrite <- app_assoc. split_and!; [done|done|].
    unfold countAddPage. simpl. lia.
  - split_and!; [done|done|]. unfold countAddPage. simpl. lia.
Qed.

(** What one call of [addText] adds to the log: the three settings, then
    the wrapped lines as a paginated loop from the cursor. *)
Lemma addTextWith_spec (colorCall : DrawOp) (text : string) (fontSize : Q)
    (isBold : bool) (b : Builder) :
  let lines := splitTextToSize text maxWidth in
  let drawn := column (pastLimit 30) (fontSize * 0.5) (yPos b)
                 (λ _ line y, [Text line margin y false]) lines in
  doc (addTextWith colorCall text fontSize isBold b)
  = (doc b ++ [SetFontSize fontSize; SetFont isBold; colorCall] ++ drawn)%list
  ∧ yPos (addTextWith colorCall text fontSize isBold b)
    = (cursorBefore (pastLimit 30) (fontSize * 0.5) (yPos b) (List.length lines)
       + 2)%Q
  ∧ numberOfPages (addTextWith colorCall text fontSize isBold b)
    = (numberOfPages b + countAddPage drawn)%nat.
Proof.
  cbv zeta. unfold addTextWith. cbv zeta.
  rewrite (foldl_forEachFrom _ _ 0%nat).
  destruct (paginated_loop (λ b _ line, addTextLine fontSize b line)
              (pastLimit 30) (fontSize * 0.5)
              (λ _ line y, [Text line margin y false])
              (λ b _ x, addTextLine_turn fontSize b x)
              (λ _ _ _, eq_refl)
              (splitTextToSize text maxWidth)
              (emit colorCall (emit (SetFont isBold) (emit (SetFontSize fontSize) b)))
              0%nat) as (Hd & Hy & Hn).
  cbn [yPos doc numberOfPages set_yPos emit] in *.
  rewrite Hd, Hy, Hn, <- !app_assoc. done.
Qed.

(** What one call of [addSection] adds to the log. *)
Lemma addSection_spec (title : string) (b : Builder) :
  let y := landing (pastLimit 40) (yPos b + 5) in
  doc (addSection title b)
  = (doc b ++ pageBreak (pastLimit 40) (yPos b + 5)
     ++ [ SetFillColor (59, 130, 246)%nat;
          Rect margin (y - 5) maxWidth 10;
          SetFontSize 12;
          SetFont true;
          SetTextColor (255, 255, 255)%nat;
          Text title (margin + 3) (y + 2) false ])%list
  ∧ yPos (addSection title b) = (y + 15)%Q
  ∧ numberOfPages (addSection title b)
    = (numberOfPages b + countAddPage (pageBreak (pastLimit 40) (yPos b + 5)))%nat.
Proof.
  cbv zeta. unfold addSection, breakIfBelow, pageBreak, landing, pastLimit.
  cbn [yPos set_yPos].
  destruct (Qgtb (yPos b + 5) (pageHeight - 40));
    cbn [doc yPos numberOfPages emit set_yPos addPage];
    rewrite <- !app_assoc; (split_and!; [done|done|]);
    unfold countAddPage; simpl; lia.
Qed.

(** C1: let the top margin lie within the limit ([20 <= pageHeight -
    30]). From whatever state of a build [addText] is called, it adds to
    the log its three settings and then, for the wrapped lines of the text
    in order, one turn each: when the turn finds the cursor past
    [pageHeight - 30] it adds a page and draws the line at the top margin,
    otherwise it draws the line at the cursor and adds no page; either way
    the cursor then advances by half the font size. Every wrapped line is
    drawn, once and in order, at a position that does not exceed
    [pageHeight - 30], hence not [pageHeight] minus the margin either, and
    the page count grows by the page breaks made. [addSection] makes the
    same kind of check on the cursor advanced by 5, with the limit
    [pageHeight - 40], before it draws its band and title, and the title
    lands no lower than [pageHeight] minus the margin. *)
Theorem addText_draws_within_printable_area (text : string) (fontSize : Q)
    (isBold : bool) (color : Color) (title : string) (b : Builder) :
  (20 <= pageHeight - 30)%Q →
  let lines := splitTextToSize text maxWidth in
  let cursor := cursorBefore (pastLimit 30) (fontSize * 0.5) (yPos b) in
  let drawn := column (pastLimit 30) (fontSize * 0.5) (yPos b)
                 (λ _ line y, [Text line margin y false]) lines in
  let yTitle := landing (pastLimit 40) (yPos b + 5) in
  doc (addText text fontSize isBold color b)
  = (doc b ++ [SetFontSize fontSize; SetFont isBold; SetTextColor color]
     ++ drawn)%list
  ∧ numberOfPages (addText text fontSize isBold color b)
    = (numberOfPages b + countAddPage drawn)%nat
  ∧ yPos (addText text fontSize isBold color b)
    = (cursor (List.length lines) + 2)%Q
  ∧ textsOf drawn = lines
  ∧ (∀ k, (pastLimit 30 (cursor k) = true ↔ (pageHeight - 30 < cursor k)%Q)
          ∧ (landing (pastLimit 30) (cursor k) <= pageHeight - 30)%Q)
  ∧ Forall (textWithin (pageHeight - 30)) drawn
  ∧ Forall (textWithin (pageHeight - margin)) drawn
  ∧ doc (addSection title b)
    = (doc b ++ pageBreak (pastLimit 40) (yPos b + 5)
       ++ [ SetFillColor (59, 130, 246)%nat;
            Rect margin (yTitle - 5) maxWidth 10;
            SetFontSize 12;
            SetFont true;
            SetTextColor (255, 255, 255)%nat;
            Text title (margin + 3) (yTitle + 2) false ])%list
  ∧ numberOfPages (addSection title b)
    = (numberOfPages b + countAddPage (pageBreak (pastLimit 40) (yPos b + 5)))%nat
  ∧ (pastLimit 40 (yPos b + 5) = true ↔ (pageHeight - 40 < yPos b + 5)%Q)
  ∧ (yTitle + 2 <= pageHeight - margin)%Q.
Proof.
  intros Htop. cbv zeta.
  destruct (addTextWith_spec (SetTextColor color) text fontSize isBold b)
    as (Hd & Hy & Hn).
  destruct (addSection_spec title b) as (Hsd & _ & Hsn).
  cbv zeta in Hd, Hy, Hn, Hsd, Hsn. unfold addText.
  split_and!; try done.
  - rewrite (textsOf_column _ _ _ (λ _ line, [line])) by done.
    apply concat_imap_singleton.
  - intros k. destruct (pastLimit_spec 30 (cursorBefore (pastLimit 30)
                          (fontSize * 0.5) (yPos b) k)) as [Hiff Hle].
    split; [exact Hiff | by apply Hle].
  - apply Forall_column; [done|]. intros k x c. repeat constructor.
    cbn [textWithin]. by apply pastLimit_spec.
  - apply Forall_column; [done|]. intros k x c. repeat constructor.
    cbn [textWithin]. pose proof (proj2 (pastLimit_spec 30 c) Htop).
    unfold margin. lra.
  - apply pastLimit_spec.
  - unfold landing, pastLimit, margin.
    destruct (Qgtb (yPos b + 5) (pageHeight - 40)) eqn:E; [lra|].
    apply Qgtb_false in E. lra.
Qed.

End Pagination.

(** C1 on an A4 page ([pageHeight] 297, limit 267): from a cursor at 268,
    past the limit, a text of two lines puts its first line at the top
    margin of a new page and its second line five units below. *)
Lemma addText_draws_within_printable_area_witness :
  let b := set_yPos 268 newBuilder in
  let text := String "a" (String "010"%char (String "b" EmptyString)) in
  doc (@addText a4Canvas text 10 false black b)
  = [ SetFontSize 10; SetFont false; SetTextColor black; AddPage;
      Text "a" margin 20 false; Text "b" margin (20 + 10 * 0.5) false ]
  ∧ numberOfPages (@addText a4Canvas text 10 false black b) = 2%nat
  ∧ doc (@addSection a4Canvas "DISCLAIMER" b)
    = [ AddPage; SetFillColor (59, 130, 246)%nat;
        Rect margin (20 - 5) (@maxWidth a4Canvas) 10;
        SetFontSize 12; SetFont true; SetTextColor (255, 255, 255)%nat;
        Text "DISCLAIMER" (margin + 3) (20 + 2) false ].
Proof.
  cbv zeta.
  destruct (@addText_draws_within_printable_area a4Canvas
              (String "a" (String "010"%char (String "b" EmptyString)))
              10 false black "DISCLAIMER" (set_yPos 268 newBuilder))
    as (Hd & Hn & _ & _ & _ & _ & _ & Hs & _).
  { vm_compute. discriminate. }
  split_and!; [exact Hd | exact Hn | exact Hs].
Defined.

(** ** Excerpts in the report *)

Section ExcerptInReport.
Context {browser : Browser} {canvas : Canvas}.



End ExcerptInReport.



(** ** Batch results *)

Section BatchIndependence.
Context {canvas : Canvas}.

(** What one turn of [results.forEach] adds to the log, and where it
    leaves the cursor. *)
Lemma batchEntry_spec (b : Builder) (idx : nat) (result : BatchEntry) :
  let broke := Qgtb (yPos b + 50) (pageHeight - 30) in
  let y := if broke then 20%Q else yPos b in
  doc (batchEntry b idx result)
  = (doc b ++ (if broke then [AddPage] else []) ++ batchEntryOps y idx result)%list
  ∧ yPos (batchEntry b idx result) = (y + 40)%Q.
Proof.
  cbv zeta. unfold batchEntry, checkPageBreak.
  destruct (Qgtb (yPos b + 50) (pageHeight - 30)); cbv zeta;
    cbn [yPos doc numberOfPages set_yPos addPage];
    match goal with |- context [emits ?ops ?b'] =>
      destruct (emits_spec ops b') as (-> & -> & _) end;
    cbn [yPos doc numberOfPages set_yPos addPage].
  - by rewrite <- app_assoc.
  - done.
Qed.

(** The same turn in the shape of a paginated loop. *)
Lemma batchEntry_turn (b : Builder) (idx : nat) (result : BatchEntry) :
  doc (batchEntry b idx result)
  = (doc b ++ pageBreak (needsBreak 50) (yPos b)
     ++ batchEntryOps (landing (needsBreak 50) (yPos b)) idx result)%list
  ∧ yPos (batchEntry b idx result) = (landing (needsBreak 50) (yPos b) + 40)%Q
  ∧ numberOfPages (batchEntry b idx result)
    = (numberOfPages b + countAddPage (pageBreak (needsBreak 50) (yPos b)))%nat.
Proof.
  destruct (batchEntry_spec b idx result) as [Hd Hy]. cbv zeta in Hd, Hy.
  unfold pageBreak, landing, needsBreak. rewrite Hd, Hy. split_and!; [done|done|].
  unfold batchEntry, checkPageBreak.
  destruct (Qgtb (yPos b + 50) (pageHeight - 30)); cbv zeta;
    cbn [yPos doc numberOfPages set_yPos addPage];
    match goal with |- context [emits ?ops ?b'] =>
      destruct (emits_spec ops b') as (_ & _ & ->) end;
    cbn [yPos doc numberOfPages set_yPos addPage];
    unfold countAddPage; simpl; lia.
Qed.

(** The loop over the results, from any state of the build. *)
Lemma batch_loop_spec (results : list BatchEntry) (b : Builder) :
  let entries := column (needsBreak 50) 40 (yPos b)
                   (λ i r y, batchEntryOps y i r) results in
  doc (forEachFrom batchEntry b 0 results) = (doc b ++ entries)%list
  ∧ yPos (forEachFrom batchEntry b 0 results)
    = cursorBefore (needsBreak 50) 40 (yPos b) (List.length results)
  ∧ numberOfPages (forEachFrom batchEntry b 0 results)
    = (numberOfPages b + countAddPage entries)%nat.
Proof.
  cbv zeta.
  destruct (paginated_loop batchEntry (needsBreak 50) 40
              (λ i r y, batchEntryOps y i r) batchEntry_turn
              (λ i r y, countAddPage_batchEntryOps y i r) results b 0%nat)
    as (Hd & Hy & Hn).
  rewrite Hd, Hy, Hn. done.
Qed.





End BatchIndependence.

(** Scenario C of the specification on screen: the failed document shows
    its error, its neighbours show their counts. *)
Example batch_scenario_on_screen :
  bdr_stats <$> (batchDocResult <$>
    [cleanEntry "a.pdf"; failedEntry "b.pdf"; flaggedEntry "c.pdf"])
  = [StatsCounts 0 5 5; StatsError "could not read file"; StatsCounts 1 4 5].
Proof. reflexivity. Qed.

(** Scenario C in the PDF, on an A4 page: the texts of the three blocks. *)
Example batch_scenario_in_pdf :
  textsOf (column (@needsBreak a4Canvas 50) 40 123 (λ i r y, batchEntryOps y i r)
             [cleanEntry "a.pdf"; failedEntry "b.pdf"; flaggedEntry "c.pdf"])
  = [ "1. a.pdf"; "Red Flags: 0"; "Required Clauses: 5/5";
      "2. b.pdf"; "Error: could not read file";
      "3. c.pdf"; "Red Flags: 1"; "Required Clauses: 4/5";
      "  - [HIGH] R-7: The possession date can be changed unilaterally..." ].
Proof. vm_compute. reflexivity. Qed.

(** ** The builders and the orchestrator on sample inputs *)

(** A short report fits on one page; an answer of 61 lines takes a second
    page, and the build ends by saving the file. *)
Example report_page_count :
  numberOfPages (@generateComplianceReport a4Canvas (sampleReport 0)
                   "1 January 2025" "10:00" "2025-01-01") = 1%nat
  ∧ numberOfPages (@generateComplianceReport a4Canvas (sampleReport 60)
                     "1 January 2025" "10:00" "2025-01-01") = 2%nat
  ∧ last (doc (@generateComplianceReport a4Canvas (sampleReport 60)
                 "1 January 2025" "10:00" "2025-01-01"))
    = Some (Save "Compliance_Report_2025-01-01.pdf").
Proof. vm_compute. done. Qed.

(** Every text of that two-page report lies above the footer line. *)
Example report_texts_above_footer :
  forallb (λ op, match op with
                 | Text _ _ y _ => Qle_bool y 287
                 | _ => true
                 end)
    (doc (@generateComplianceReport a4Canvas (sampleReport 60)
            "1 January 2025" "10:00" "2025-01-01")) = true.
Proof. vm_compute. done. Qed.

(** Enter pressed twice on a typed question: one request; when it fails
    the page is idle again and a second question can be sent. *)
Example sendMessage_scenario :
  let w1 := @run domBrowser [TypeMessage "  Is clause 4 valid?  "; PressEnter;
                             PressEnter; ClickSendBtn] listedWorld in
  let w2 := @run domBrowser [SendMessageSettles FetchFailed;
                             TypeMessage "And clause 5?"; ClickSendBtn] w1 in
  rq_question <$> queryCalls w1 = ["Is clause 4 valid?"]
  ∧ isLoading (state w1) = true
  ∧ rq_question <$> queryCalls w2 = ["Is clause 4 valid?"; "And clause 5?"].
Proof. vm_compute. done. Qed.

(** * Further properties of the script *)

(** ** Select all *)

Lemma foldl_add_elem_of {A} (f : A → string) (l : list A) (s : JsSet.t) (x : string) :
  x ∈ foldl (λ s d, JsSet.add s (f d)) s l ↔ x ∈ s ∨ x ∈ f <$> l.
Proof.
  revert s. induction l as [|a l IH]; intros s; simpl.
  - rewrite elem_of_nil. tauto.
  - rewrite IH, JsSet_elem_of_add, elem_of_cons. tauto.
Qed.

Lemma foldl_add_NoDup {A} (f : A → string) (l : list A) (s : JsSet.t) :
  NoDup s → NoDup (foldl (λ s d, JsSet.add s (f d)) s l).
Proof.
  revert s. induction l as [|a l IH]; intros s Hs; simpl; [done|].
  by apply IH, JsSet_add_NoDup.
Qed.

Lemma foldl_add_distinct {A} (f : A → string) (l : list A) (s : JsSet.t) :
  NoDup (s ++ (f <$> l))%list →
  foldl (λ s d, JsSet.add s (f d)) s l = (s ++ (f <$> l))%list.
Proof.
  revert s. induction l as [|a l IH]; intros s Hnd; simpl.
  - by rewrite app_nil_r.
  - assert (f a ∉ s) as Hfa.
    { apply NoDup_app in Hnd as (_ & Hdis & _). intros Hin.
      apply (Hdis _ Hin). simpl. apply list_elem_of_here. }
    assert (JsSet.add s (f a) = (s ++ [f a])%list) as ->.
    { unfold JsSet.add. apply JsSet_has_false in Hfa. by rewrite Hfa. }
    rewrite IH; rewrite <- app_assoc; done.
Qed.

Lemma toggleSelectAllMaharera_selected (w : World) :
  selectedMahareraIds (state (toggleSelectAllMaharera w))
  = if checked (selectAllMaharera (elements w))
    then foldl (λ s d, JsSet.add s (mdoc_filename d)) [] (mahareraDocuments (state w))
    else [].
Proof.
  unfold toggleSelectAllMaharera. rewrite updateComplianceButtonState_state.
  by destruct (checked _).
Qed.

Lemma toggleSelectAllMaharera_listing (w : World) :
  mahareraDocuments (state (toggleSelectAllMaharera w)) = mahareraDocuments (state w)
  ∧ documents (state (toggleSelectAllMaharera w)) = documents (state w).
Proof.
  unfold toggleSelectAllMaharera. rewrite updateComplianceButtonState_state.
  by destruct (checked _).
Qed.

Lemma toggleSelectAllUserDocs_selected (w : World) (cb : Checkbox) :
  selectAllUserDocs (elements w) = Some cb →
  selectedUserDocIds (state (toggleSelectAllUserDocs w))
  = (if checked cb
     then foldl (λ s d, JsSet.add s (doc_filename d)) [] (documents (state w))
     else [])
  ∧ documents (state (toggleSelectAllUserDocs w)) = documents (state w).
Proof.
  intros Hcb. unfold toggleSelectAllUserDocs. rewrite Hcb.
  rewrite updateComplianceButtonState_state. by destruct (checked cb).
Qed.

(** X1: the select-all handlers replace the selection. With the box
    checked the new selection set has exactly the filenames of the current
    listing as members, each once, whatever was selected before (a filename
    that is not listed is dropped); with the box unchecked it is empty. The
    listings are not changed. The user-document handler does nothing on a
    page without its box. *)
Theorem select_all_replaces_selection (w : World) (x : string) :
  match selectAllUserDocs (elements w) with
  | Some cb =>
      NoDup (selectedUserDocIds (state (toggleSelectAllUserDocs w)))
      ∧ (x ∈ selectedUserDocIds (state (toggleSelectAllUserDocs w))
         ↔ checked cb = true ∧ x ∈ listedUserDocs w)
      ∧ listedUserDocs (toggleSelectAllUserDocs w) = listedUserDocs w
  | None => toggleSelectAllUserDocs w = w
  end
  ∧ NoDup (selectedMahareraIds (state (toggleSelectAllMaharera w)))
  ∧ (x ∈ selectedMahareraIds (state (toggleSelectAllMaharera w))
     ↔ checked (selectAllMaharera (elements w)) = true ∧ x ∈ listedMaharera w)
  ∧ listedMaharera (toggleSelectAllMaharera w) = listedMaharera w.
Proof.
  split_and!.
  - destruct (selectAllUserDocs (elements w)) as [cb|] eqn:Hcb.
    + destruct (toggleSelectAllUserDocs_selected w cb Hcb) as [-> Hd].
      unfold listedUserDocs. rewrite Hd. destruct (checked cb); split_and!; try done.
      * apply foldl_add_NoDup, NoDup_nil_2.
      * rewrite foldl_add_elem_of, elem_of_nil. tauto.
      * apply NoDup_nil_2.
      * rewrite elem_of_nil. split; [done | by intros [? _]].
    + unfold toggleSelectAllUserDocs. by rewrite Hcb.
  - rewrite toggleSelectAllMaharera_selected. destruct (checked _).
    + apply foldl_add_NoDup, NoDup_nil_2.
    + apply NoDup_nil_2.
  - rewrite toggleSelectAllMaharera_selected. unfold listedMaharera.
    destruct (checked _).
    + rewrite foldl_add_elem_of, elem_of_nil. tauto.
    + rewrite elem_of_nil. split; [done | by intros [? _]].
  - unfold listedMaharera. by destruct (toggleSelectAllMaharera_listing w) as [-> _].
Qed.

Lemma JsSet_delete_length (s : JsSet.t) (x : string) :
  NoDup s → x ∈ s → S (List.length (JsSet.delete s x)) = List.length s.
Proof.
  unfold JsSet.delete. induction s as [|a s IH]; intros Hnd Hx.
  - by apply elem_of_nil in Hx.
  - apply NoDup_cons in Hnd as [Ha Hnd].
    destruct (decide (a = x)) as [->|Hne].
    + rewrite filter_cons_False by (intros ?; done).
      fold (JsSet.delete s x). by rewrite JsSet_delete_absent.
    + rewrite filter_cons_True by done. simpl. f_equal. apply IH; [done|].
      apply elem_of_cons in Hx as [->|Hx]; done.
Qed.

(** X2: select all regulations of a listing with distinct filenames, then
    untick one listed regulation. After select-all the selection set is the
    listing's filenames in listing order. After the toggle the set has every
    listed filename but that one, the select-all box is unchecked, and it is
    indeterminate exactly when the listing has at least two regulations. *)
Theorem select_all_then_untick (w : World) (filename x : string) :
  NoDup (listedMaharera w) →
  checked (selectAllMaharera (elements w)) = true →
  filename ∈ listedMaharera w →
  let w1 := toggleSelectAllMaharera w in
  let w2 := toggleMahareraSelection filename w1 in
  selectedMahareraIds (state w1) = listedMaharera w
  ∧ (x ∈ selectedMahareraIds (state w2) ↔ x ∈ listedMaharera w ∧ x ≠ filename)
  ∧ checked (selectAllMaharera (elements w2)) = false
  ∧ (indeterminate (selectAllMaharera (elements w2)) = true
     ↔ (2 ≤ List.length (mahareraDocuments (state w)))%nat).
Proof.
  intros Hnd Hchk Hin. cbv zeta.
  assert (selectedMahareraIds (state (toggleSelectAllMaharera w)) = listedMaharera w)
    as Hsel.
  { rewrite toggleSelectAllMaharera_selected, Hchk.
    rewrite foldl_add_distinct; done. }
  assert (selectedMahareraIds
            (state (toggleMahareraSelection filename (toggleSelectAllMaharera w)))
          = JsSet.delete (listedMaharera w) filename) as Hsel2.
  { rewrite toggleMahareraSelection_selected, Hsel.
    apply JsSet_has_true in Hin. by rewrite Hin. }
  pose proof (JsSet_delete_length _ _ Hnd Hin) as Hlen.
  assert (List.length (listedMaharera w)
          = List.length (mahareraDocuments (state w))) as Hll
    by (unfold listedMaharera; apply length_fmap).
  assert (mahareraDocuments
            (state (updateSelectAllState
               (with_state (set_selectedMahareraIds
                  (JsSet.delete (listedMaharera w) filename))
                  (toggleSelectAllMaharera w))))
          = mahareraDocuments (state w)) as Hdocs.
  { simpl. by destruct (toggleSelectAllMaharera_listing w) as [-> _]. }
  split_and!.
  - done.
  - rewrite Hsel2. apply JsSet_elem_of_delete.
  - unfold toggleMahareraSelection. rewrite Hsel.
    apply JsSet_has_true in Hin. rewrite Hin.
    unfold updateComplianceButtonState.
    destruct (batchProcessBtn_disabled _); simpl;
      destruct (0 <? _)%nat; simpl;
      destruct (toggleSelectAllMaharera_listing w) as [-> _];
      unfold JsSet.size; apply andb_false_iff; left; apply Nat.eqb_neq; lia.
  - unfold toggleMahareraSelection. rewrite Hsel.
    apply JsSet_has_true in Hin. rewrite Hin.
    unfold updateComplianceButtonState.
    destruct (batchProcessBtn_disabled _); simpl;
      destruct (0 <? _)%nat; simpl;
      destruct (toggleSelectAllMaharera_listing w) as [-> _];
      unfold JsSet.size; rewrite andb_true_iff, !Nat.ltb_lt; lia.
Qed.

(** X2 on the sample page: its one regulation selected by select-all,
    then unticked. *)
Lemma select_all_then_untick_witness :
  let w := with_elements (set_selectAllMaharera
             {| checked := true; indeterminate := false; disabled := false |})
             listedWorld in
  let w1 := toggleSelectAllMaharera w in
  let w2 := toggleMahareraSelection "circular-12.pdf" w1 in
  selectedMahareraIds (state w1) = listedMaharera w
  ∧ ("circular-12.pdf" ∈ selectedMahareraIds (state w2)
     ↔ "circular-12.pdf" ∈ listedMaharera w ∧ "circular-12.pdf" ≠ "circular-12.pdf")
  ∧ checked (selectAllMaharera (elements w2)) = false
  ∧ (indeterminate (selectAllMaharera (elements w2)) = true
     ↔ (2 ≤ List.length (mahareraDocuments (state w)))%nat).
Proof.
  apply (select_all_then_untick
           (with_elements (set_selectAllMaharera
              {| checked := true; indeterminate := false; disabled := false |})
              listedWorld) "circular-12.pdf" "circular-12.pdf").
  - vm_compute. apply NoDup_singleton.
  - reflexivity.
  - vm_compute. apply list_elem_of_here.
Defined.

(** ** Buttons and validation *)

Lemma updateComplianceButtonState_buttons (w : World) :
  checkComplianceBtn_disabled (elements (updateComplianceButtonState w))
  = negb ((0 <? List.length (documents (state w)))%nat
          && (0 <? JsSet.size (selectedMahareraIds (state w)))%nat)
  ∧ batchProcessBtn_disabled (elements (updateComplianceButtonState w))
    = (λ _, (JsSet.size (selectedUserDocIds (state w)) =? 0)%nat)
      <$> batchProcessBtn_disabled (elements w)
  ∧ sendBtn_disabled (elements (updateComplianceButtonState w))
    = sendBtn_disabled (elements w)
  ∧ network (updateComplianceButtonState w) = network w
  ∧ alerts (updateComplianceButtonState w) = alerts w.
Proof.
  unfold updateComplianceButtonState.
  destruct (batchProcessBtn_disabled (elements w)) eqn:Hb; simpl; rewrite Hb; simpl;
    destruct (0 <? JsSet.size _)%nat; done.
Qed.

Lemma app_singleton_neq {A} (l : list A) (x : A) : l ≠ (l ++ [x])%list.
Proof.
  intros Heq. apply (f_equal List.length) in Heq.
  rewrite length_app in Heq. simpl in Heq. lia.
Qed.

Section ButtonGating.
Context {browser : Browser} {parser : Parser}.

(** X3: the state [updateComplianceButtonState] gives the two buttons
    agrees with what their handlers accept. The compliance button is
    enabled exactly when [checkCompliance] would post a request, and
    disabled exactly when it would raise its alert instead; the batch
    button, on a page that has one, is disabled exactly when
    [openBatchModal] would raise its alert instead of opening the modal. *)
Theorem buttons_agree_with_validation (bw : BatchWorld) :
  let w := bw_world bw in
  let w' := updateComplianceButtonState w in
  (checkComplianceBtn_disabled (elements w') = false
   ↔ ∃ body, network (checkCompliance_begin w) = (network w ++ [PostQuery body])%list)
  ∧ (checkComplianceBtn_disabled (elements w') = true
     ↔ ∃ msg, alerts (checkCompliance_begin w) = (alerts w ++ [msg])%list)
  ∧ match batchProcessBtn_disabled (elements w') with
    | Some d =>
        (d = true
         ↔ ∃ msg, alerts (bw_world (openBatchModal bw)) = (alerts w ++ [msg])%list)
        ∧ (d = false ↔ batchModal_active (bw_batch (openBatchModal bw)) = true
                         ∧ alerts (bw_world (openBatchModal bw)) = alerts w)
    | None => batchProcessBtn_disabled (elements w) = None
    end.
Proof.
  cbv zeta.
  destruct (updateComplianceButtonState_buttons (bw_world bw)) as (-> & -> & _).
  split_and!.
  - unfold checkCompliance_begin.
    destruct (Nat.eqb_spec (JsSet.size (selectedMahareraIds (state (bw_world bw)))) 0)
      as [Hm|Hm];
      [|destruct (Nat.eqb_spec (List.length (documents (state (bw_world bw)))) 0)
          as [Hd|Hd]].
    + rewrite Hm, andb_false_r. simpl. split; [done|].
      intros (body & Hn). by apply app_singleton_neq in Hn.
    + rewrite Hd. simpl. split; [done|].
      intros (body & Hn). by apply app_singleton_neq in Hn.
    + apply Nat.neq_0_lt_0 in Hm, Hd. apply Nat.ltb_lt in Hm, Hd.
      rewrite Hm, Hd. simpl. split; [|done]. intros _. by eexists.
  - unfold checkCompliance_begin.
    destruct (Nat.eqb_spec (JsSet.size (selectedMahareraIds (state (bw_world bw)))) 0)
      as [Hm|Hm];
      [|destruct (Nat.eqb_spec (List.length (documents (state (bw_world bw)))) 0)
          as [Hd|Hd]].
    + rewrite Hm, andb_false_r. simpl. split; [|done]. intros _. by eexists.
    + rewrite Hd. simpl. split; [|done]. intros _. by eexists.
    + apply Nat.neq_0_lt_0 in Hm, Hd. apply Nat.ltb_lt in Hm, Hd.
      rewrite Hm, Hd. simpl. split; [done|].
      intros (msg & Ha). by apply app_singleton_neq in Ha.
  - destruct (batchProcessBtn_disabled (elements (bw_world bw))); [|done]. simpl.
    unfold openBatchModal.
    destruct (JsSet.size (selectedUserDocIds (state (bw_world bw))) =? 0)%nat; simpl.
    + split; split; try done.
      * intros _. by eexists.
      * intros [_ Ha]. symmetry in Ha. by apply app_singleton_neq in Ha.
    + split; split; try done.
      intros (msg & Ha). by apply app_singleton_neq in Ha.
Qed.

End ButtonGating.

(** ** Listings *)

(** X4: a listing refresh replaces the listing and nothing else. When the
    request fails or the server answers with an error, the world is
    unchanged. When it succeeds, the listing becomes the response's
    [documents] (an absent key gives the empty listing), both selection sets
    keep every filename they had, listed or not, and no alert or request is
    made; the user-document select-all box, where the page has one, is
    disabled exactly when the new listing is empty. For regulations, an
    empty new listing disables the compliance button, and a non-empty one
    leaves it disabled exactly when no document is listed or no regulation
    is selected. *)
Theorem listing_refresh_keeps_selection
    (docs : FetchOutcome (option (list Document)))
    (regs : FetchOutcome (option (list MahareraDocument))) (w : World) :
  let wd := loadDocuments_resume docs w in
  let wr := loadMahareraDocuments_resume regs w in
  selectedUserDocIds (state wd) = selectedUserDocIds (state w)
  ∧ selectedMahareraIds (state wd) = selectedMahareraIds (state w)
  ∧ selectedUserDocIds (state wr) = selectedUserDocIds (state w)
  ∧ selectedMahareraIds (state wr) = selectedMahareraIds (state w)
  ∧ network wd = network w ∧ alerts wd = alerts w
  ∧ network wr = network w ∧ alerts wr = alerts w
  ∧ match docs with
    | ResponseOk data =>
        documents (state wd) = orNil data
        ∧ match selectAllUserDocs (elements wd) with
          | Some cb => disabled cb = bool_decide (orNil data = [])
          | None => selectAllUserDocs (elements w) = None
          end
    | _ => wd = w
    end
  ∧ match regs with
    | ResponseOk data =>
        mahareraDocuments (state wr) = orNil data
        ∧ disabled (selectAllMaharera (elements wr)) = bool_decide (orNil data = [])
        ∧ checkComplianceBtn_disabled (elements wr)
          = bool_decide (orNil data = [])
            || negb ((0 <? List.length (documents (state w)))%nat
                     && (0 <? JsSet.size (selectedMahareraIds (state w)))%nat)
    | _ => wr = w
    end.
Proof.
  cbv zeta. split_and!.
  - apply loadDocuments_resume_selected.
  - destruct docs as [data| |]; simpl; try done.
    unfold renderDocumentList. simpl.
    destruct (orNil data); destruct (selectAllUserDocs (elements w)); done.
  - destruct regs as [data| |]; simpl; try done.
    unfold renderMahareraList. simpl. destruct (orNil data); [done|].
    by rewrite updateComplianceButtonState_state.
  - destruct regs as [data| |]; simpl; try done.
    unfold renderMahareraList. simpl. destruct (orNil data); [done|].
    by rewrite updateComplianceButtonState_state.
  - destruct docs as [data| |]; simpl; try done.
    unfold renderDocumentList. simpl.
    destruct (orNil data); destruct (selectAllUserDocs (elements w)); done.
  - destruct docs as [data| |]; simpl; try done.
    unfold renderDocumentList. simpl.
    destruct (orNil data); destruct (selectAllUserDocs (elements w)); done.
  - destruct regs as [data| |]; simpl; try done.
    unfold renderMahareraList. simpl. destruct (orNil data); [done|].
    by destruct (updateComplianceButtonState_buttons
                   (with_elements (set_selectAllMaharera
                      {| checked := checked (selectAllMaharera (elements w));
                         indeterminate := indeterminate (selectAllMaharera (elements w));
                         disabled := false |})
                      (with_state (set_mahareraDocuments (m :: l)) w)))
      as (_ & _ & _ & -> & _).
  - destruct regs as [data| |]; simpl; try done.
    unfold renderMahareraList. simpl. destruct (orNil data); [done|].
    by destruct (updateComplianceButtonState_buttons
                   (with_elements (set_selectAllMaharera
                      {| checked := checked (selectAllMaharera (elements w));
                         indeterminate := indeterminate (selectAllMaharera (elements w));
                         disabled := false |})
                      (with_state (set_mahareraDocuments (m :: l)) w)))
      as (_ & _ & _ & _ & ->).
  - destruct docs as [data| |]; simpl; try done.
    unfold renderDocumentList. simpl.
    destruct (orNil data); destruct (selectAllUserDocs (elements w)) eqn:E;
      simpl; rewrite ?E; done.
  - destruct regs as [data| |]; simpl; try done.
    unfold renderMahareraList. simpl. destruct (orNil data) as [|m l]; [done|].
    rewrite updateComplianceButtonState_state.
    destruct (updateComplianceButtonState_buttons
                (with_elements (set_selectAllMaharera
                   {| checked := checked (selectAllMaharera (elements w));
                      indeterminate := indeterminate (selectAllMaharera (elements w));
                      disabled := false |})
                   (with_state (set_mahareraDocuments (m :: l)) w)))
      as (-> & _).
    split_and!; try done.
    unfold updateComplianceButtonState.
    destruct (batchProcessBtn_disabled _); simpl; destruct (0 <? _)%nat; done.
Qed.

Lemma length_append (s1 s2 : string) :
  String.length (s1 +:+ s2) = (String.length s1 + String.length s2)%nat.
Proof. induction s1 as [|c s1 IH]; simpl; [done|]. by rewrite IH. Qed.

(** X5: the title shown for a regulation in the listing is the document's
    title, or its filename when the title is missing or empty. A title of
    at most 35 characters is shown as it is, with no dots added; a longer
    one is cut to its first 35 characters followed by three dots, 38
    characters in all. *)
Theorem regulation_title_shortened (selected : JsSet.t) (doc : MahareraDocument) :
  let row := mahareraRow selected doc in
  mr_title row = orStr (mdoc_title doc) (mdoc_filename doc)
  ∧ (mr_checked row = true ↔ mdoc_filename doc ∈ selected)
  ∧ ((String.length (mr_title row) ≤ 35)%nat ∧ mr_shortTitle row = mr_title row
     ∨ (35 < String.length (mr_title row))%nat
       ∧ String.length (mr_shortTitle row) = 38%nat
       ∧ ∃ cut, mr_shortTitle row = cut +:+ "..."
                ∧ String.length cut = 35%nat
                ∧ String.prefix cut (mr_title row) = true).
Proof.
  cbv zeta. unfold mahareraRow. cbn [mr_title mr_checked mr_shortTitle].
  split_and!; [done|apply JsSet_has_true|].
  unfold shortTitle.
  destruct (Nat.ltb_spec 35 (String.length (orStr (mdoc_title doc) (mdoc_filename doc))))
    as [Hlong|Hshort].
  - right. split_and!; [done| |].
    + rewrite length_append, substring_0_length.
      change (String.length "...") with 3%nat. lia.
    + eexists. split_and!; [reflexivity| |apply substring_0_prefix].
      rewrite substring_0_length. lia.
  - left. done.
Qed.

(** ** Deleting a document: what the user sees *)

(** X6: [deleteDocument] of [src/txtai/script.js]. Declining the
    confirmation leaves the world as it is: no request is made. Confirming
    makes exactly one delete request. When the server then answers with
    success the handler starts one refresh of the listing and raises no
    alert; when it answers with an error, or cannot be reached, the handler
    raises exactly one alert and starts no refresh. In no case is the
    listing itself changed by the handler. *)
Theorem deleteDocument_feedback (filename : string) (outcome : FetchOutcome unit)
    (w : World) :
  deleteDocument_begin filename false w = w
  ∧ network (deleteDocument_begin filename true w)
    = (network w ++ [PostDelete filename])%list
  ∧ alerts (deleteDocument_begin filename true w) = alerts w
  ∧ state (deleteDocument_begin filename true w) = state w
  ∧ documents (state (deleteDocument_resume filename outcome w)) = documents (state w)
  ∧ match outcome with
    | ResponseOk _ =>
        network (deleteDocument_resume filename outcome w)
        = (network w ++ [GetDocuments])%list
        ∧ alerts (deleteDocument_resume filename outcome w) = alerts w
    | ResponseError error =>
        network (deleteDocument_resume filename outcome w) = network w
        ∧ alerts (deleteDocument_resume filename outcome w)
          = (alerts w ++ ["Error deleting document: "
                          +:+ orStr error "Unknown error"])%list
    | FetchFailed =>
        network (deleteDocument_resume filename outcome w) = network w
        ∧ alerts (deleteDocument_resume filename outcome w)
          = (alerts w ++ ["Error deleting document. See console for details."])%list
    end.
Proof.
  split_and!; try done.
  - destruct outcome; simpl; try done. by case_bool_decide.
  - destruct outcome; simpl; try done. by case_bool_decide.
Qed.

(** X7: [deleteDocument] of [src/unnamed/part_001]. After a successful
    delete the filename is not a member of the user-document selection set,
    every other filename is a member exactly if it was, and one refresh of
    the listing has been started. After a failed delete the world is
    unchanged: this variant raises no alert. *)
Theorem part001_deleteDocument_selection (filename other : string)
    (error : option string) (w : World) :
  let ok := Part001.deleteDocument_resume filename (ResponseOk ()) w in
  (filename ∉ selectedUserDocIds (state ok))
  ∧ (other ∈ selectedUserDocIds (state ok)
     ↔ other ∈ selectedUserDocIds (state w) ∧ other ≠ filename)
  ∧ network ok = (network w ++ [GetDocuments])%list
  ∧ selectedMahareraIds (state ok) = selectedMahareraIds (state w)
  ∧ Part001.deleteDocument_resume filename (ResponseError error) w = w
  ∧ Part001.deleteDocument_resume filename FetchFailed w = w
  ∧ Part001.deleteDocument_begin filename false w = w.
Proof.
  cbv zeta. unfold Part001.deleteDocument_resume. simpl.
  destruct (JsSet.has (selectedUserDocIds (state w)) filename) eqn:E; simpl.
  - split_and!; try done.
    + rewrite JsSet_elem_of_delete. tauto.
    + apply JsSet_elem_of_delete.
  - apply JsSet_has_false in E. split_and!; try done.
    split; [|tauto]. intros Ho. split; [done|]. by intros ->.
Qed.

(** ** Requests and the chat *)




Lemma trimStart_allWhiteSpace (s : string) :
  allWhiteSpace s = true → trimStart s = EmptyString.
Proof.
  induction s as [|c s IH]; simpl; [done|].
  intros [Hc Hs]%andb_true_iff. rewrite Hc. by apply IH.
Qed.

Section Requests.
Context {browser : Browser}.

(** X8: whatever the outcome of the request (a response, an error
    response, a failed connection), the code that runs when it settles puts
    the page back to idle: [isLoading] is false and the send button is
    enabled; it makes no further request (nothing is retried) and raises no
    alert; it appends exactly one assistant entry to the chat history and
    keeps both selection sets. [checkCompliance] moreover recomputes the
    state of its button from the stores: disabled exactly when no document
    is listed or no regulation is selected. *)
Theorem settled_request_returns_to_idle (outcome : FetchOutcome QueryData)
    (w : World) :
  let ws := sendMessage_resume outcome w in
  let wc := checkCompliance_resume outcome w in
  isLoading (state ws) = false ∧ isLoading (state wc) = false
  ∧ sendBtn_disabled (elements ws) = false
  ∧ sendBtn_disabled (elements wc) = false
  ∧ network ws = network w ∧ network wc = network w
  ∧ alerts ws = alerts w ∧ alerts wc = alerts w
  ∧ (∃ entry, chatHistory (state ws) = (chatHistory (state w) ++ [entry])%list
              ∧ he_role entry = Assistant)
  ∧ (∃ entry, chatHistory (state wc) = (chatHistory (state w) ++ [entry])%list
              ∧ he_role entry = Assistant)
  ∧ selectedUserDocIds (state ws) = selectedUserDocIds (state w)
  ∧ selectedMahareraIds (state ws) = selectedMahareraIds (state w)
  ∧ selectedUserDocIds (state wc) = selectedUserDocIds (state w)
  ∧ selectedMahareraIds (state wc) = selectedMahareraIds (state w)
  ∧ checkComplianceBtn_disabled (elements wc)
    = negb ((0 <? List.length (documents (state w)))%nat
            && (0 <? JsSet.size (selectedMahareraIds (state w)))%nat).
Proof.
  cbv zeta. unfold checkCompliance_resume.
  match goal with |- context [updateComplianceButtonState ?x] =>
    destruct (updateComplianceButtonState_buttons x) as (Hc & _ & Hs & Hn & Ha);
    rewrite !updateComplianceButtonState_state, Hc, Hs, Hn, Ha
  end.
  destruct outcome; simpl; split_and!; try done; by eexists.
Qed.


(** X10: what a posted request carries. A request posted by
    [sendMessage] has the trimmed, non-empty input as its question and
    leaves the input box empty; a request posted by [checkCompliance] names
    every selected regulation, at least one. In both, a selection field is
    either [null] or a non-empty array (never an empty array), and the
    user-document field is [null] exactly when no user document is
    selected. *)
Theorem posted_request_fields (w : World) (body : QueryRequest) :
  (network (sendMessage_begin w) = (network w ++ [PostQuery body])%list →
   rq_question body = trim (messageInput (elements w))
   ∧ rq_question body ≠ EmptyString
   ∧ messageInput (elements (sendMessage_begin w)) = EmptyString
   ∧ rq_selected_documents body ≠ Some []
   ∧ rq_selected_maharera body ≠ Some []
   ∧ (rq_selected_documents body = None ↔ selectedUserDocIds (state w) = [])
   ∧ (rq_selected_maharera body = None ↔ selectedMahareraIds (state w) = [])
   ∧ rq_compliance_check body = None)
  ∧ (network (checkCompliance_begin w) = (network w ++ [PostQuery body])%list →
     rq_selected_maharera body = Some (selectedMahareraIds (state w))
     ∧ selectedMahareraIds (state w) ≠ []
     ∧ rq_selected_documents body ≠ Some []
     ∧ (rq_selected_documents body = None ↔ selectedUserDocIds (state w) = [])
     ∧ rq_language body = language (settings (state w))).
Proof.
  split.
  - unfold sendMessage_begin.
    destruct (negb (truthy (trim (messageInput (elements w)))) || isLoading (state w))
      eqn:E.
    + intros Hn. by apply app_singleton_neq in Hn.
    + cbn [network fetch].
      change (network (with_elements _ (with_state _ (showTypingIndicator
                (addMessage _ _ _ _ _ _ (removeWelcomeMessage
                   (with_elements _ w)))))))
        with (network w).
      intros Hn. apply app_inv_head in Hn. injection Hn as <-.
      apply orb_false_iff in E as [Ht _]. apply negb_false_iff in Ht.
      apply truthy_true in Ht.
      unfold messageRequest. cbn.
      unfold JsSet.toArray.
      destruct (selectedUserDocIds (state w)), (selectedMahareraIds (state w));
        cbn; split_and!; try done.
  - unfold checkCompliance_begin.
    destruct (Nat.eqb_spec (JsSet.size (selectedMahareraIds (state w))) 0) as [Hm|Hm];
      [|destruct (Nat.eqb_spec (List.length (documents (state w))) 0) as [Hd|Hd]].
    + intros Hn. by apply app_singleton_neq in Hn.
    + intros Hn. by apply app_singleton_neq in Hn.
    + cbn [network fetch].
      change (network (with_elements _ (with_elements _ (with_state _
                (showTypingIndicator (addMessage _ _ _ _ _ _
                   (removeWelcomeMessage w)))))))
        with (network w).
      intros Hn. apply app_inv_head in Hn. injection Hn as <-.
      unfold complianceRequest. cbn - [join pretty].
      unfold JsSet.toArray, JsSet.size in *.
      destruct (selectedUserDocIds (state w)), (selectedMahareraIds (state w));
        cbn - [join]; split_and!; try done.
Qed.

(** X11: a message of white space only is not sent. When every character
    of the input is white space (the empty input included), [sendMessage]
    changes nothing, by whichever way it is invoked: no message is added to
    the chat, no request is made, and the input keeps its content. *)
Theorem blank_message_not_sent (w : World) :
  allWhiteSpace (messageInput (elements w)) = true →
  sendMessage_begin w = w
  ∧ step w PressEnter = w
  ∧ step w ClickSendBtn = w.
Proof.
  intros Hws.
  assert (sendMessage_begin w = w) as Hs.
  { unfold sendMessage_begin, trim. by rewrite (trimStart_allWhiteSpace _ Hws). }
  split_and!; [done|done|].
  simpl. by destruct (sendBtn_disabled (elements w)).
Qed.

End Requests.


(** X10 on the sample page: the typed question goes out trimmed, with the
    selected regulation and no user document. *)
Lemma posted_request_fields_witness :
  let sent := {| rq_question := "Is clause 4 valid?"; rq_top_k := 3;
                 rq_language := "auto"; rq_selected_documents := None;
                 rq_selected_maharera := Some ["circular-12.pdf"];
                 rq_compliance_check := None |} in
  let checked := @complianceRequest typedWorld in
  (rq_question sent = trim (messageInput (elements typedWorld))
   ∧ rq_question sent ≠ EmptyString
   ∧ messageInput (elements (@sendMessage_begin domBrowser typedWorld)) = EmptyString
   ∧ rq_selected_documents sent ≠ Some []
   ∧ rq_selected_maharera sent ≠ Some []
   ∧ (rq_selected_documents sent = None ↔ selectedUserDocIds (state typedWorld) = [])
   ∧ (rq_selected_maharera sent = None ↔ selectedMahareraIds (state typedWorld) = [])
   ∧ rq_compliance_check sent = None)
  ∧ (rq_selected_maharera checked = Some (selectedMahareraIds (state typedWorld))
     ∧ selectedMahareraIds (state typedWorld) ≠ []
     ∧ rq_selected_documents checked ≠ Some []
     ∧ (rq_selected_documents checked = None
        ↔ selectedUserDocIds (state typedWorld) = [])
     ∧ rq_language checked = language (settings (state typedWorld))).
Proof.
  split.
  - apply (proj1 (@posted_request_fields domBrowser typedWorld _)). reflexivity.
  - apply (proj2 (@posted_request_fields domBrowser typedWorld _)). reflexivity.
Defined.

(** X11 on an input of three blanks. *)
Lemma blank_message_not_sent_witness :
  let w := with_elements (set_messageInput "   ") listedWorld in
  @sendMessage_begin domBrowser w = w
  ∧ @step domBrowser w PressEnter = w
  ∧ @step domBrowser w ClickSendBtn = w.
Proof.
  apply (@blank_message_not_sent domBrowser). reflexivity.
Defined.

(** ** More of the rendered message *)


Section MessageParts.
Context {browser : Browser}.

(** X12: the authority references of a red flag on screen. The division
    is built exactly when [has_authority_support] is not [false] and the
    list of references is not empty; it then shows the first two references
    at most, in order, each as its filename and the first 100 characters of
    its excerpt followed by three dots. *)
Theorem authority_references_at_most_two (flag : RedFlag) (i : nat)
    (auth : AuthoritySupport) :
  let refs := orNil (authority_support flag) in
  match authorityView flag with
  | Some lines =>
      has_authority_support flag ≠ Some false
      ∧ refs ≠ []
      ∧ List.length lines = Nat.min 2 (List.length refs)
      ∧ (refs !! i = Some auth → i < 2 →
         ∃ cut,
           lines !! i
           = Some ("- " +:+ escapeHtml (as_filename auth) +:+ ": " +:+ dquote
                   +:+ escapeHtml cut +:+ "..." +:+ dquote)
           ∧ String.prefix cut (as_excerpt auth) = true
           ∧ String.length cut = Nat.min 100 (String.length (as_excerpt auth)))
  | None => has_authority_support flag = Some false ∨ refs = []
  end.
Proof.
  cbv zeta. unfold authorityView.
  case_bool_decide as Hh; cbn -[Nat.min]; [by left|].
  destruct (orNil (authority_support flag)) as [|a refs] eqn:Hrefs;
    cbn -[Nat.min]; [by right|].
  split_and!; [done|done| |].
  - rewrite length_fmap. destruct refs; done.
  - intros Hi Hlt. eexists. split_and!;
      [|apply substring_0_prefix|apply substring_0_length].
    destruct i as [|[|i]]; [| |lia].
    + by injection Hi as ->.
    + destruct refs as [|b refs]; [done|]. by injection Hi as ->.
Qed.

(** X13: the rows of the compliance block. For a compliance check with a
    summary the block is built and shows the found and total counts (zero
    for a missing count). When the summary says compliant, the block has
    the all-found line and no missing group, whatever the three lists
    hold. Otherwise it has the three groups in the order critical, high,
    medium; each group is present exactly when its list is not empty, shows
    the length of its list as its count and has one row per entry, in
    order. *)
Theorem compliance_block_rows (decision : option Decision)
    (summary : ComplianceSummary) :
  isComplianceCheck decision = true →
  ∃ block,
    complianceHTML decision (Some summary) = Some block
    ∧ cbk_fully_compliant block = is_compliant summary
    ∧ cbk_compliant_count block = orZero (compliant_count summary)
    ∧ cbk_total_checks block = orZero (total_checks summary)
    ∧ if is_compliant summary
      then cbk_body block = ComplianceAllFound
      else ∃ critical high medium,
             cbk_body block = ComplianceMissing critical high medium
             ∧ (is_Some critical ↔ orNil (critical_missing summary) ≠ [])
             ∧ (is_Some high ↔ orNil (high_missing summary) ≠ [])
             ∧ (is_Some medium ↔ orNil (medium_missing summary) ≠ [])
             ∧ groupCount critical = List.length (orNil (critical_missing summary))
             ∧ groupCount high = List.length (orNil (high_missing summary))
             ∧ groupCount medium = List.length (orNil (medium_missing summary))
             ∧ groupDomains critical = mc_domain <$> orNil (critical_missing summary)
             ∧ groupDomains high = mc_domain <$> orNil (high_missing summary)
             ∧ groupDomains medium = mc_domain <$> orNil (medium_missing summary).
Proof.
  intros Hc. unfold complianceHTML. rewrite Hc. eexists. split; [reflexivity|].
  cbn [cbk_fully_compliant cbk_compliant_count cbk_total_checks cbk_body].
  split_and!; try done.
  destruct (is_compliant summary); simpl; [done|].
  assert (∀ icon color (l : list MissingClause),
            (is_Some (missingGroup icon color l) ↔ l ≠ [])
            ∧ groupCount (missingGroup icon color l) = List.length l
            ∧ groupDomains (missingGroup icon color l) = mc_domain <$> l) as Hg.
  { intros icon color [|x l]; unfold missingGroup; simpl;
      (split_and!; [split| |]); try done;
      try (by intros [? ?]); try (by eexists);
      try (f_equal; by rewrite <- list_fmap_compose). }
  do 3 eexists. split; [reflexivity|].
  split_and!; apply Hg.
Qed.

Lemma imap_sourceView (srcs : list Source) :
  sv_index <$> imap sourceView srcs = seq 1 (List.length srcs)
  ∧ sv_filename <$> imap sourceView srcs = src_filename <$> srcs
  ∧ sv_text <$> imap sourceView srcs
    = (λ src, escapeHtml (String.substring 0 200 (src_text src)) +:+ "...") <$> srcs.
Proof.
  split_and!; apply list_eq; intros i;
    rewrite !list_lookup_fmap, list_lookup_imap;
    destruct (srcs !! i) as [x|] eqn:Hi; try done.
  - apply lookup_lt_Some in Hi. rewrite lookup_seq_lt by done.
    simpl. f_equal. lia.
  - apply lookup_ge_None in Hi. by rewrite lookup_seq_ge.
Qed.

(** X14: the sources block. It is built exactly when the show-sources
    setting is on and the response has a non-empty list of sources. It then
    has one item per source, in order and numbered from 1, and the text of
    each item is at most the first 200 characters of the source's text,
    serialised for markup, followed by three dots. *)
Theorem sources_block_items (showSrc : bool) (sources : option (list Source)) :
  (is_Some (sourcesHTML showSrc sources)
   ↔ showSrc = true ∧ ∃ srcs, sources = Some srcs ∧ srcs ≠ [])
  ∧ match sourcesHTML showSrc sources with
    | Some views =>
        sv_index <$> views = seq 1 (List.length (orNil sources))
        ∧ sv_filename <$> views = src_filename <$> orNil sources
        ∧ sv_text <$> views
          = (λ src, escapeHtml (String.substring 0 200 (src_text src)) +:+ "...")
            <$> orNil sources
    | None => True
    end.
Proof.
  unfold sourcesHTML. destruct sources as [srcs|].
  - destruct (Nat.ltb_spec 0 (List.length srcs)) as [Hlen|Hlen],
      showSrc; cbn [andb].
    + split; [|apply imap_sourceView].
      split; [intros _|by eexists]. split; [done|].
      exists srcs. split; [done|]. intros ->. simpl in Hlen. lia.
    + split; [|done]. split; [by intros [? ?] | by intros [? _]].
    + split; [|done]. split; [by intros [? ?]|].
      intros (_ & l & [= <-] & Hne). destruct srcs; [done|]. simpl in Hlen. lia.
    + split; [|done]. split; [by intros [? ?] | by intros [? _]].
  - split; [|done]. split; [by intros [? ?]|]. by intros (_ & ? & ? & _).
Qed.


End MessageParts.

(** X12 on a flag with three references: two lines are shown. *)
Lemma authority_references_at_most_two_witness :
  ∃ lines,
    @authorityView domBrowser citedFlag = Some lines
    ∧ List.length lines = 2%nat
    ∧ ∃ cut,
        lines !! 1%nat
        = Some ("- " +:+ @escapeHtml domBrowser "rules.pdf" +:+ ": " +:+ dquote
                +:+ @escapeHtml domBrowser cut +:+ "..." +:+ dquote)
        ∧ String.prefix cut "Rule 9" = true
        ∧ String.length cut = Nat.min 100 (String.length "Rule 9").
Proof.
  pose proof (@authority_references_at_most_two domBrowser citedFlag 1
                {| as_filename := "rules.pdf"; as_excerpt := "Rule 9" |}) as Hthm.
  cbv zeta in Hthm.
  destruct (@authorityView domBrowser citedFlag) as [lines|] eqn:E;
    [|discriminate E].
  destruct Hthm as (_ & _ & Hlen & Hline).
  exists lines. split_and!; [done|exact Hlen|].
  apply Hline; [reflexivity | lia].
Defined.

(** X13 on scenario D: two of five found, one critical and two high
    priority clauses missing, three rows in all. *)
Lemma compliance_block_rows_witness :
  ∃ block,
    @complianceHTML domBrowser
      (Some {| compliance_check := Some true; is_red_flag := Some false |})
      (Some partialSummary) = Some block
    ∧ cbk_fully_compliant block = false
    ∧ cbk_compliant_count block = 2%nat
    ∧ cbk_total_checks block = 5%nat
    ∧ ∃ critical high medium,
        cbk_body block = ComplianceMissing critical high medium
        ∧ (is_Some critical ↔ orNil (critical_missing partialSummary) ≠ [])
        ∧ (is_Some high ↔ orNil (high_missing partialSummary) ≠ [])
        ∧ (is_Some medium ↔ orNil (medium_missing partialSummary) ≠ [])
        ∧ groupCount critical = 1%nat
        ∧ groupCount high = 2%nat
        ∧ groupCount medium = 0%nat
        ∧ groupDomains critical = ["refund"]
        ∧ groupDomains high = ["carpet area"; "possession"]
        ∧ groupDomains medium = [].
Proof.
  apply (@compliance_block_rows domBrowser
           (Some {| compliance_check := Some true; is_red_flag := Some false |})
           partialSummary).
  reflexivity.
Defined.

(** ** Pages and footers *)

Section Pages.
Context {canvas : Canvas}.


End Pages.

Section PageGrowth.
Context {canvas : Canvas}.

Lemma addTextLine_pages (fontSize : Q) (b : Builder) (line : string) :
  (numberOfPages (addTextLine fontSize b line) ≤ S (numberOfPages b))%nat.
Proof.
  destruct (addTextLine_spec fontSize b line)
    as [(_ & _ & -> & _) | (_ & _ & -> & _)]; lia.
Qed.

Lemma addText_loop_pages (fontSize : Q) (lines : list string) (b : Builder) :
  (numberOfPages (foldl (addTextLine fontSize) b lines)
   ≤ numberOfPages b + List.length lines)%nat.
Proof.
  revert b. induction lines as [|line lines IH]; intros b; simpl; [lia|].
  pose proof (IH (addTextLine fontSize b line)).
  pose proof (addTextLine_pages fontSize b line). lia.
Qed.

Lemma batchEntry_pages (b : Builder) (idx : nat) (r : BatchEntry) :
  (numberOfPages (batchEntry b idx r) ≤ S (numberOfPages b))%nat.
Proof.
  unfold batchEntry, checkPageBreak.
  destruct (Qgtb _ _); cbn [numberOfPages set_yPos];
    match goal with |- context [emits ?ops ?b'] =>
      destruct (emits_spec ops b') as (_ & _ & ->) end; simpl; lia.
Qed.

Lemma batch_loop_pages (results : list BatchEntry) (k : nat) (b : Builder) :
  (numberOfPages (forEachFrom batchEntry b k results)
   ≤ numberOfPages b + List.length results)%nat.
Proof.
  revert b k. induction results as [|r results IH]; intros b k; simpl; [lia|].
  pose proof (IH (batchEntry b k r) (S k)).
  pose proof (batchEntry_pages b k r). lia.
Qed.

(** X17: pages only grow, and no faster than the input. Running any
    statements of a report never lowers the page count, and running further
    statements after them never lowers it either. One [addText] adds at
    most as many pages as the text has wrapped lines, and the loop over the
    results of a batch adds at most one page per entry. *)
Theorem pages_grow_with_input (text : string) (fontSize : Q) (isBold : bool)
    (color : Color) (calls more : list Call) (results : list BatchEntry)
    (k : nat) (b : Builder) :
  (numberOfPages b ≤ numberOfPages (foldl exec b calls))%nat
  ∧ (numberOfPages (foldl exec b calls)
     ≤ numberOfPages (foldl exec b (calls ++ more)%list))%nat
  ∧ (numberOfPages b ≤ numberOfPages (addText text fontSize isBold color b))%nat
  ∧ (numberOfPages (addText text fontSize isBold color b)
     ≤ numberOfPages b + List.length (splitTextToSize text maxWidth))%nat
  ∧ (numberOfPages b ≤ numberOfPages (forEachFrom batchEntry b k results))%nat
  ∧ (numberOfPages (forEachFrom batchEntry b k results)
     ≤ numberOfPages b + List.length results)%nat.
Proof.
  split_and!.
  - apply extends_pages, extends_foldl, extends_exec.
  - rewrite foldl_app. apply extends_pages, extends_foldl, extends_exec.
  - apply extends_pages, extends_addText.
  - unfold addText. cbn [numberOfPages set_yPos].
    etrans; [apply addText_loop_pages|]. simpl. lia.
  - apply extends_pages, extends_forEachFrom, extends_batchEntry.
  - apply batch_loop_pages.
Qed.

Lemma countText_textsOf (ops : list DrawOp) :
  countText ops = List.length (textsOf ops).
Proof.
  unfold countText, textsOf. induction ops as [|op ops IH]; [done|].
  destruct op; simpl; rewrite ?IH; done.
Qed.

(** One turn of [disclaimerLines.forEach], in the shape of a paginated
    loop. *)
Lemma disclaimerLine_turn (b : Builder) (line : string) :
  doc (disclaimerLine b line)
  = (doc b ++ pageBreak (pastLimit 20) (yPos b)
     ++ [Text line margin (landing (pastLimit 20) (yPos b)) false])%list
  ∧ yPos (disclaimerLine b line) = (landing (pastLimit 20) (yPos b) + 4)%Q
  ∧ numberOfPages (disclaimerLine b line)
    = (numberOfPages b + countAddPage (pageBreak (pastLimit 20) (yPos b)))%nat.
Proof.
  unfold disclaimerLine, breakIfBelow, pageBreak, landing, pastLimit.
  destruct (Qgtb (yPos b) (pageHeight - 20));
    cbn [doc yPos numberOfPages emit set_yPos addPage].
  - rewrite <- app_assoc. split_and!; [done|done|].
    unfold countAddPage. simpl. lia.
  - split_and!; [done|done|]. unfold countAddPage. simpl. lia.
Qed.

(** X18: the disclaimer text of the single report. Let the top margin lie
    within [pageHeight - 20]. After its two settings, [drawDisclaimer] adds
    to the log one turn for each wrapped line of the disclaimer, in order:
    a turn that finds the cursor past [pageHeight - 20] adds a page and
    draws its line at the top margin, any other draws its line at the
    cursor and adds no page; the cursor then advances by 4. So every
    wrapped line of the disclaimer is drawn, once and in order, at a
    position of at most [pageHeight - 20], ten units above the line the
    footers are written on, and the page count grows by the page breaks
    made. *)
Theorem disclaimer_lines_above_footer (b : Builder) :
  (20 <= pageHeight - 20)%Q →
  let lines := splitTextToSize disclaimer maxWidth in
  let cursor := cursorBefore (pastLimit 20) 4 (yPos b) in
  let drawn := column (pastLimit 20) 4 (yPos b)
                 (λ _ line y, [Text line margin y false]) lines in
  doc (drawDisclaimer b)
  = (doc b ++ [SetFontSize 8; SetTextColor (100, 100, 100)%nat] ++ drawn)%list
  ∧ numberOfPages (drawDisclaimer b) = (numberOfPages b + countAddPage drawn)%nat
  ∧ textsOf drawn = lines
  ∧ countText drawn = List.length lines
  ∧ (∀ k, (pastLimit 20 (cursor k) = true ↔ (pageHeight - 20 < cursor k)%Q)
          ∧ (landing (pastLimit 20) (cursor k) <= pageHeight - 20)%Q)
  ∧ Forall (textWithin (pageHeight - 20)) drawn.
Proof.
  intros Htop. cbv zeta. unfold drawDisclaimer. cbv zeta.
  rewrite (foldl_forEachFrom _ _ 0%nat).
  destruct (paginated_loop (λ b _ line, disclaimerLine b line)
              (pastLimit 20) 4 (λ _ line y, [Text line margin y false])
              (λ b _ x, disclaimerLine_turn b x) (λ _ _ _, eq_refl)
              (splitTextToSize disclaimer maxWidth)
              (emits [SetFontSize 8; SetTextColor (100, 100, 100)%nat] b) 0%nat)
    as (Hd & _ & Hn).
  cbn [emits foldl yPos doc numberOfPages emit] in Hd, Hn |- *.
  assert (textsOf (column (pastLimit 20) 4 (yPos b)
                     (λ _ line y, [Text line margin y false])
                     (splitTextToSize disclaimer maxWidth))
          = splitTextToSize disclaimer maxWidth) as Htexts.
  { rewrite (textsOf_column _ _ _ (λ _ line, [line])) by done.
    apply concat_imap_singleton. }
  split_and!.
  - rewrite Hd, <- !app_assoc. done.
  - exact Hn.
  - exact Htexts.
  - by rewrite countText_textsOf, Htexts.
  - intros k. destruct (pastLimit_spec 20 (cursorBefore (pastLimit 20) 4 (yPos b) k))
      as [Hiff Hle]. split; [exact Hiff | by apply Hle].
  - apply Forall_column; [done|]. intros k x c. repeat constructor.
    cbn [textWithin]. by apply pastLimit_spec.
Qed.

End PageGrowth.

(** X18 on an A4 page, from a cursor past the guard: the one line of the
    disclaimer goes to the top of a new page. *)
Lemma disclaimer_lines_above_footer_witness :
  doc (@drawDisclaimer a4Canvas (set_yPos 280 newBuilder))
  = [ SetFontSize 8; SetTextColor (100, 100, 100)%nat; AddPage;
      Text disclaimer margin 20 false ]
  ∧ numberOfPages (@drawDisclaimer a4Canvas (set_yPos 280 newBuilder)) = 2%nat.
Proof.
  destruct (@disclaimer_lines_above_footer a4Canvas (set_yPos 280 newBuilder))
    as (Hd & Hn & _).
  { vm_compute. discriminate. }
  split; [exact Hd | exact Hn].
Defined.










Lemma countText_imap_text {A} (f : nat → A → DrawOp) (l : list A) :
  (∀ i x, countText [f i x] = 1%nat) → countText (imap f l) = List.length l.
Proof.
  revert f. induction l as [|x l IH]; intros f Hf; [done|].
  rewrite imap_cons.
  change (f 0%nat x :: imap (f ∘ S) l) with ([f 0%nat x] ++ imap (f ∘ S) l)%list.
  rewrite countText_app, Hf, IH; [done|]. intros i y. apply Hf.
Qed.

Lemma Forall_imap_lt {A} (P : DrawOp → Prop) (f : nat → A → DrawOp) (l : list A) :
  (∀ i x, (i < List.length l)%nat → P (f i x)) → Forall P (imap f l).
Proof.
  revert f. induction l as [|x l IH]; intros f Hf; [constructor|].
  rewrite imap_cons. constructor.
  - apply Hf. simpl. lia.
  - apply IH. intros i y Hi. apply Hf. simpl. lia.
Qed.

Lemma flag_line_offset (i : nat) :
  (i ≤ 3)%nat → (inject_Z (Z.of_nat i) * 5 <= 15)%Q.
Proof.
  intros Hi. destruct i as [|[|[|[|i]]]]; [done..|lia].
Qed.

Section BatchEntries.
Context {canvas : Canvas}.

Lemma batchFlagOps_within (y : Q) (flags : list RedFlag) :
  Forall (drawnWithin (y + 33)) (batchFlagOps y flags).
Proof.
  unfold batchFlagOps. constructor; [done|].
  assert (List.length (take 3 flags) ≤ 3)%nat as Hlen
    by (rewrite length_take; lia).
  apply Forall_app. split.
  - apply Forall_imap_lt. intros i rf Hi. cbn [drawnWithin].
    pose proof (flag_line_offset i ltac:(lia)). lra.
  - destruct (3 <? List.length flags)%nat; constructor; [|constructor].
    cbn [drawnWithin]. pose proof (flag_line_offset _ Hlen). lra.
Qed.

Lemma batchEntryOps_within (y : Q) (idx : nat) (r : BatchEntry) :
  Forall (drawnWithin (y + 33)) (batchEntryOps y idx r).
Proof.
  unfold batchEntryOps. cbv zeta. apply Forall_app. split.
  - repeat constructor; cbn [drawnWithin]; lra.
  - destruct (String.eqb (be_status r) "error").
    + repeat constructor; cbn [drawnWithin]; lra.
    + apply Forall_app. split.
      * repeat constructor; cbn [drawnWithin]; lra.
      * destruct (nonEmptyOpt (be_red_flags r)); [|constructor].
        apply batchFlagOps_within.
Qed.

(** X21: a batch entry is drawn whole, on one page, inside the printable
    area. Let an entry started at the top margin fit ([70 <= pageHeight -
    30]). A turn of the loop over the results that finds the cursor at [c]
    adds a page and draws at the top margin exactly when [c + 50] exceeds
    [pageHeight - 30], and draws at [c] without a page break otherwise; it
    leaves the cursor 40 below where it drew. The whole loop adds one such
    block per entry, in order. Wherever an entry is drawn, at [y], there is
    room for 50 units above [pageHeight - 30], the calls of the entry
    contain no page break, and every text of the entry and both ends of its
    border line lie within [y + 33]. *)
Theorem batch_entry_fits_page (results : list BatchEntry) (b : Builder)
    (idx : nat) (r : BatchEntry) :
  (70 <= pageHeight - 30)%Q →
  let cursor := cursorBefore (needsBreak 50) 40 (yPos b) in
  let entries := column (needsBreak 50) 40 (yPos b)
                   (λ i r y, batchEntryOps y i r) results in
  doc (batchEntry b idx r)
  = (doc b ++ pageBreak (needsBreak 50) (yPos b)
     ++ batchEntryOps (landing (needsBreak 50) (yPos b)) idx r)%list
  ∧ yPos (batchEntry b idx r) = (landing (needsBreak 50) (yPos b) + 40)%Q
  ∧ numberOfPages (batchEntry b idx r)
    = (numberOfPages b + countAddPage (pageBreak (needsBreak 50) (yPos b)))%nat
  ∧ doc (forEachFrom batchEntry b 0 results) = (doc b ++ entries)%list
  ∧ numberOfPages (forEachFrom batchEntry b 0 results)
    = (numberOfPages b + countAddPage entries)%nat
  ∧ (∀ c, (needsBreak 50 c = true ↔ (pageHeight - 30 < c + 50)%Q)
          ∧ (landing (needsBreak 50) c + 50 <= pageHeight - 30)%Q)
  ∧ (∀ y i r', countAddPage (batchEntryOps y i r') = 0%nat
               ∧ Forall (drawnWithin (y + 33)) (batchEntryOps y i r')).
Proof.
  intros Hfit. cbv zeta.
  destruct (batchEntry_turn b idx r) as (Hd & Hy & Hn).
  destruct (batch_loop_spec results b) as (Hld & _ & Hln). cbv zeta in Hld, Hln.
  split_and!; try done.
  - intros c. unfold needsBreak, landing. split; [apply Qgtb_true|].
    destruct (Qgtb (c + 50) (pageHeight - 30)) eqn:E; [lra|].
    by apply Qgtb_false in E.
  - intros y i r'. split; [apply countAddPage_batchEntryOps|].
    apply batchEntryOps_within.
Qed.

End BatchEntries.

(** X21 on an A4 page, for an entry that starts too low on its page: it is
    drawn at the top of a new page. *)
Lemma batch_entry_fits_page_witness :
  doc (@batchEntry a4Canvas (set_yPos 240 newBuilder) 0 (flaggedEntry "lease.pdf"))
  = (AddPage :: batchEntryOps 20 0 (flaggedEntry "lease.pdf"))
  ∧ yPos (@batchEntry a4Canvas (set_yPos 240 newBuilder) 0 (flaggedEntry "lease.pdf"))
    = (20 + 40)%Q.
Proof.
  destruct (@batch_entry_fits_page a4Canvas [] (set_yPos 240 newBuilder) 0
              (flaggedEntry "lease.pdf")) as (Hd & Hy & _).
  { vm_compute. discriminate. }
  split; [exact Hd | exact Hy].
Defined.

(** X22: the red-flag lines of a batch entry in the PDF. The first three
    flags of the entry get one line each, five units apart from [y + 18],
    showing the severity, the rule and the first 60 characters of the
    reason followed by three dots; when there are more than three flags one
    more line says how many were left out. An entry therefore never has
    more than four such lines. *)
Theorem batch_flag_lines (y : Q) (flags : list RedFlag) :
  countText (batchFlagOps y flags) = Nat.min (List.length flags) 4
  ∧ (∀ i rf, (i < 3)%nat → flags !! i = Some rf →
       Text ("  - [" +:+ severity rf +:+ "] " +:+ rule_id rf +:+ ": "
             +:+ String.substring 0 60 (reason rf) +:+ "...")
         (margin + 5) (y + 18 + inject_Z (Z.of_nat i) * 5) false
       ∈ batchFlagOps y flags)
  ∧ ((3 < List.length flags)%nat →
     last (batchFlagOps y flags)
     = Some (Text ("  ... and " +:+ pretty (List.length flags - 3)%nat +:+ " more")
               (margin + 5) (y + 18 + inject_Z (Z.of_nat 3) * 5) false)).
Proof.
  unfold batchFlagOps. split_and!.
  - change (SetTextColor (100, 100, 100)%nat :: ?l)
      with ([SetTextColor (100, 100, 100)%nat] ++ l)%list.
    rewrite !countText_app, countText_imap_text by done.
    rewrite length_take.
    destruct (Nat.ltb_spec 3 (List.length flags));
      unfold countText; cbn [List.filter List.length]; lia.
  - intros i rf Hi Hrf. apply list_elem_of_further, elem_of_app. left.
    apply list_elem_of_lookup. exists i.
    rewrite list_lookup_imap, lookup_take_lt, Hrf; done.
  - intros Hlt. rewrite length_take, Nat.min_l by lia.
    destruct (Nat.ltb_spec 3 (List.length flags)) as [_|Hle]; [|lia].
    change (SetTextColor (100, 100, 100)%nat :: ?l ++ [?x])%list
      with ((SetTextColor (100, 100, 100)%nat :: l) ++ [x])%list.
    apply last_snoc.
Qed.

Lemma isCritical_hasIssues (r : BatchEntry) :
  isCritical r = true → hasIssues r = true.
Proof.
  unfold isCritical, hasIssues, nonEmptyOpt.
  destruct (be_red_flags r) as [[|f flags]|]; simpl; done.
Qed.

(** X23: the marking of a batch entry on screen and in the PDF agree. An
    entry marked critical on screen always counts as having issues; the
    entry carries no marking class on screen exactly when it has no issues,
    which is exactly when its border line in the PDF is drawn in green
    rather than amber. *)
Theorem batch_marking_consistent (y : Q) (idx : nat) (r : BatchEntry) :
  (isCritical r = true → hasIssues r = true)
  ∧ (bdr_className (batchDocResult r) = EmptyString ↔ hasIssues r = false)
  ∧ (head (batchEntryOps y idx r) = Some (SetDrawColor (34, 197, 94)%nat)
     ↔ hasIssues r = false)
  ∧ (head (batchEntryOps y idx r) = Some (SetDrawColor (245, 158, 11)%nat)
     ↔ bdr_className (batchDocResult r) ≠ EmptyString).
Proof.
  pose proof (isCritical_hasIssues r) as Hcrit.
  unfold batchDocResult, batchEntryOps. cbn [bdr_className head app].
  destruct (isCritical r), (hasIssues r);
    try (specialize (Hcrit eq_refl); discriminate);
    split_and!; try done; split; intros; try done; discriminate.
Qed.

Section BatchModalProperties.
Context {parser : Parser}.

Lemma openBatchModal_list (l : list Document) :
  bdi_value <$> List.filter bdi_checked
    ((λ d, {| bdi_value := doc_filename d; bdi_checked := true |}) <$> l)
  = doc_filename <$> l.
Proof.
  induction l as [|d l IH]; [done|].
  rewrite !fmap_cons. cbn [List.filter bdi_checked]. by rewrite fmap_cons, IH.
Qed.

Lemma openBatchModal_spec (bw : BatchWorld) :
  JsSet.size (selectedUserDocIds (state (bw_world bw))) ≠ 0%nat →
  batchDocList (bw_batch (openBatchModal bw))
  = parseCheckboxes (batchDocListHTML (batchSelectedDocs (bw_world bw)))
  ∧ batchModal_active (bw_batch (openBatchModal bw)) = true
  ∧ batchProgress_shown (bw_batch (openBatchModal bw)) = false
  ∧ batchProgressFill_width (bw_batch (openBatchModal bw)) = 0%nat
  ∧ bw_world (openBatchModal bw) = bw_world bw
  ∧ bw_requests (openBatchModal bw) = bw_requests bw.
Proof.
  intros Hsize. unfold openBatchModal.
  destruct (Nat.eqb_spec (JsSet.size (selectedUserDocIds (state (bw_world bw)))) 0)
    as [E|_]; done.
Qed.

Lemma filter_selected_elem (sel : JsSet.t) (docs : list Document) (name : string) :
  name ∈ doc_filename <$> List.filter (λ d, JsSet.has sel (doc_filename d)) docs
  ↔ name ∈ (doc_filename <$> docs) ∧ JsSet.has sel name = true.
Proof.
  rewrite !list_elem_of_fmap. split.
  - intros (d & -> & Hd). apply list_elem_of_In, filter_In in Hd as [Hd Hsel].
    split; [|done]. exists d. split; [done|]. by apply list_elem_of_In.
  - intros [(d & -> & Hd) Hsel]. exists d. split; [done|].
    apply list_elem_of_In, filter_In. split; [by apply list_elem_of_In|done].
Qed.

(** X24: what the batch modal offers. Let at least one user document be
    selected, and let the browser read the markup of the list back as one
    checked box per offered document with the filename as its value (as it
    does for filenames without markup of their own; the script writes the
    filename into the markup as it is). Then [openBatchModal] opens the
    modal with the progress bar hidden and reset; the markup it assigns is
    that of the listed documents whose filename is selected, in the order
    of the listing; the boxes are exactly these documents, all ticked, and
    a selected filename that is no longer listed is not offered. It posts
    nothing and changes neither the selection nor the page outside the
    modal. *)
Theorem openBatchModal_offers_listed_selection (bw : BatchWorld) :
  JsSet.size (selectedUserDocIds (state (bw_world bw))) ≠ 0%nat →
  parseCheckboxes (batchDocListHTML (batchSelectedDocs (bw_world bw)))
  = ((λ d, {| bdi_value := doc_filename d; bdi_checked := true |})
     <$> batchSelectedDocs (bw_world bw)) →
  let w := bw_world bw in
  let bw' := openBatchModal bw in
  batchModal_active (bw_batch bw') = true
  ∧ batchProgress_shown (bw_batch bw') = false
  ∧ batchProgressFill_width (bw_batch bw') = 0%nat
  ∧ batchDocList (bw_batch bw')
    = parseCheckboxes
        (batchDocListHTML
           (List.filter
              (λ d, JsSet.has (selectedUserDocIds (state w)) (doc_filename d))
              (documents (state w))))
  ∧ checkedDocumentIds (bw_batch bw')
    = doc_filename
      <$> List.filter (λ d, JsSet.has (selectedUserDocIds (state w)) (doc_filename d))
            (documents (state w))
  ∧ (∀ name, name ∈ checkedDocumentIds (bw_batch bw')
       ↔ name ∈ (doc_filename <$> documents (state w))
         ∧ JsSet.has (selectedUserDocIds (state w)) name = true)
  ∧ List.length (batchDocList (bw_batch bw'))
    = List.length (checkedDocumentIds (bw_batch bw'))
  ∧ bw_world bw' = w
  ∧ bw_requests bw' = bw_requests bw.
Proof.
  intros Hsize Hread. cbv zeta.
  destruct (openBatchModal_spec bw Hsize) as (Hlist & -> & -> & -> & -> & ->).
  unfold checkedDocumentIds. rewrite Hlist.
  split_and!; try done; rewrite Hread, ?openBatchModal_list.
  - done.
  - intros name. apply filter_selected_elem.
  - by rewrite !length_fmap.
Qed.

Lemma setBatchDocChecked_frame (filename : string) (v : bool) (bw : BatchWorld) :
  bw_world (setBatchDocChecked filename v bw) = bw_world bw
  ∧ bw_requests (setBatchDocChecked filename v bw) = bw_requests bw
  ∧ bdi_value <$> batchDocList (bw_batch (setBatchDocChecked filename v bw))
    = bdi_value <$> batchDocList (bw_batch bw).
Proof.
  split_and!; [done..|]. unfold setBatchDocChecked.
  cbn [with_batch bw_batch set_batchDocList batchDocList].
  induction (batchDocList (bw_batch bw)) as [|item l IH]; [done|].
  rewrite !fmap_cons, IH. by destruct (bool_decide _).
Qed.

Lemma batch_edits_frame (edits : list (string * bool)) (bw : BatchWorld) :
  let bw' := foldl (λ acc e, setBatchDocChecked e.1 e.2 acc) bw edits in
  bw_world bw' = bw_world bw
  ∧ bw_requests bw' = bw_requests bw
  ∧ bdi_value <$> batchDocList (bw_batch bw')
    = bdi_value <$> batchDocList (bw_batch bw).
Proof.
  cbv zeta. revert bw. induction edits as [|[name v] edits IH]; intros bw; [done|].
  cbn [foldl fst snd]. destruct (IH (setBatchDocChecked name v bw)) as (-> & -> & ->).
  apply setBatchDocChecked_frame.
Qed.

Lemma checkedDocumentIds_listed (e : BatchElements) (name : string) :
  name ∈ checkedDocumentIds e → name ∈ bdi_value <$> batchDocList e.
Proof.
  unfold checkedDocumentIds. rewrite !list_elem_of_fmap.
  intros (item & -> & Hin). exists item. split; [done|].
  apply list_elem_of_In. apply list_elem_of_In, filter_In in Hin. tauto.
Qed.

(** X25: a batch request names only listed, selected documents. Under the
    conditions of X24 (a non-empty selection, and a browser that reads the
    filenames of the offered documents back as they are), open the modal,
    tick and untick boxes of its list in any way, and start. Then either no
    box is ticked, nothing is posted and the user is alerted, or exactly
    one request is posted: its [document_ids] are the ticked boxes, not
    empty, each the filename of a listed document that is selected; its
    [maharera_ids] are the selected regulations, which may be none; and the
    start button is disabled. *)
Theorem batch_posts_only_listed_selection (bw : BatchWorld)
    (edits : list (string * bool)) :
  JsSet.size (selectedUserDocIds (state (bw_world bw))) ≠ 0%nat →
  parseCheckboxes (batchDocListHTML (batchSelectedDocs (bw_world bw)))
  = ((λ d, {| bdi_value := doc_filename d; bdi_checked := true |})
     <$> batchSelectedDocs (bw_world bw)) →
  let w := bw_world bw in
  let bw1 := foldl (λ acc e, setBatchDocChecked e.1 e.2 acc) (openBatchModal bw) edits in
  let bw2 := startBatchProcessing_begin bw1 in
  (checkedDocumentIds (bw_batch bw1) = []
   ∧ bw_requests bw2 = bw_requests bw
   ∧ alerts (bw_world bw2)
     = (alerts w ++ ["Please select at least one document to process."])%list)
  ∨ (∃ req,
       bw_requests bw2 = (bw_requests bw ++ [req])%list
       ∧ brq_document_ids req = checkedDocumentIds (bw_batch bw1)
       ∧ brq_document_ids req ≠ []
       ∧ (∀ name, name ∈ brq_document_ids req →
            name ∈ (doc_filename <$> documents (state w))
            ∧ JsSet.has (selectedUserDocIds (state w)) name = true)
       ∧ brq_maharera_ids req = JsSet.toArray (selectedMahareraIds (state w))
       ∧ alerts (bw_world bw2) = alerts w
       ∧ startBatchBtn_disabled (bw_batch bw2) = true).
Proof.
  intros Hsize Hread. cbv zeta.
  destruct (openBatchModal_spec bw Hsize) as (Hlist & _ & _ & _ & Hw & Hreq).
  rewrite Hread in Hlist.
  destruct (batch_edits_frame edits (openBatchModal bw)) as (Hw1 & Hreq1 & Hvals).
  cbv zeta in Hw1, Hreq1, Hvals.
  set (bw1 := foldl _ (openBatchModal bw) edits) in *.
  unfold startBatchProcessing_begin.
  destruct (checkedDocumentIds (bw_batch bw1)) as [|name ids] eqn:Hchecked.
  - left. cbn [List.length Nat.eqb]. split_and!; [done| |].
    + cbn [with_world bw_requests]. by rewrite Hreq1, Hreq.
    + cbn [with_world bw_world alert alerts]. by rewrite Hw1, Hw.
  - right. cbn [List.length Nat.eqb]. eexists. split_and!.
    + cbn [bw_requests with_batch]. by rewrite Hreq1, Hreq.
    + done.
    + done.
    + cbn [brq_document_ids]. intros n Hn.
      assert (n ∈ bdi_value <$> batchDocList (bw_batch bw1)) as Hin
        by (apply checkedDocumentIds_listed; by rewrite Hchecked).
      rewrite Hvals, Hlist, <- list_fmap_compose in Hin.
      by apply filter_selected_elem in Hin.
    + cbn [brq_maharera_ids with_batch bw_world]. by rewrite Hw1, Hw.
    + cbn [with_batch bw_world]. by rewrite Hw1, Hw.
    + done.
Qed.

Lemma batchStep_requests (bw : BatchWorld) (ev : BatchEvent) :
  (bw_requests (batchStep bw ev) = bw_requests bw
   ∧ ((∀ o, ev ≠ BatchSettles o) →
      startBatchBtn_disabled (bw_batch (batchStep bw ev))
      = startBatchBtn_disabled (bw_batch bw)))
  ∨ (∃ req, bw_requests (batchStep bw ev) = (bw_requests bw ++ [req])%list
       ∧ brq_document_ids req ≠ []
       ∧ startBatchBtn_disabled (bw_batch bw) = false
       ∧ startBatchBtn_disabled (bw_batch (batchStep bw ev)) = true).
Proof.
  destruct ev as [| |name v| |o|]; cbn [batchStep].
  - left. unfold openBatchModal. by destruct (_ =? _)%nat.
  - by left.
  - by left.
  - destruct (startBatchBtn_disabled (bw_batch bw)) eqn:Hbtn; [by left|].
    unfold startBatchProcessing_begin.
    destruct (checkedDocumentIds (bw_batch bw)) as [|name ids] eqn:Hids;
      cbn [List.length Nat.eqb].
    + left. by rewrite <- Hbtn.
    + right. eexists. split_and!; done.
  - left. split.
    + unfold batchSettles. destruct (bw_inflight bw); [done|]. by destruct o.
    + intros Ho. by destruct (Ho o).
  - left. unfold batchTimerFires. by destruct (bw_timers bw) as [|[data g] rest].
Qed.

Lemma batchStep_frame (bw : BatchWorld) (ev : BatchEvent) :
  state (bw_world (batchStep bw ev)) = state (bw_world bw)
  ∧ (batchProgressFill_failed (bw_batch bw) = true →
     batchProgressFill_failed (bw_batch (batchStep bw ev)) = true)
  ∧ (∃ shown, bw_messages (batchStep bw ev) = (bw_messages bw ++ shown)%list).
Proof.
  destruct ev as [| |name v| |o|]; cbn [batchStep].
  - unfold openBatchModal. destruct (_ =? _)%nat; split_and!; try done;
      exists []; by rewrite app_nil_r.
  - split_and!; try done. exists []. by rewrite app_nil_r.
  - split_and!; try done. exists []. by rewrite app_nil_r.
  - destruct (startBatchBtn_disabled (bw_batch bw));
      [split_and!; try done; exists []; by rewrite app_nil_r|].
    unfold startBatchProcessing_begin. destruct (_ =? _)%nat; split_and!; try done;
      exists []; by rewrite app_nil_r.
  - unfold batchSettles. destruct (bw_inflight bw) as [|options rest];
      [|destruct o]; split_and!; try done; exists []; by rewrite app_nil_r.
  - unfold batchTimerFires. destruct (bw_timers bw) as [|[data g] rest].
    + split_and!; try done. exists []. by rewrite app_nil_r.
    + split_and!; try done. eexists. done.
Qed.

(** X26: what no course of events around the batch modal changes. Take
    any sequence of openings and closings of the modal, ticks of its boxes,
    presses of the start button, settlements of batch requests and firings
    of the result timer. The selections and listings of the page are what
    they were; every batch request posted on the way names at least one
    document; once the progress bar has turned red after a failure it stays
    red, also through a later successful run; and the chat never loses a
    batch result it has shown. *)
Theorem batch_events_preserve (bw : BatchWorld) (events : list BatchEvent) :
  let bw' := foldl batchStep bw events in
  state (bw_world bw') = state (bw_world bw)
  ∧ (∃ posted, bw_requests bw' = (bw_requests bw ++ posted)%list
       ∧ Forall (λ req, brq_document_ids req ≠ []) posted)
  ∧ (batchProgressFill_failed (bw_batch bw) = true →
     batchProgressFill_failed (bw_batch bw') = true)
  ∧ (∃ shown, bw_messages bw' = (bw_messages bw ++ shown)%list).
Proof.
  cbv zeta. revert bw. induction events as [|ev events IH]; intros bw.
  - cbn [foldl]. split_and!; try done; exists []; by rewrite app_nil_r.
  - cbn [foldl].
    destruct (IH (batchStep bw ev)) as (-> & (posted & -> & Hposted) & Hred & (shown & ->)).
    destruct (batchStep_frame bw ev) as (-> & Hred1 & (shown1 & ->)).
    split_and!.
    + done.
    + destruct (batchStep_requests bw ev) as [[-> _] | (req & -> & Hne & _)].
      * by exists posted.
      * exists (req :: posted). split; [by rewrite <- app_assoc|].
        by constructor.
    + auto.
    + exists (shown1 ++ shown)%list. by rewrite app_assoc.
Qed.

Lemma batch_disabled_posts_nothing (events : list BatchEvent) (bw : BatchWorld) :
  (∀ o, BatchSettles o ∉ events) →
  startBatchBtn_disabled (bw_batch bw) = true →
  bw_requests (foldl batchStep bw events) = bw_requests bw.
Proof.
  revert bw. induction events as [|ev events IH]; intros bw Hno Hbtn; [done|].
  cbn [foldl].
  assert (∀ o, ev ≠ BatchSettles o) as Hev
    by (intros o ->; apply (Hno o), list_elem_of_here).
  assert (∀ o, BatchSettles o ∉ events) as Hrest
    by (intros o Hin; apply (Hno o), list_elem_of_further, Hin).
  destruct (batchStep_requests bw ev) as [[Hreq Hsame] | (req & _ & _ & Hoff & _)].
  - rewrite IH, Hreq; [done|exact Hrest|]. by rewrite Hsame.
  - congruence.
Qed.

(** X27: one batch request at a time. In any course of events around the
    modal in which no batch request settles, at most one request is posted,
    however often the start button is pressed and whatever is ticked or
    reopened in between: the button is disabled from the moment the request
    is posted, and only a settlement enables it again. *)
Theorem batch_single_request_in_flight (bw : BatchWorld)
    (events : list BatchEvent) :
  (∀ o, BatchSettles o ∉ events) →
  (List.length (bw_requests (foldl batchStep bw events))
   ≤ S (List.length (bw_requests bw)))%nat.
Proof.
  revert bw. induction events as [|ev events IH]; intros bw Hno;
    cbn [foldl]; [lia|].
  assert (∀ o, BatchSettles o ∉ events) as Hrest
    by (intros o Hin; apply (Hno o), list_elem_of_further, Hin).
  destruct (batchStep_requests bw ev) as [[Hreq _] | (req & Hreq & _ & _ & Hon)].
  - specialize (IH (batchStep bw ev) Hrest). by rewrite Hreq in IH.
  - rewrite (batch_disabled_posts_nothing events _ Hrest Hon), Hreq, length_app.
    simpl. lia.
Qed.


End BatchModalProperties.

(** The sample browser reads the filenames of the sample page back as
    they are. *)
Example sampleParser_reads_back :
  @parseCheckboxes sampleParser
    (batchDocListHTML [userDoc "agreement.pdf"; userDoc "lease.pdf"])
  = [ {| bdi_value := "agreement.pdf"; bdi_checked := true |};
      {| bdi_value := "lease.pdf"; bdi_checked := true |} ].
Proof. vm_compute. reflexivity. Qed.

(** A filename with a double quote is not read back as it is: the value
    of its box ends at the quote. *)
Example quoted_filename_is_cut :
  bdi_value <$> @parseCheckboxes sampleParser
    (batchDocListHTML [userDoc ("sale " +:+ dquote +:+ "final" +:+ dquote
                                +:+ " deed.pdf")])
  = ["sale "].
Proof. vm_compute. reflexivity. Qed.

(** X24 on the sample page with one of its two documents selected. *)
Lemma openBatchModal_offers_listed_selection_witness :
  checkedDocumentIds
    (bw_batch (@openBatchModal sampleParser
                 (batchWorld (toggleUserDocSelection "lease.pdf" listedWorld))))
  = ["lease.pdf"].
Proof.
  pose proof (@openBatchModal_offers_listed_selection sampleParser
                (batchWorld (toggleUserDocSelection "lease.pdf" listedWorld))
                ltac:(vm_compute; discriminate)
                ltac:(vm_compute; reflexivity)) as H.
  cbv zeta in H. destruct H as (_ & _ & _ & _ & -> & _). reflexivity.
Defined.

(** X25 on the sample page: both documents selected, one unticked in the
    modal. *)
Lemma batch_posts_only_listed_selection_witness :
  ∃ req,
    bw_requests
      (startBatchProcessing_begin
         (foldl (λ acc e, setBatchDocChecked e.1 e.2 acc)
            (@openBatchModal sampleParser
               (batchWorld (toggleUserDocSelection "lease.pdf"
                              (toggleUserDocSelection "agreement.pdf" listedWorld))))
            [("agreement.pdf", false)]))
    = [req]
    ∧ brq_document_ids req = ["lease.pdf"]
    ∧ brq_maharera_ids req = [].
Proof.
  destruct (@batch_posts_only_listed_selection sampleParser
              (batchWorld (toggleUserDocSelection "lease.pdf"
                             (toggleUserDocSelection "agreement.pdf" listedWorld)))
              [("agreement.pdf", false)]
              ltac:(vm_compute; discriminate)
              ltac:(vm_compute; reflexivity))
    as [(Hnone & _) | (req & Hreq & Hids & _ & _ & Hreg & _)].
  - vm_compute in Hnone. discriminate.
  - exists req. split_and!; [exact Hreq | by rewrite Hids | by rewrite Hreg].
Defined.

(** X27 on the sample page: the start button pressed three times, the
    modal reopened in between. *)
Lemma batch_single_request_in_flight_witness :
  (List.length
     (bw_requests
        (foldl (@batchStep sampleParser)
           (batchWorld (toggleUserDocSelection "lease.pdf" listedWorld))
           [ OpenBatchModal; ClickStartBatchBtn; ClickStartBatchBtn;
             OpenBatchModal; ClickStartBatchBtn ]))
   ≤ 1)%nat.
Proof.
  apply (@batch_single_request_in_flight sampleParser
           (batchWorld (toggleUserDocSelection "lease.pdf" listedWorld))).
  intros o Hin.
  apply list_elem_of_In in Hin. simpl in Hin. intuition discriminate.
Defined.


(** X29: the single selection of the older interface. The handler
    [toggleDocumentSelection] selects the document unless it is the
    selected one, which it deselects, and touches neither checkbox
    selection; the checkbox handlers never touch the single selection.
    After a successful delete the single selection does not name the
    deleted document, and a single selection of another document is
    kept. *)
Theorem single_selection_independent (filename other : string) (w : World) :
  let toggled := toggleDocumentSelection filename w in
  let deleted := deleteDocument_resume filename (ResponseOk ()) w in
  (selectedDocument (state toggled) = Some filename
   ↔ selectedDocument (state w) ≠ Some filename)
  ∧ (selectedDocument (state toggled) = None
     ↔ selectedDocument (state w) = Some filename)
  ∧ selectedUserDocIds (state toggled) = selectedUserDocIds (state w)
  ∧ selectedMahareraIds (state toggled) = selectedMahareraIds (state w)
  ∧ selectedDocument (state (toggleUserDocSelection other w))
    = selectedDocument (state w)
  ∧ selectedDocument (state (toggleMahareraSelection other w))
    = selectedDocument (state w)
  ∧ selectedDocument (state deleted) ≠ Some filename
  ∧ (other ≠ filename → selectedDocument (state w) = Some other →
     selectedDocument (state deleted) = Some other).
Proof.
  cbv zeta.
  assert (∀ w', state (renderDocumentList w') = state w') as Hrender.
  { intros w'. unfold renderDocumentList.
    destruct (documents (state w')), (selectAllUserDocs (elements w')); done. }
  assert (∀ w', state (updateSelectAllUserDocsState w') = state w') as Hall.
  { intros w'. unfold updateSelectAllUserDocsState.
    by destruct (selectAllUserDocs (elements w')). }
  unfold toggleDocumentSelection, toggleUserDocSelection, toggleMahareraSelection,
    deleteDocument_resume, loadDocuments_begin.
  rewrite Hrender, !updateComplianceButtonState_state, Hall.
  split_and!.
  - destruct (bool_decide_reflect (selectedDocument (state w) = Some filename));
      simpl; split; intros; done.
  - destruct (bool_decide_reflect (selectedDocument (state w) = Some filename));
      simpl; split; intros; done.
  - by destruct (bool_decide _).
  - by destruct (bool_decide _).
  - by destruct (JsSet.has _ _).
  - by destruct (JsSet.has _ _).
  - cbn [fetch state].
    destruct (bool_decide_reflect (selectedDocument (state w) = Some filename));
      simpl; done.
  - intros Hne Hsel. cbn [fetch state].
    destruct (bool_decide_reflect (selectedDocument (state w) = Some filename))
      as [E|E]; simpl; [congruence|done].
Qed.
